(** * forsit-project: the inventory and sales backend

    A shallow embedding of the FastAPI handlers of [app/routes/Inventory.py]
    and [app/routes/Sales.py], of the error helpers of
    [app/utils/error_handling.py] and of the two MongoDB collections of
    [app/utils/database.py], followed by the properties of the sale-recording
    workflow and of the error handling.

    A handler is a computation in a state-and-exception monad over a [world]:
    the two collections, the server clock, and a script of what the storage
    driver answers to the coming calls.  Python exceptions are values of
    [exn]; [try_except] is Python's [try: ... except Exception: ...]. *)

From Stdlib Require Import ZArith List String Ascii Bool Lia.
From Stdlib Require Import Floats.PrimFloat Floats.SpecFloat Floats.FloatOps.
From Stdlib Require Import DecimalString Strings.Byte.
Import ListNotations.

Set Warnings "-inexact-float".
Local Open Scope string_scope.
Local Open Scope Z_scope.

(** ** Python values *)

Module Py.

(** The exceptions the handlers can meet.  All four are subclasses of
    Python's [Exception]. *)
Inductive exn : Type :=
| HTTPException (status_code : Z) (detail : string)
| PyMongoError      (* raised by a storage call that fails *)
| InvalidId         (* bson.errors.InvalidId, from ObjectId(item_id) *)
| OverflowError.    (* int too large for a float, or for a BSON integer *)

Inductive outcome (A : Type) : Type :=
| Return (a : A)
| Raise (e : exn).
Arguments Return {A} a.
Arguments Raise {A} e.

(** [str(n)] for an int. *)
Definition str_int (n : Z) : string :=
  DecimalString.NilZero.string_of_int (Z.to_int n).

(** [float(n)] for an int, as the float operators apply it to an int
    operand: the nearest double, ties to even; an int that rounds beyond
    the largest double raises OverflowError. *)
Definition float_limit : Z := 2 ^ 1024 - 2 ^ 970.

Definition nearest_float (n : Z) : float :=
  SF2Prim (binary_normalize prec emax n 0 false).

Definition float_of_int (n : Z) : outcome float :=
  if Z.abs n <? float_limit then Return (nearest_float n)
  else Raise OverflowError.

(** [x * n] for a float [x] and an int [n]. *)
Definition float_mul_int (x : float) (n : Z) : outcome float :=
  match float_of_int n with
  | Return y => Return (PrimFloat.mul x y)
  | Raise e => Raise e
  end.

(** [datetime] values and the two [strftime] formats the code uses. *)
Record datetime : Type := {
  year : nat; month : nat; day : nat;
  hour : nat; minute : nat; second : nat
}.

Definition digits (n : nat) : string :=
  DecimalString.NilZero.string_of_uint (Nat.to_uint n).

Fixpoint zeros (k : nat) : string :=
  match k with
  | O => ""
  | S k' => String "0" (zeros k')
  end.

(** A decimal number padded with zeros on the left to [width] digits. *)
Definition zfill (width : nat) (n : nat) : string :=
  let s := digits n in (zeros (width - String.length s) ++ s)%string.

(** [d.strftime("%m/%d/%Y")] *)
Definition strftime_mdY (d : datetime) : string :=
  (zfill 2 (month d) ++ "/" ++ zfill 2 (day d) ++ "/" ++ zfill 4 (year d))%string.

(** [d.strftime("%H:%M:%S")] *)
Definition strftime_HMS (d : datetime) : string :=
  (zfill 2 (hour d) ++ ":" ++ zfill 2 (minute d) ++ ":"
   ++ zfill 2 (second d))%string.

End Py.
Export Py.

(** ** BSON values *)

Module Bson.

(** The value of a hexadecimal digit of either case. *)
Definition hex_digit (c : ascii) : option N :=
  let n := N_of_ascii c in
  if (48 <=? n)%N && (n <=? 57)%N then Some (n - 48)%N
  else if (65 <=? n)%N && (n <=? 70)%N then Some (n - 55)%N
  else if (97 <=? n)%N && (n <=? 102)%N then Some (n - 87)%N
  else None.

(** ASCII whitespace: tab, line feed, vertical tab, form feed, carriage
    return and space. *)
Definition isspace (c : ascii) : bool :=
  let n := N_of_ascii c in
  ((9 <=? n)%N && (n <=? 13)%N) || (n =? 32)%N.

Definition byte_of_N (n : N) : byte :=
  match Byte.of_N n with
  | Some b => b
  | None => x00
  end.

(** [bytes.fromhex(s)]: two hexadecimal digits for each byte, with ASCII
    whitespace skipped before a byte and at the end, but not between the
    two digits of a byte; None stands for the ValueError. *)
Fixpoint fromhex (s : string) : option (list byte) :=
  match s with
  | EmptyString => Some []
  | String c s' =>
      if isspace c then fromhex s'
      else
        match hex_digit c, s' with
        | Some top, String c' s'' =>
            match hex_digit c' with
            | Some bot =>
                option_map (cons (byte_of_N (16 * top + bot))) (fromhex s'')
            | None => None
            end
        | _, _ => None
        end
  end.

(** [binascii.hexlify(b).decode()]: two lower-case hexadecimal digits for
    each byte. *)
Definition hex_char (d : N) : ascii :=
  ascii_of_N (if (d <? 10)%N then 48 + d else 87 + d).

Fixpoint hexlify (b : list byte) : string :=
  match b with
  | [] => ""
  | x :: b' =>
      String (hex_char (Byte.to_N x / 16))
        (String (hex_char (Byte.to_N x mod 16)) (hexlify b'))
  end.

(** An ObjectId holds the bytes of its [binary]: twelve in the ids the
    driver generates. *)
Definition ObjectId : Type := list byte.

(** [ObjectId(s)] for a str: InvalidId unless [len(s) == 24] and
    [bytes.fromhex(s)] succeeds.  The bytes are not counted: a string of
    twenty-four characters with whitespace in it gives an ObjectId of fewer
    than twelve bytes. *)
Definition ObjectId_of_str (s : string) : outcome ObjectId :=
  if (String.length s =? 24)%nat then
    match fromhex s with
    | Some b => Return b
    | None => Raise InvalidId
    end
  else Raise InvalidId.

(** [str(oid)] *)
Definition str_ObjectId (oid : ObjectId) : string := hexlify oid.

(** [a == b] for two ObjectIds: the same bytes. *)
Fixpoint ObjectId_eqb (a b : ObjectId) : bool :=
  match a, b with
  | [], [] => true
  | x :: a', y :: b' => Byte.eqb x y && ObjectId_eqb a' b'
  | _, _ => false
  end.

(** The ObjectId that follows [oid] in the driver's count: the bytes as a
    number, most significant first, and one more; [carry] tells that every
    byte was 255. *)
Fixpoint increment (b : list byte) : bool * list byte :=
  match b with
  | [] => (true, [])
  | x :: b' =>
      let (carry, r) := increment b' in
      if carry then
        (Byte.eqb x xff, byte_of_N ((Byte.to_N x + 1) mod 256) :: r)
      else (false, x :: r)
  end.

Definition ObjectId_succ (oid : ObjectId) : ObjectId := snd (increment oid).

(** The [_id] of a stored document: the ObjectId the driver generated, or
    a string when the document was stored with one. *)
Inductive id : Type :=
| IdObject (oid : ObjectId)
| IdStr (s : string).

Definition id_eqb (a b : id) : bool :=
  match a, b with
  | IdObject x, IdObject y => ObjectId_eqb x y
  | IdStr x, IdStr y => String.eqb x y
  | _, _ => false
  end.

Definition str_id (i : id) : string :=
  match i with
  | IdObject oid => str_ObjectId oid
  | IdStr s => s
  end.

(** BSON integers have at most eight bytes; the driver raises
    OverflowError when asked to encode a larger int. *)
Definition int64 (n : Z) : bool := (- 2 ^ 63 <=? n) && (n <? 2 ^ 63).

End Bson.
Export Bson.

(** ** app/models *)

Module Models.

(** [InventoryCreate] of app/models/Inventory.py. *)
Module InventoryCreate.
Record t : Type := { Products : string; Quantity : Z }.
End InventoryCreate.

(** [InventoryUpdate]: both fields are optional, and [None] is a field the
    client did not set, which [dict(exclude_unset=True)] leaves out. *)
Module InventoryUpdate.
Record t : Type := { Products : option string; Quantity : option Z }.
End InventoryUpdate.

(** [Inventory], the response model: the fields of [InventoryCreate].
    The annotation [_id: str] of [InventoryInDB] has a leading underscore,
    which makes it a private attribute and no field, and a keyword argument
    that names no field is ignored. *)
Module Inventory.
Record t : Type := { Products : string; Quantity : Z }.
End Inventory.

(** [Sale] of app/models/Sales.py. *)
Record Sale : Type := {
  invoice_id : string;
  branch : string;
  city : string;
  customer_type : string;
  gender : string;
  product_line : string;
  unit_price : float;
  quantity : Z;
  tax_5_percent : float;
  total : float;
  date : string;
  time : string;
  payment : string;
  cogs : float;
  gross_margin_percentage : float;
  gross_income : float;
  rating : float
}.

(** Attribute assignments [sale.date = v], [sale.time = v],
    [sale.total = v] and [sale.tax_5_percent = v]. *)
Definition set_date (v : string) (s : Sale) : Sale :=
  {| invoice_id := invoice_id s; branch := branch s; city := city s;
     customer_type := customer_type s; gender := gender s;
     product_line := product_line s; unit_price := unit_price s;
     quantity := quantity s; tax_5_percent := tax_5_percent s;
     total := total s; date := v; time := time s; payment := payment s;
     cogs := cogs s; gross_margin_percentage := gross_margin_percentage s;
     gross_income := gross_income s; rating := rating s |}.

Definition set_time (v : string) (s : Sale) : Sale :=
  {| invoice_id := invoice_id s; branch := branch s; city := city s;
     customer_type := customer_type s; gender := gender s;
     product_line := product_line s; unit_price := unit_price s;
     quantity := quantity s; tax_5_percent := tax_5_percent s;
     total := total s; date := date s; time := v; payment := payment s;
     cogs := cogs s; gross_margin_percentage := gross_margin_percentage s;
     gross_income := gross_income s; rating := rating s |}.

Definition set_total (v : float) (s : Sale) : Sale :=
  {| invoice_id := invoice_id s; branch := branch s; city := city s;
     customer_type := customer_type s; gender := gender s;
     product_line := product_line s; unit_price := unit_price s;
     quantity := quantity s; tax_5_percent := tax_5_percent s;
     total := v; date := date s; time := time s; payment := payment s;
     cogs := cogs s; gross_margin_percentage := gross_margin_percentage s;
     gross_income := gross_income s; rating := rating s |}.

Definition set_tax_5_percent (v : float) (s : Sale) : Sale :=
  {| invoice_id := invoice_id s; branch := branch s; city := city s;
     customer_type := customer_type s; gender := gender s;
     product_line := product_line s; unit_price := unit_price s;
     quantity := quantity s; tax_5_percent := v;
     total := total s; date := date s; time := time s; payment := payment s;
     cogs := cogs s; gross_margin_percentage := gross_margin_percentage s;
     gross_income := gross_income s; rating := rating s |}.

End Models.
Export Models.

(** ** app/utils/database.py: the two collections and the driver *)

Module Database.

(** A document of the [inventory] collection, of the shape [InventoryInDB]
    declares. *)
Record InventoryDoc : Type := {
  doc_id : id;
  Products : string;
  Quantity : Z
}.

(** A document of the [sales] collection: [sale.dict()] and the [_id] the
    driver gave it. *)
Record SaleDoc : Type := {
  sale_id : id;
  fields : Sale
}.

Inductive collection : Type := inventory | sales.

Inductive operation : Type :=
| find | find_one | insert_one | update_one | delete_one
| count_documents | aggregate | distinct.

(** A storage call. *)
Inductive call : Type := Call (c : collection) (op : operation).

(** What the journal of a world records: the readings of the clock and the
    storage calls, in the order they happened. *)
Inductive event : Type :=
| Now
| Storage (c : call).

(** What the driver does with a storage call.
    [Acked]: the call is carried out.
    [NoId]: an insert stores nothing and its result has no [inserted_id],
    the case [if result.inserted_id: ... else: ...] provides for; any other
    call is carried out.
    [Broken]: the call raises and nothing is carried out. *)
Inductive answer : Type := Acked | NoId | Broken.

Record world : Type := {
  inventory_collection : list InventoryDoc;
  sales_collection : list SaleDoc;
  clock : nat -> datetime;      (* what datetime.now() reads, in turn *)
  readings : nat;               (* readings of the clock taken so far *)
  driver : list answer;         (* answers to the coming storage calls;
                                   once used up, every call is carried out *)
  journal : list event;         (* what happened so far, oldest first *)
  next_ObjectId : ObjectId      (* the next [_id] the driver generates *)
}.

Definition M (A : Type) : Type := world -> outcome A * world.

Definition ret {A} (a : A) : M A := fun w => (Return a, w).

Definition raise {A} (e : exn) : M A := fun w => (Raise e, w).

Definition bind {A B} (m : M A) (k : A -> M B) : M B :=
  fun w =>
    match m w with
    | (Return a, w') => k a w'
    | (Raise e, w') => (Raise e, w')
    end.

(** A pure Python expression that may raise. *)
Definition lift {A} (o : outcome A) : M A := fun w => (o, w).

(** [try: body except Exception as e: raise handler] *)
Definition try_except {A} (body : M A) (handler : exn) : M A :=
  fun w =>
    match body w with
    | (Return a, w') => (Return a, w')
    | (Raise _, w') => (Raise handler, w')
    end.

Definition get_world : M world := fun w => (Return w, w).

(** The world with another inventory collection. *)
Definition put_inventory (l : list InventoryDoc) (w : world) : world :=
  {| inventory_collection := l; sales_collection := sales_collection w;
     clock := clock w; readings := readings w; driver := driver w;
     journal := journal w; next_ObjectId := next_ObjectId w |}.

(** The world with another sales collection. *)
Definition put_sales (l : list SaleDoc) (w : world) : world :=
  {| inventory_collection := inventory_collection w; sales_collection := l;
     clock := clock w; readings := readings w; driver := driver w;
     journal := journal w; next_ObjectId := next_ObjectId w |}.

(** The world after a reading of the clock. *)
Definition tick (w : world) : world :=
  {| inventory_collection := inventory_collection w;
     sales_collection := sales_collection w;
     clock := clock w; readings := S (readings w); driver := driver w;
     journal := (journal w ++ [Now])%list;
     next_ObjectId := next_ObjectId w |}.

(** The world after the driver generated an ObjectId. *)
Definition generated (w : world) : world :=
  {| inventory_collection := inventory_collection w;
     sales_collection := sales_collection w;
     clock := clock w; readings := readings w; driver := driver w;
     journal := journal w;
     next_ObjectId := ObjectId_succ (next_ObjectId w) |}.

(** The world after the storage call [c]: the call is journalled and the
    driver's next answer is used. *)
Definition called (c : call) (w : world) : world :=
  {| inventory_collection := inventory_collection w;
     sales_collection := sales_collection w;
     clock := clock w; readings := readings w;
     driver := tl (driver w);
     journal := (journal w ++ [Storage c])%list;
     next_ObjectId := next_ObjectId w |}.

Definition set_inventory (l : list InventoryDoc) : M unit :=
  fun w => (Return tt, put_inventory l w).

Definition set_sales (l : list SaleDoc) : M unit :=
  fun w => (Return tt, put_sales l w).

(** [datetime.now()] *)
Definition datetime_now : M datetime :=
  fun w => (Return (clock w (readings w)), tick w).

(** The driver generates a fresh ObjectId. *)
Definition fresh_ObjectId : M ObjectId :=
  fun w => (Return (next_ObjectId w), generated w).

(** Every storage call takes the driver's next answer, [Acked] once the
    script is used up; on [Broken] it raises. *)
Definition storage_call (c : call) : M answer :=
  fun w =>
    match hd Acked (driver w) with
    | Broken => (Raise PyMongoError, called c w)
    | a => (Return a, called c w)
    end.

End Database.
Export Database.

Declare Scope py_scope.
Delimit Scope py_scope with py.
Notation "x <- m ;; k" := (bind m (fun x => k))
  (at level 61, m at next level, right associativity) : py_scope.
Notation "m ;;; k" := (bind m (fun _ => k))
  (at level 61, right associativity) : py_scope.
Local Open Scope py_scope.

(** ** The collection methods the routes call *)

Module Motor.

(** [cursor.to_list(length)]: at most [length] documents, all of them for
    [to_list(None)]. *)
Definition to_list {A} (length : option nat) (l : list A) : list A :=
  match length with
  | Some n => firstn n l
  | None => l
  end.

(** The driver encodes an int of a document or of an update, before the
    call reaches the store: an int outside the BSON integers raises
    OverflowError, and no storage call is journalled. *)
Definition encode_int (n : Z) : M unit :=
  if int64 n then ret tt else raise OverflowError.

Record UpdateResult : Type := { matched_count : Z; modified_count : Z }.

(** *** inventory_collection *)

(** [inventory_collection.find(query).to_list(length)], in the order the
    collection holds the documents. *)
Definition inventory_find (query : InventoryDoc -> bool)
    (length : option nat) : M (list InventoryDoc) :=
  storage_call (Call inventory find) ;;;
  w <- get_world ;;
  ret (to_list length (filter query (inventory_collection w))).

(** [inventory_collection.find_one(query)]: the first match, or None. *)
Definition inventory_find_one (query : InventoryDoc -> bool)
    : M (option InventoryDoc) :=
  storage_call (Call inventory find_one) ;;;
  w <- get_world ;;
  ret (List.find query (inventory_collection w)).

(** The [$set] of an update: the fields named are replaced. *)
Definition apply_set (set_Products : option string) (set_Quantity : option Z)
    (d : InventoryDoc) : InventoryDoc :=
  {| doc_id := doc_id d;
     Products := match set_Products with Some p => p | None => Products d end;
     Quantity := match set_Quantity with Some q => q | None => Quantity d end |}.

Fixpoint update_first (query : InventoryDoc -> bool)
    (f : InventoryDoc -> InventoryDoc) (l : list InventoryDoc)
    : list InventoryDoc :=
  match l with
  | [] => []
  | d :: l' => if query d then f d :: l' else d :: update_first query f l'
  end.

Definition same_fields (a b : InventoryDoc) : bool :=
  String.eqb (Products a) (Products b) && (Quantity a =? Quantity b).

(** [inventory_collection.update_one(query, {"$set": ...})]: the first
    match is updated; [modified_count] counts a document only when the
    update changed it. *)
Definition inventory_update_one (query : InventoryDoc -> bool)
    (set_Products : option string) (set_Quantity : option Z)
    : M UpdateResult :=
  match set_Quantity with
  | Some q => encode_int q
  | None => ret tt
  end ;;;
  storage_call (Call inventory update_one) ;;;
  w <- get_world ;;
  match List.find query (inventory_collection w) with
  | None => ret {| matched_count := 0; modified_count := 0 |}
  | Some d =>
      let d' := apply_set set_Products set_Quantity d in
      set_inventory
        (update_first query (apply_set set_Products set_Quantity)
           (inventory_collection w)) ;;;
      ret {| matched_count := 1;
             modified_count := if same_fields d' d then 0 else 1 |}
  end.

(** [inventory_collection.insert_one(document)]: the result's
    [inserted_id], None when the driver reports none. *)
Definition inventory_insert_one (item : InventoryCreate.t)
    : M (option ObjectId) :=
  encode_int (InventoryCreate.Quantity item) ;;;
  a <- storage_call (Call inventory insert_one) ;;
  match a with
  | NoId => ret None
  | _ =>
      oid <- fresh_ObjectId ;;
      w <- get_world ;;
      set_inventory
        (inventory_collection w
         ++ [{| doc_id := IdObject oid;
                Products := InventoryCreate.Products item;
                Quantity := InventoryCreate.Quantity item |}])%list ;;;
      ret (Some oid)
  end.

Fixpoint remove_first (query : InventoryDoc -> bool) (l : list InventoryDoc)
    : list InventoryDoc :=
  match l with
  | [] => []
  | d :: l' => if query d then l' else d :: remove_first query l'
  end.

(** [inventory_collection.delete_one(query)]: the result's
    [deleted_count]. *)
Definition inventory_delete_one (query : InventoryDoc -> bool) : M Z :=
  storage_call (Call inventory delete_one) ;;;
  w <- get_world ;;
  match List.find query (inventory_collection w) with
  | None => ret 0
  | Some _ =>
      set_inventory (remove_first query (inventory_collection w)) ;;;
      ret 1
  end.

(** [inventory_collection.count_documents({})] *)
Definition inventory_count_documents : M Z :=
  storage_call (Call inventory count_documents) ;;;
  w <- get_world ;;
  ret (Z.of_nat (List.length (inventory_collection w))).

(** A [$group] with [_id: None] yields one group, and none over an empty
    collection. *)
Definition one_group {A B} (docs : list A) (acc : list A -> B) : list B :=
  match docs with
  | [] => []
  | _ => [acc docs]
  end.

Definition sum_Z (l : list Z) : Z := fold_left Z.add l 0.

(** The [$sum] of doubles, added up in the order of the documents. *)
Definition sum_float (l : list float) : float :=
  fold_left PrimFloat.add l PrimFloat.zero.

(** [inventory_collection.aggregate([{"$group": {"_id": None,
    "total_quantity": {"$sum": "$Quantity"}}}]).to_list(1)] *)
Definition inventory_total_quantity : M (list Z) :=
  storage_call (Call inventory aggregate) ;;;
  w <- get_world ;;
  ret (to_list (Some 1%nat)
         (one_group (inventory_collection w)
            (fun docs => sum_Z (map Quantity docs)))).

(** *** sales_collection *)

(** [sales_collection.find(query).to_list(length)] *)
Definition sales_find (query : SaleDoc -> bool) (length : option nat)
    : M (list SaleDoc) :=
  storage_call (Call sales find) ;;;
  w <- get_world ;;
  ret (to_list length (filter query (sales_collection w))).

(** [sales_collection.insert_one(sale.dict())] *)
Definition sales_insert_one (document : Sale) : M (option ObjectId) :=
  encode_int (quantity document) ;;;
  a <- storage_call (Call sales insert_one) ;;
  match a with
  | NoId => ret None
  | _ =>
      oid <- fresh_ObjectId ;;
      w <- get_world ;;
      set_sales
        (sales_collection w
         ++ [{| sale_id := IdObject oid; fields := document |}])%list ;;;
      ret (Some oid)
  end.

(** The [$group] by [None] aggregations of the sales routes, each with
    [.to_list(1)]. *)
Definition sales_aggregate_one {B} (acc : list Sale -> B) : M (list B) :=
  storage_call (Call sales aggregate) ;;;
  w <- get_world ;;
  ret (to_list (Some 1%nat)
         (one_group (map fields (sales_collection w)) acc)).

Definition sum_quantity (docs : list Sale) : Z := sum_Z (map quantity docs).

Definition sum_total (docs : list Sale) : float :=
  sum_float (map total docs).

(** [$avg]: the sum over the count. *)
Definition avg_unit_price (docs : list Sale) : float :=
  PrimFloat.div (sum_float (map unit_price docs))
    (nearest_float (Z.of_nat (List.length docs))).

(** The product lines of the documents, each once, in the order of their
    first document. *)
Fixpoint distinct_values (seen : list string) (l : list string)
    : list string :=
  match l with
  | [] => []
  | x :: l' =>
      if existsb (String.eqb x) seen then distinct_values seen l'
      else x :: distinct_values (x :: seen) l'
  end.

(** [sales_collection.distinct("product_line")] *)
Definition sales_distinct_product_line : M (list string) :=
  storage_call (Call sales distinct) ;;;
  w <- get_world ;;
  ret (distinct_values []
         (map (fun d => product_line (fields d)) (sales_collection w))).

(** [sales_collection.aggregate([{"$group": {"_id": "$product_line",
    "total_revenue": {"$sum": "$total"}}}]).to_list(None)]: one group for
    each product line. *)
Definition sales_revenue_by_product_line : M (list (string * float)) :=
  storage_call (Call sales aggregate) ;;;
  w <- get_world ;;
  let docs := map fields (sales_collection w) in
  ret (map (fun p =>
              (p, sum_total
                    (filter (fun s => String.eqb (product_line s) p) docs)))
         (distinct_values [] (map product_line docs))).

End Motor.
Export Motor.

(** ** app/utils/error_handling.py *)

Module ErrorHandling.

Definition handle_internal_server_error : exn :=
  HTTPException 500 "Internal Server Error".

Definition handle_not_found_error (resource_name : string) : exn :=
  HTTPException 404 (resource_name ++ " not found")%string.

End ErrorHandling.

Module InventoryErrorHandler.

Definition handle_quantity_warning (quantity : Z) (product : string)
    : M unit :=
  if quantity <? 10 then
    raise
      (HTTPException 200
         ("Warning: Product (" ++ product
          ++ ") quantity is low. Current quantity: "
          ++ str_int quantity)%string)
  else ret tt.

End InventoryErrorHandler.

(** ** app/routes/Inventory.py *)

Module InventoryRoutes.
Import ErrorHandling.

(** An entry of [warning_messages]:
    [{"product_name": ..., "quantity": ...}]. *)
Module Warning.
Record t : Type := { product_name : string; quantity : Z }.
End Warning.

(** [{"total_items": ..., "total_quantity": ...}] *)
Module Stats.
Record t : Type := { total_items : Z; total_quantity : Z }.
End Stats.

(** GET /inventory *)
Definition get_inventory : M (list InventoryDoc) :=
  try_except
    (inventory_data <- inventory_find (fun _ => true) (Some 100%nat) ;;
     ret (map (fun item =>
                 {| doc_id := IdStr (str_id (doc_id item));
                    Products := Products item;
                    Quantity := Quantity item |})
            inventory_data))
    handle_internal_server_error.

(** The loop of [check_low_quantity_warning] over the items found. *)
Fixpoint warn_each (low_quantity_items : list InventoryDoc)
    (warning_messages : list Warning.t) : M (list Warning.t) :=
  match low_quantity_items with
  | [] => ret warning_messages
  | item :: rest =>
      let warning_messages :=
        (warning_messages
         ++ [{| Warning.product_name := Products item;
                Warning.quantity := Quantity item |}])%list in
      InventoryErrorHandler.handle_quantity_warning
        (Quantity item) (Products item) ;;;
      warn_each rest warning_messages
  end.

(** GET /inventory/low_quantity_warning; the value returned is that of
    the key [low_quantity_items]. *)
Definition check_low_quantity_warning : M (list Warning.t) :=
  low_quantity_items <-
    inventory_find (fun d => Quantity d <? 10) (Some 100%nat) ;;
  warn_each low_quantity_items [].

(** GET /inventory/stats *)
Definition get_inventory_stats : M Stats.t :=
  try_except
    (total_items <- inventory_count_documents ;;
     total_quantity <- inventory_total_quantity ;;
     ret {| Stats.total_items := total_items;
            Stats.total_quantity :=
              match total_quantity with
              | q :: _ => q
              | [] => 0
              end |})
    handle_internal_server_error.

(** GET /inventory/{item_id} *)
Definition get_item (item_id : string) : M InventoryDoc :=
  try_except
    (item <- inventory_find_one
               (fun d => id_eqb (doc_id d) (IdStr item_id)) ;;
     match item with
     | Some item => ret item
     | None => raise (handle_not_found_error "Item")
     end)
    handle_internal_server_error.

(** POST /inventory.  [Inventory] has no field [_id], so the keyword
    [_id=str(result.inserted_id)] is dropped and the value returned holds
    the product and the quantity only. *)
Definition add_inventory (item : InventoryCreate.t) : M Inventory.t :=
  try_except
    (inserted_id <- inventory_insert_one item ;;
     match inserted_id with
     | Some _ =>
         ret {| Inventory.Products := InventoryCreate.Products item;
                Inventory.Quantity := InventoryCreate.Quantity item |}
     | None => raise handle_internal_server_error
     end)
    handle_internal_server_error.

(** PUT /inventory/{item_id} *)
Definition update_inventory (item_id : string)
    (updated_item : InventoryUpdate.t) : M string :=
  try_except
    (object_id <- lift (ObjectId_of_str item_id) ;;
     result <- inventory_update_one
                 (fun d => id_eqb (doc_id d) (IdObject object_id))
                 (InventoryUpdate.Products updated_item)
                 (InventoryUpdate.Quantity updated_item) ;;
     if modified_count result >? 0 then ret "Item updated successfully"
     else raise (handle_not_found_error "Item"))
    handle_internal_server_error.

(** DELETE /inventory/{item_id} *)
Definition delete_inventory (item_id : string) : M string :=
  try_except
    (object_id <- lift (ObjectId_of_str item_id) ;;
     deleted_count <- inventory_delete_one
                        (fun d => id_eqb (doc_id d) (IdObject object_id)) ;;
     if deleted_count >? 0 then ret "Item deleted successfully"
     else raise (handle_not_found_error "Item"))
    handle_internal_server_error.

End InventoryRoutes.

(** ** app/routes/Sales.py *)

Module SalesRoutes.
Import ErrorHandling.

(** The value of [x[0][key] if x else 0] when the aggregate is a double. *)
Inductive number : Type :=
| Int (n : Z)
| Float (x : float).

Definition first_or_zero (l : list float) : number :=
  match l with
  | x :: _ => Float x
  | [] => Int 0
  end.

(** [{"total_quantity": ..., "average_unit_price": ...}] *)
Module Analysis.
Record t : Type := { total_quantity : Z; average_unit_price : number }.
End Analysis.

(** GET /sales *)
Definition get_sales : M (list SaleDoc) :=
  try_except (sales_find (fun _ => true) (Some 100%nat))
    handle_internal_server_error.

(** GET /sales/analyze *)
Definition analyze_sales : M Analysis.t :=
  try_except
    (total_quantity <- sales_aggregate_one sum_quantity ;;
     average_unit_price <- sales_aggregate_one avg_unit_price ;;
     ret {| Analysis.total_quantity :=
              match total_quantity with
              | q :: _ => q
              | [] => 0
              end;
            Analysis.average_unit_price :=
              first_or_zero average_unit_price |})
    handle_internal_server_error.

(** GET /sales/total_revenue_by_category *)
Definition total_revenue_by_category : M (list (string * float)) :=
  try_except sales_revenue_by_product_line handle_internal_server_error.

(** GET /sales/categories *)
Definition get_categories : M (list string) :=
  try_except sales_distinct_product_line handle_internal_server_error.

(** GET /sales/total_sales *)
Definition total_sales : M number :=
  try_except
    (total_sales_result <- sales_aggregate_one sum_total ;;
     ret (first_or_zero total_sales_result))
    handle_internal_server_error.

(** GET /sales/total_revenue *)
Definition total_revenue : M number :=
  try_except
    (total_revenue_result <- sales_aggregate_one sum_total ;;
     ret (first_or_zero total_revenue_result))
    handle_internal_server_error.

(** GET /sales/{product_line} *)
Definition get_sales_for_product (product_line : string)
    : M (list SaleDoc) :=
  try_except
    (sales_find
       (fun d => String.eqb (Models.product_line (fields d)) product_line)
       (Some 100%nat))
    handle_internal_server_error.

(** POST /sales/new_sale *)
Definition add_new_sale (sale : Sale) : M Sale :=
  (* Add current time and date *)
  now <- datetime_now ;;
  let sale := set_date (strftime_mdY now) sale in
  now <- datetime_now ;;
  let sale := set_time (strftime_HMS now) sale in
  product_in_inventory <-
    inventory_find_one
      (fun d => String.eqb (Products d) (product_line sale)) ;;
  match product_in_inventory with
  | None => raise (handle_not_found_error "Product")
  | Some product_in_inventory =>
      (* Check if quantity is available in inventory *)
      if Quantity product_in_inventory <? quantity sale then
        raise (HTTPException 404 "Insufficient quantity in inventory")
      else
        (* Calculate total and tax_5_percent *)
        gross <- lift (float_mul_int (unit_price sale) (quantity sale)) ;;
        let sale := set_total (PrimFloat.mul gross 0.95) sale in
        gross <- lift (float_mul_int (unit_price sale) (quantity sale)) ;;
        let sale := set_tax_5_percent (PrimFloat.mul gross 0.05) sale in
        (* Update inventory quantity *)
        let updated_quantity :=
          Quantity product_in_inventory - quantity sale in
        inventory_update_one
          (fun d => String.eqb (Products d) (product_line sale))
          None (Some updated_quantity) ;;;
        (* Insert the new sale into the database *)
        inserted_id <- sales_insert_one sale ;;
        match inserted_id with
        | Some _ => ret sale
        | None => raise (HTTPException 500 "Failed to add sale")
        end
  end.

End SalesRoutes.

(** ** app/main.py: the routes of the application *)

Module App.
Import InventoryRoutes SalesRoutes.

(** A request, by the route that serves it. *)
Inductive request : Type :=
| GET_inventory
| GET_inventory_low_quantity_warning
| GET_inventory_stats
| GET_inventory_item (item_id : string)
| POST_inventory (item : InventoryCreate.t)
| PUT_inventory (item_id : string) (updated_item : InventoryUpdate.t)
| DELETE_inventory (item_id : string)
| GET_sales
| GET_sales_analyze
| GET_sales_total_revenue_by_category
| GET_sales_categories
| GET_sales_total_sales
| GET_sales_total_revenue
| GET_sales_for_product (product_line : string)
| POST_sales_new_sale (sale : Sale).

(** What a handler returns. *)
Inductive response : Type :=
| InventoryList (l : list InventoryDoc)
| LowQuantityItems (l : list Warning.t)
| InventoryStats (s : Stats.t)
| InventoryItem (d : InventoryDoc)
| InventoryAdded (i : Inventory.t)
| Message (message : string)
| SaleList (l : list SaleDoc)
| SalesAnalysis (a : Analysis.t)
| RevenueByCategory (l : list (string * float))
| Categories (l : list string)
| TotalSales (x : number)
| TotalRevenue (x : number)
| SaleAdded (s : Sale).

Definition fmap {A B} (f : A -> B) (m : M A) : M B :=
  a <- m ;; ret (f a).

Definition route (r : request) : M response :=
  match r with
  | GET_inventory => fmap InventoryList get_inventory
  | GET_inventory_low_quantity_warning =>
      fmap LowQuantityItems check_low_quantity_warning
  | GET_inventory_stats => fmap InventoryStats get_inventory_stats
  | GET_inventory_item item_id => fmap InventoryItem (get_item item_id)
  | POST_inventory item => fmap InventoryAdded (add_inventory item)
  | PUT_inventory item_id updated_item =>
      fmap Message (update_inventory item_id updated_item)
  | DELETE_inventory item_id => fmap Message (delete_inventory item_id)
  | GET_sales => fmap SaleList get_sales
  | GET_sales_analyze => fmap SalesAnalysis analyze_sales
  | GET_sales_total_revenue_by_category =>
      fmap RevenueByCategory total_revenue_by_category
  | GET_sales_categories => fmap Categories get_categories
  | GET_sales_total_sales => fmap TotalSales total_sales
  | GET_sales_total_revenue => fmap TotalRevenue total_revenue
  | GET_sales_for_product product_line =>
      fmap SaleList (get_sales_for_product product_line)
  | POST_sales_new_sale sale => fmap SaleAdded (add_new_sale sale)
  end.

(** The handlers whose body is wrapped in [try: ... except Exception]:
    all of them but the low-quantity warning and the new sale. *)
Definition generic_catch (r : request) : bool :=
  match r with
  | GET_inventory_low_quantity_warning | POST_sales_new_sale _ => false
  | _ => true
  end.

(** The status of the response FastAPI sends for a handler's outcome: 200
    for a value returned, the exception's own status for an HTTPException,
    500 for any other exception. *)
Definition status_code {A} (o : outcome A) : Z :=
  match o with
  | Return _ => 200
  | Raise (HTTPException status_code _) => status_code
  | Raise _ => 500
  end.

End App.

(** ** Runs *)

Module Run.

(** The answer the driver gives to the [k]-th storage call to come. *)
Definition answer_to (k : nat) (w : world) : answer := nth k (driver w) Acked.

(** In a run from [w] to [w'] the last storage call made was the one that
    took a [Broken] answer: that call raised. *)
Definition storage_raised (w w' : world) : Prop :=
  exists before, driver w = (before ++ Broken :: driver w')%list.

(** In a run from [w] to [w'] no storage call raised. *)
Definition storage_served (w w' : world) : Prop :=
  exists before,
    driver w = (before ++ driver w')%list /\ ~ In Broken before.

(** A computation raises PyMongoError exactly in the runs in which a
    storage call raised. *)
Definition tracks {A} (m : M A) : Prop :=
  forall w,
    match m w with
    | (Raise PyMongoError, w') => storage_raised w w'
    | (_, w') => storage_served w w'
    end.

(** The driver carries out the next [n] storage calls. *)
Definition carried_out (n : nat) (w : world) : Prop :=
  forall k, (k < n)%nat -> answer_to k w = Acked.

(** Every quantity the inventory holds is a BSON integer. *)
Definition storable (w : world) : Prop :=
  forall d, In d (inventory_collection w) -> int64 (Quantity d) = true.

(** A computation keeps the inventory one of BSON integers. *)
Definition keeps_storable {A} (m : M A) : Prop :=
  forall w, storable w -> storable (snd (m w)).

(** The persisted state of a world. *)
Definition same_store (w w' : world) : Prop :=
  inventory_collection w' = inventory_collection w
  /\ sales_collection w' = sales_collection w.

(** The first inventory document of a product. *)
Definition stocked (product : string) (w : world) : option InventoryDoc :=
  List.find (fun d => String.eqb (Products d) product)
    (inventory_collection w).

(** The inventory with the quantity of the first document of [product]
    set to [q]. *)
Definition restocked (product : string) (q : Z) (l : list InventoryDoc)
    : list InventoryDoc :=
  update_first (fun d => String.eqb (Products d) product)
    (apply_set None (Some q)) l.

(** The sale as [add_new_sale] stamps it: the date from the first reading
    of the clock, the time from the second. *)
Definition stamped (sale : Sale) (w : world) : Sale :=
  set_time (strftime_HMS (clock w (S (readings w))))
    (set_date (strftime_mdY (clock w (readings w))) sale).

(** [unit_price * quantity * rate], as Python computes it when the quantity
    converts to a float. *)
Definition share (sale : Sale) (rate : float) : float :=
  PrimFloat.mul
    (PrimFloat.mul (unit_price sale) (nearest_float (quantity sale))) rate.

(** The stamped sale with its total and tax computed. *)
Definition priced (sale : Sale) (w : world) : Sale :=
  set_tax_5_percent (share sale 0.05)
    (set_total (share sale 0.95) (stamped sale w)).

(** The world once [add_new_sale] has looked the product up. *)
Definition looked_up (w : world) : world :=
  called (Call inventory find_one) (tick (tick w)).

(** The world once [add_new_sale] has written the quantity [q] for
    [product]. *)
Definition decremented (product : string) (q : Z) (w : world) : world :=
  put_inventory (restocked product q (inventory_collection w))
    (called (Call inventory update_one) (looked_up w)).

(** The world once [add_new_sale] has inserted the sale [s]. *)
Definition recorded (s : Sale) (w : world) : world :=
  put_sales
    (sales_collection w
     ++ [{| sale_id := IdObject (next_ObjectId w); fields := s |}])%list
    (generated (called (Call sales insert_one) w)).

(** From [w] to [w'] the sales collection gained the sale [s], and nothing
    else changed in it. *)
Definition persisted (s : Sale) (w w' : world) : Prop :=
  sales_collection w' =
  (sales_collection w
   ++ [{| sale_id := IdObject (next_ObjectId w); fields := s |}])%list.

(** The quantity the inventory holds for a product. *)
Definition stock_of (product : string) (w : world) : option Z :=
  option_map Quantity (stocked product w).

(** [sub] occurs in [s]. *)
Definition occurs (sub s : string) : bool :=
  match String.index 0 sub s with
  | Some _ => true
  | None => false
  end.

(** The detail of an HTTPException spells the number [n]. *)
Definition spells (e : exn) (n : Z) : bool :=
  match e with
  | HTTPException _ detail => occurs (str_int n) detail
  | _ => false
  end.

(** A computation leaves an observation [f] of the world as it was. *)
Definition preserves {X A} (f : world -> X) (m : M A) : Prop :=
  forall w, f (snd (m w)) = f w.

(** The requests whose handler makes no write call: the GET routes. *)
Definition reads_only (r : App.request) : bool :=
  match r with
  | App.POST_inventory _ | App.PUT_inventory _ _ | App.DELETE_inventory _
  | App.POST_sales_new_sale _ => false
  | _ => true
  end.

(** The query [{"_id": i}]. *)
Definition has_id (i : id) (d : InventoryDoc) : bool := id_eqb (doc_id d) i.

(** Every inventory document has the ObjectId the driver gave it for
    [_id], as the documents [add_inventory] stores have. *)
Definition object_ids (w : world) : Prop :=
  forall d, In d (inventory_collection w) ->
            exists oid, doc_id d = IdObject oid.

(** No inventory document holds a negative quantity. *)
Definition non_negative (w : world) : Prop :=
  forall d, In d (inventory_collection w) -> 0 <= Quantity d.

(** The world after another request: whatever its outcome, the next
    request runs on the world it left. *)
Definition after {A} (m : M A) (w : world) : world := snd (m w).

End Run.

(** ** Sample data *)

Module Sample.

Definition noon : datetime :=
  {| year := 2024; month := 3; day := 9; hour := 12; minute := 5; second := 7 |}.

(** The ObjectId of eleven zero bytes and [b]. *)
Definition oid (b : byte) : ObjectId := (repeat x00 11 ++ [b])%list.

(** A world with the given inventory and driver script, and no sale yet. *)
Definition shop (stock : list InventoryDoc) (script : list answer) : world :=
  {| inventory_collection := stock; sales_collection := [];
     clock := fun _ => noon; readings := 0; driver := script;
     journal := []; next_ObjectId := oid x64 |}.

Definition soap (q : Z) : InventoryDoc :=
  {| doc_id := IdObject (oid x01); Products := "Soap"; Quantity := q |}.

Definition tea (q : Z) : InventoryDoc :=
  {| doc_id := IdObject (oid x02); Products := "Tea"; Quantity := q |}.

Definition rice (q : Z) : InventoryDoc :=
  {| doc_id := IdObject (oid x03); Products := "Rice"; Quantity := q |}.

(** A request for [q] units of soap at [price], with a total, a tax, a date
    and a time of the client's. *)
Definition order (price : float) (q : Z) : Sale :=
  {| invoice_id := "750-67-8428"; branch := "A"; city := "Yangon";
     customer_type := "Member"; gender := "Female";
     product_line := "Soap"; unit_price := price; quantity := q;
     tax_5_percent := 99; total := 77;
     date := "01/01/1999"; time := "23:59:59"; payment := "Cash";
     cogs := 0; gross_margin_percentage := 0; gross_income := 0;
     rating := 9 |}.

End Sample.

(** * Properties *)

(** ** Storage calls that raise, and where the exception goes *)

Module Tracking.
Import Run.

Lemma served_refl (w : world) : storage_served w w.
Proof. exists []. split; [reflexivity | intros []]. Qed.

Lemma served_trans (w w1 w2 : world) :
  storage_served w w1 -> storage_served w1 w2 -> storage_served w w2.
Proof.
  intros [b1 [E1 N1]] [b2 [E2 N2]].
  exists (b1 ++ b2)%list. split.
  - rewrite E1, E2. apply app_assoc.
  - intros H. apply in_app_or in H. tauto.
Qed.

Lemma raised_after_served (w w1 w2 : world) :
  storage_served w w1 -> storage_raised w1 w2 -> storage_raised w w2.
Proof.
  intros [b1 [E1 _]] [b2 E2].
  exists (b1 ++ b2)%list. rewrite E1, E2. apply app_assoc.
Qed.

Lemma raised_not_served (w w' : world) :
  storage_raised w w' -> storage_served w w' -> False.
Proof.
  intros [b E] [b' [E' N]]. apply N.
  rewrite E in E'.
  change (b ++ Broken :: driver w')%list
    with (b ++ [Broken] ++ driver w')%list in E'.
  rewrite app_assoc in E'. apply app_inv_tail in E'.
  rewrite <- E'. apply in_or_app. right. left. reflexivity.
Qed.

Lemma served_same_driver (w w' : world) :
  driver w' = driver w -> storage_served w w'.
Proof.
  intros E. exists []. rewrite E. split; [reflexivity | intros []].
Qed.

Lemma tracks_ret {A} (a : A) : tracks (ret a).
Proof. intros w. apply served_refl. Qed.

Lemma tracks_raise_http {A} (status : Z) (detail : string) :
  tracks (@raise A (HTTPException status detail)).
Proof. intros w. apply served_refl. Qed.

Lemma tracks_raise_overflow {A} : tracks (@raise A OverflowError).
Proof. intros w. apply served_refl. Qed.

Lemma tracks_bind {A B} (m : M A) (k : A -> M B) :
  tracks m -> (forall a, tracks (k a)) -> tracks (bind m k).
Proof.
  intros Hm Hk w. unfold bind. specialize (Hm w).
  destruct (m w) as [[a | e] w1].
  - specialize (Hk a w1).
    destruct (k a w1) as [[b | [ | | | ]] w2];
      eauto using served_trans, raised_after_served.
  - destruct e; assumption.
Qed.

Lemma tracks_get_world : tracks get_world.
Proof. intros w. apply served_refl. Qed.

Lemma tracks_set_inventory (l : list InventoryDoc) :
  tracks (set_inventory l).
Proof. intros w. apply served_same_driver. reflexivity. Qed.

Lemma tracks_set_sales (l : list SaleDoc) : tracks (set_sales l).
Proof. intros w. apply served_same_driver. reflexivity. Qed.

Lemma tracks_datetime_now : tracks datetime_now.
Proof. intros w. apply served_same_driver. reflexivity. Qed.

Lemma tracks_fresh_ObjectId : tracks fresh_ObjectId.
Proof. intros w. apply served_same_driver. reflexivity. Qed.

Lemma tracks_storage_call (c : call) : tracks (storage_call c).
Proof.
  intros w. unfold storage_call.
  destruct (driver w) as [ | a rest] eqn:E; simpl.
  - exists []. simpl. rewrite E. split; [reflexivity | intros []].
  - destruct a; simpl.
    + exists [Acked]. simpl. rewrite E. split; [reflexivity | ].
      intros [H | []]. discriminate H.
    + exists [NoId]. simpl. rewrite E. split; [reflexivity | ].
      intros [H | []]. discriminate H.
    + exists []. simpl. rewrite E. reflexivity.
Qed.

Lemma tracks_encode_int (n : Z) : tracks (encode_int n).
Proof.
  unfold encode_int. destruct (int64 n).
  - apply tracks_ret.
  - apply tracks_raise_overflow.
Qed.

Lemma tracks_ObjectId_of_str (s : string) : tracks (lift (ObjectId_of_str s)).
Proof.
  intros w. unfold lift, ObjectId_of_str.
  destruct (String.length s =? 24)%nat; [ | apply served_refl].
  destruct (fromhex s); apply served_refl.
Qed.

Lemma tracks_float_mul_int (x : float) (n : Z) :
  tracks (lift (float_mul_int x n)).
Proof.
  intros w. unfold lift, float_mul_int, float_of_int.
  destruct (Z.abs n <? float_limit); apply served_refl.
Qed.

Create HintDb tracks.
#[export] Hint Resolve tracks_ret tracks_raise_http tracks_raise_overflow
  tracks_get_world tracks_set_inventory tracks_set_sales
  tracks_datetime_now tracks_fresh_ObjectId tracks_storage_call
  tracks_encode_int tracks_ObjectId_of_str tracks_float_mul_int : tracks.

(** One step of a proof that a computation tracks: split a bind, or look
    at the value a branch depends on. *)
Ltac track_step :=
  match goal with
  | |- tracks (bind _ _) => apply tracks_bind; [ | intros ? ]
  | |- tracks (match ?x with _ => _ end) => destruct x
  | |- tracks (if ?b then _ else _) => destruct b
  | |- tracks _ => solve [auto with tracks]
  end.

Ltac track := repeat track_step.

Lemma tracks_inventory_find q n : tracks (inventory_find q n).
Proof. unfold inventory_find. track. Qed.

Lemma tracks_inventory_find_one q : tracks (inventory_find_one q).
Proof. unfold inventory_find_one. track. Qed.

Lemma tracks_inventory_update_one q sp sq :
  tracks (inventory_update_one q sp sq).
Proof. unfold inventory_update_one. track. Qed.

Lemma tracks_inventory_insert_one item : tracks (inventory_insert_one item).
Proof. unfold inventory_insert_one. track. Qed.

Lemma tracks_inventory_delete_one q : tracks (inventory_delete_one q).
Proof. unfold inventory_delete_one. track. Qed.

Lemma tracks_inventory_count_documents : tracks inventory_count_documents.
Proof. unfold inventory_count_documents. track. Qed.

Lemma tracks_inventory_total_quantity : tracks inventory_total_quantity.
Proof. unfold inventory_total_quantity. track. Qed.

Lemma tracks_sales_find q n : tracks (sales_find q n).
Proof. unfold sales_find. track. Qed.

Lemma tracks_sales_insert_one s : tracks (sales_insert_one s).
Proof. unfold sales_insert_one. track. Qed.

Lemma tracks_sales_aggregate_one {B} (acc : list Sale -> B) :
  tracks (sales_aggregate_one acc).
Proof. unfold sales_aggregate_one. track. Qed.

Lemma tracks_sales_distinct_product_line :
  tracks sales_distinct_product_line.
Proof. unfold sales_distinct_product_line. track. Qed.

Lemma tracks_sales_revenue_by_product_line :
  tracks sales_revenue_by_product_line.
Proof. unfold sales_revenue_by_product_line. track. Qed.

#[export] Hint Resolve tracks_inventory_find tracks_inventory_find_one
  tracks_inventory_update_one tracks_inventory_insert_one
  tracks_inventory_delete_one tracks_inventory_count_documents
  tracks_inventory_total_quantity tracks_sales_find tracks_sales_insert_one
  tracks_sales_aggregate_one tracks_sales_distinct_product_line
  tracks_sales_revenue_by_product_line : tracks.

(** A generic catch turns a storage call that raised into its handler. *)
Lemma caught {A} (body : M A) (handler : exn) (w : world) :
  tracks body ->
  storage_raised w (snd (try_except body handler w)) ->
  fst (try_except body handler w) = Raise handler.
Proof.
  intros T. specialize (T w). unfold try_except.
  destruct (body w) as [[a | e] w']; simpl; [ | reflexivity].
  intros R. destruct (raised_not_served _ _ R T).
Qed.

(** Without a catch the exception leaves the computation as it is. *)
Lemma uncaught {A} (m : M A) (w : world) :
  tracks m ->
  storage_raised w (snd (m w)) -> fst (m w) = Raise PyMongoError.
Proof.
  intros T. specialize (T w).
  destruct (m w) as [[a | [ | | | ]] w']; simpl; intros R;
    solve [reflexivity | destruct (raised_not_served _ _ R T)].
Qed.

Lemma fmap_fst {A B} (f : A -> B) (m : M A) (w : world) (e : exn) :
  fst (m w) = Raise e -> fst (App.fmap f m w) = Raise e.
Proof.
  unfold App.fmap, bind. destruct (m w) as [[a | e'] w']; simpl.
  - discriminate.
  - intros E. injection E as ->. reflexivity.
Qed.

Lemma fmap_snd {A B} (f : A -> B) (m : M A) (w : world) :
  snd (App.fmap f m w) = snd (m w).
Proof.
  unfold App.fmap, bind. destruct (m w) as [[a | e'] w']; reflexivity.
Qed.

End Tracking.

(** ** The steps of a run *)

Module Steps.
Import Run SalesRoutes ErrorHandling.

Lemma answer_to_called (k : nat) (c : call) (w : world) :
  answer_to k (called c w) = answer_to (S k) w.
Proof.
  unfold answer_to. simpl. destruct (driver w); [destruct k | ]; reflexivity.
Qed.

Lemma answer_to_0 (w : world) : answer_to 0 w = hd Acked (driver w).
Proof. unfold answer_to. destruct (driver w); reflexivity. Qed.

Lemma answer_to_tick (k : nat) (w : world) :
  answer_to k (tick w) = answer_to k w.
Proof. reflexivity. Qed.

Lemma answer_to_acked (k : nat) (w : world) :
  answer_to k w = Acked -> answer_to k w <> Broken.
Proof. intros ->. discriminate. Qed.

Lemma answer_to_put_inventory (k : nat) (l : list InventoryDoc) (w : world) :
  answer_to k (put_inventory l w) = answer_to k w.
Proof. reflexivity. Qed.

Lemma answer_to_looked_up (k : nat) (w : world) :
  answer_to k (looked_up w) = answer_to (S k) w.
Proof. unfold looked_up. rewrite answer_to_called. reflexivity. Qed.

Lemma answer_to_decremented (k : nat) (p : string) (q : Z) (w : world) :
  answer_to k (decremented p q w) = answer_to (S (S k)) w.
Proof.
  unfold decremented.
  rewrite answer_to_put_inventory, answer_to_called, answer_to_looked_up.
  reflexivity.
Qed.

Lemma run_datetime_now {B} (k : datetime -> M B) (w : world) :
  bind datetime_now k w = k (clock w (readings w)) (tick w).
Proof. reflexivity. Qed.

Lemma run_lift {A B} (o : outcome A) (k : A -> M B) (w : world) :
  bind (lift o) k w =
  match o with
  | Return a => k a w
  | Raise e => (Raise e, w)
  end.
Proof. unfold bind, lift. destruct o; reflexivity. Qed.

Lemma run_storage_call {B} (c : call) (k : answer -> M B) (w : world) :
  bind (storage_call c) k w =
  match answer_to 0 w with
  | Broken => (Raise PyMongoError, called c w)
  | a => k a (called c w)
  end.
Proof.
  unfold bind, storage_call. rewrite answer_to_0.
  destruct (hd Acked (driver w)); reflexivity.
Qed.

Lemma run_encode_int {B} (n : Z) (k : unit -> M B) (w : world) :
  bind (encode_int n) k w =
  if int64 n then k tt w else (Raise OverflowError, w).
Proof. unfold bind, encode_int. destruct (int64 n); reflexivity. Qed.

Lemma run_inventory_find_one {B} (query : InventoryDoc -> bool)
    (k : option InventoryDoc -> M B) (w : world) :
  bind (inventory_find_one query) k w =
  match answer_to 0 w with
  | Broken => (Raise PyMongoError, called (Call inventory find_one) w)
  | _ =>
      k (List.find query (inventory_collection w))
        (called (Call inventory find_one) w)
  end.
Proof.
  unfold inventory_find_one, bind at 1. rewrite run_storage_call.
  destruct (answer_to 0 w); reflexivity.
Qed.

Lemma run_inventory_update_one {B} (query : InventoryDoc -> bool)
    (q : Z) (k : UpdateResult -> M B) (w : world) :
  bind (inventory_update_one query None (Some q)) k w =
  if int64 q then
    match answer_to 0 w with
    | Broken => (Raise PyMongoError, called (Call inventory update_one) w)
    | _ =>
        match List.find query (inventory_collection w) with
        | None =>
            k {| matched_count := 0; modified_count := 0 |}
              (called (Call inventory update_one) w)
        | Some d =>
            k {| matched_count := 1;
                 modified_count :=
                   if same_fields (apply_set None (Some q) d) d
                   then 0 else 1 |}
              (put_inventory
                 (update_first query (apply_set None (Some q))
                    (inventory_collection w))
                 (called (Call inventory update_one) w))
        end
    end
  else (Raise OverflowError, w).
Proof.
  unfold inventory_update_one, bind at 1. rewrite run_encode_int.
  destruct (int64 q); [ | reflexivity].
  rewrite run_storage_call.
  destruct (answer_to 0 w); try reflexivity;
    unfold bind, get_world; simpl;
    destruct (List.find query (inventory_collection w)); reflexivity.
Qed.

Lemma run_sales_insert_one {B} (s : Sale) (k : option ObjectId -> M B)
    (w : world) :
  bind (sales_insert_one s) k w =
  if int64 (quantity s) then
    match answer_to 0 w with
    | Broken => (Raise PyMongoError, called (Call sales insert_one) w)
    | NoId => k None (called (Call sales insert_one) w)
    | Acked => k (Some (next_ObjectId w)) (recorded s w)
    end
  else (Raise OverflowError, w).
Proof.
  unfold sales_insert_one, bind at 1. rewrite run_encode_int.
  destruct (int64 (quantity s)); [ | reflexivity].
  rewrite run_storage_call.
  destruct (answer_to 0 w); reflexivity.
Qed.

(** The run of [add_new_sale], step by step. *)
Lemma add_new_sale_run (sale : Sale) (w : world) :
  add_new_sale sale w =
  match answer_to 0 w with
  | Broken => (Raise PyMongoError, looked_up w)
  | _ =>
    match stocked (product_line sale) w with
    | None => (Raise (handle_not_found_error "Product"), looked_up w)
    | Some item =>
      if Quantity item <? quantity sale then
        (Raise (HTTPException 404 "Insufficient quantity in inventory"),
         looked_up w)
      else if negb (Z.abs (quantity sale) <? float_limit) then
        (Raise OverflowError, looked_up w)
      else if negb (int64 (Quantity item - quantity sale)) then
        (Raise OverflowError, looked_up w)
      else
        match answer_to 1 w with
        | Broken =>
            (Raise PyMongoError,
             called (Call inventory update_one) (looked_up w))
        | _ =>
            let w' :=
              decremented (product_line sale)
                (Quantity item - quantity sale) w in
            if negb (int64 (quantity sale)) then (Raise OverflowError, w')
            else
              match answer_to 2 w with
              | Broken =>
                  (Raise PyMongoError, called (Call sales insert_one) w')
              | NoId =>
                  (Raise (HTTPException 500 "Failed to add sale"),
                   called (Call sales insert_one) w')
              | Acked => (Return (priced sale w), recorded (priced sale w) w')
              end
        end
    end
  end.
Proof.
  unfold add_new_sale.
  rewrite run_datetime_now. cbv beta zeta.
  rewrite run_datetime_now. cbv beta zeta.
  rewrite run_inventory_find_one.
  change (answer_to 0 (tick (tick w))) with (answer_to 0 w).
  change (called (Call inventory find_one) (tick (tick w)))
    with (looked_up w).
  change (List.find _ (inventory_collection (tick (tick w))))
    with (stocked (product_line sale) w).
  assert (Stock : forall p,
    List.find (fun d => String.eqb (Products d) p)
      (inventory_collection (looked_up w)) = stocked p w) by reflexivity.
  cbn [quantity unit_price product_line
       set_total set_date set_time set_tax_5_percent].
  destruct (answer_to 0 w) eqn:A0; [ | | reflexivity].
  all: destruct (stocked (product_line sale) w) as [item | ] eqn:F;
    [ | reflexivity].
  all: destruct (Quantity item <? quantity sale); [reflexivity | ].
  all: rewrite run_lift; unfold float_mul_int at 1, float_of_int.
  all: destruct (Z.abs (quantity sale) <? float_limit) eqn:L;
    cbn [negb]; [ | reflexivity].
  all: rewrite run_lift;
    cbn [quantity unit_price product_line
         set_total set_date set_time set_tax_5_percent];
    unfold float_mul_int at 1, float_of_int; rewrite L.
  all: cbv beta zeta.
  all: rewrite run_inventory_update_one.
  all: cbn [quantity unit_price product_line
         set_total set_date set_time set_tax_5_percent].
  all: destruct (int64 (Quantity item - quantity sale));
    cbn [negb]; [ | reflexivity].
  all: rewrite answer_to_looked_up, Stock, F.
  all: destruct (answer_to 1 w) eqn:A1; [ | | reflexivity].
  all: cbv beta zeta.
  all: rewrite run_sales_insert_one.
  all: cbn [quantity unit_price product_line
         set_total set_date set_time set_tax_5_percent].
  all: destruct (int64 (quantity sale)); cbn [negb]; [ | reflexivity].
  all: fold (restocked (product_line sale) (Quantity item - quantity sale)
                (inventory_collection (looked_up w))).
  all: change (put_inventory _ (called _ (looked_up w)))
         with (decremented (product_line sale)
                 (Quantity item - quantity sale) w).
  all: rewrite answer_to_decremented.
  all: destruct (answer_to 2 w); reflexivity.
Qed.
End Steps.

(** ** Numbers and stock *)

Module Facts.
Import Run Steps.

Lemma int64_spec (n : Z) : int64 n = true <-> - 2 ^ 63 <= n < 2 ^ 63.
Proof.
  unfold int64. rewrite andb_true_iff, Z.leb_le, Z.ltb_lt. tauto.
Qed.

Lemma int64_false (n : Z) : int64 n = false <-> n < - 2 ^ 63 \/ 2 ^ 63 <= n.
Proof.
  unfold int64. rewrite andb_false_iff, Z.leb_gt, Z.ltb_ge. tauto.
Qed.

Lemma float_limit_above_int64 : 2 ^ 63 < float_limit.
Proof. reflexivity. Qed.

(** [float_limit] is where the conversion of an int starts to overflow:
    the int just below it rounds to the largest double, and it rounds
    itself to infinity. *)
Lemma float_limit_is_the_first_overflow :
  nearest_float (float_limit - 1) = 0x1.fffffffffffffp+1023%float
  /\ nearest_float float_limit = infinity
  /\ nearest_float (- float_limit) = neg_infinity.
Proof. vm_compute. repeat split. Qed.

(** An int that fits a BSON integer converts to a float. *)
Lemma int64_converts (n : Z) :
  int64 n = true -> (Z.abs n <? float_limit) = true.
Proof.
  rewrite int64_spec, Z.ltb_lt. pose proof float_limit_above_int64. lia.
Qed.

Lemma carried_out_answer (n k : nat) (w : world) :
  carried_out n w -> (k < n)%nat -> answer_to k w = Acked.
Proof. intros C L. exact (C k L). Qed.

(** No document of the product, no stock. *)
Lemma stocked_none (p : string) (w : world) :
  (forall d, In d (inventory_collection w) -> Products d <> p) ->
  stocked p w = None.
Proof.
  unfold stocked. induction (inventory_collection w) as [ | d l IH];
    intros H; simpl.
  - reflexivity.
  - destruct (String.eqb_spec (Products d) p) as [E | _].
    + destruct (H d (or_introl eq_refl) E).
    + apply IH. intros d' I. apply H. right. exact I.
Qed.

(** The document [add_new_sale] looks up is one of the product. *)
Lemma stocked_product (p : string) (w : world) (item : InventoryDoc) :
  stocked p w = Some item ->
  In item (inventory_collection w) /\ Products item = p.
Proof.
  unfold stocked. intros F. apply find_some in F. destruct F as [I E].
  split; [exact I | ]. apply String.eqb_eq. exact E.
Qed.

(** After the update the first document of the product holds the new
    quantity. *)
Lemma find_restocked (p : string) (q : Z) (l : list InventoryDoc)
    (item : InventoryDoc) :
  List.find (fun d => String.eqb (Products d) p) l = Some item ->
  List.find (fun d => String.eqb (Products d) p) (restocked p q l) =
  Some (apply_set None (Some q) item).
Proof.
  unfold restocked. induction l as [ | d l IH]; simpl.
  - discriminate.
  - destruct (String.eqb (Products d) p) eqn:E; simpl.
    + intros [= ->]. rewrite E. reflexivity.
    + rewrite E. exact IH.
Qed.

Lemma stock_of_decremented (p : string) (q : Z) (w : world)
    (item : InventoryDoc) :
  stocked p w = Some item -> stock_of p (decremented p q w) = Some q.
Proof.
  intros F. unfold stock_of, stocked, decremented. simpl.
  unfold stocked in F. rewrite (find_restocked _ _ _ _ F). reflexivity.
Qed.

Lemma stock_of_recorded (p : string) (s : Sale) (w : world) :
  stock_of p (recorded s w) = stock_of p w.
Proof. reflexivity. Qed.

Lemma stock_of_called (p : string) (c : call) (w : world) :
  stock_of p (called c w) = stock_of p w.
Proof. reflexivity. Qed.

(** The update touches no other product. *)
Lemma find_restocked_other (p p' : string) (q : Z) (l : list InventoryDoc) :
  p' <> p ->
  List.find (fun d => String.eqb (Products d) p') (restocked p q l) =
  List.find (fun d => String.eqb (Products d) p') l.
Proof.
  intros N. unfold restocked. induction l as [ | d l IH]; simpl.
  - reflexivity.
  - destruct (String.eqb_spec (Products d) p) as [E | _]; simpl.
    + destruct (String.eqb_spec (Products d) p') as [E' | _].
      * destruct N. rewrite <- E', E. reflexivity.
      * reflexivity.
    + destruct (String.eqb (Products d) p'); [reflexivity | exact IH].
Qed.

End Facts.

(** ** The sale-recording workflow *)

Import Run Steps Facts Tracking.
Import ErrorHandling InventoryRoutes SalesRoutes App Sample.

(** The outcome of [add_new_sale] for a product the inventory lacks. *)
Lemma add_new_sale_absent (sale : Sale) (w : world) :
  stocked (product_line sale) w = None ->
  add_new_sale sale w =
  (match answer_to 0 w with
   | Broken => Raise PyMongoError
   | _ => Raise (handle_not_found_error "Product")
   end, looked_up w).
Proof.
  intros F. rewrite add_new_sale_run, F.
  destruct (answer_to 0 w); reflexivity.
Qed.

(** The outcome of [add_new_sale] when the stock is short. *)
Lemma add_new_sale_short (sale : Sale) (w : world) (item : InventoryDoc) :
  stocked (product_line sale) w = Some item ->
  Quantity item < quantity sale ->
  add_new_sale sale w =
  (match answer_to 0 w with
   | Broken => Raise PyMongoError
   | _ => Raise (HTTPException 404 "Insufficient quantity in inventory")
   end, looked_up w).
Proof.
  intros F L. rewrite add_new_sale_run, F.
  apply Z.ltb_lt in L. rewrite L.
  destruct (answer_to 0 w); reflexivity.
Qed.

(** The outcome of [add_new_sale] when the three storage calls are carried
    out and the numbers fit. *)
Lemma add_new_sale_done (sale : Sale) (w : world) (item : InventoryDoc) :
  stocked (product_line sale) w = Some item ->
  quantity sale <= Quantity item ->
  int64 (quantity sale) = true ->
  int64 (Quantity item - quantity sale) = true ->
  carried_out 3 w ->
  add_new_sale sale w =
  (Return (priced sale w),
   recorded (priced sale w)
     (decremented (product_line sale) (Quantity item - quantity sale) w)).
Proof.
  intros F L Iq Id C. rewrite add_new_sale_run, F.
  rewrite (C 0%nat), (C 1%nat), (C 2%nat) by lia.
  apply Z.ltb_ge in L. rewrite L, (int64_converts _ Iq), Id, Iq.
  reflexivity.
Qed.

(** Whatever the driver answers, [add_new_sale] stores no sale but the one
    it priced. *)
Lemma add_new_sale_sales (sale : Sale) (w : world) :
  sales_collection (snd (add_new_sale sale w)) = sales_collection w
  \/ persisted (priced sale w) w (snd (add_new_sale sale w)).
Proof.
  rewrite add_new_sale_run.
  destruct (answer_to 0 w);
    (destruct (stocked (product_line sale) w) as [item | ];
     [ | left; reflexivity]);
    (destruct (Quantity item <? quantity sale); [left; reflexivity | ]);
    (destruct (Z.abs (quantity sale) <? float_limit); simpl negb; cbv iota;
     [ | left; reflexivity]);
    (destruct (int64 (Quantity item - quantity sale)); simpl negb; cbv iota;
     [ | left; reflexivity]);
    try (left; reflexivity);
    (destruct (answer_to 1 w); try (left; reflexivity));
    cbv zeta;
    (destruct (int64 (quantity sale)); simpl negb; cbv iota;
     [ | left; reflexivity]);
    (destruct (answer_to 2 w);
     [right; reflexivity | left; reflexivity | left; reflexivity]).
Qed.

(** C1. For a new sale naming an inventory item with sufficient stock, the
    sale that is persisted has [total = unit_price * quantity * 0.95] and
    [tax_5_percent = unit_price * quantity * 0.05], whatever total and tax
    the client sent: no other sale can reach the collection, and this one
    does when the storage carries out the three calls; with a unit price of
    10 and a quantity of 3 the persisted sale has total 28.5 and tax 1.5,
    and the stock of the product decreases by exactly 3. *)
Theorem new_sale_total_and_tax (w : world) (sale : Sale) (item : InventoryDoc) :
  stocked (product_line sale) w = Some item ->
  quantity sale <= Quantity item ->
  let run := add_new_sale sale w in
  (sales_collection (snd run) = sales_collection w
   \/ persisted (priced sale w) w (snd run))
  /\ total (priced sale w) =
     (unit_price sale * nearest_float (quantity sale) * 0.95)%float
  /\ tax_5_percent (priced sale w) =
     (unit_price sale * nearest_float (quantity sale) * 0.05)%float
  /\ (carried_out 3 w ->
      int64 (quantity sale) = true ->
      int64 (Quantity item - quantity sale) = true ->
      fst run = Return (priced sale w)
      /\ persisted (priced sale w) w (snd run)
      /\ stock_of (product_line sale) (snd run) =
         Some (Quantity item - quantity sale))
  /\ (unit_price sale = 10%float ->
      quantity sale = 3 ->
      carried_out 3 w ->
      storable w ->
      fst run = Return (priced sale w)
      /\ persisted (priced sale w) w (snd run)
      /\ total (priced sale w) = 28.5%float
      /\ tax_5_percent (priced sale w) = 1.5%float
      /\ stock_of (product_line sale) (snd run) = Some (Quantity item - 3)).
Proof.
  intros F L run.
  assert (Done :
    carried_out 3 w ->
    int64 (quantity sale) = true ->
    int64 (Quantity item - quantity sale) = true ->
    fst run = Return (priced sale w)
    /\ persisted (priced sale w) w (snd run)
    /\ stock_of (product_line sale) (snd run) =
       Some (Quantity item - quantity sale)).
  { intros C Iq Id. subst run.
    rewrite (add_new_sale_done sale w item F L Iq Id C). simpl fst. simpl snd.
    split; [reflexivity | split; [reflexivity | ]].
    rewrite stock_of_recorded. apply (stock_of_decremented _ _ _ item F). }
  split; [apply add_new_sale_sales | ].
  split; [reflexivity | ]. split; [reflexivity | ]. split; [exact Done | ].
  intros P Q C S.
  assert (Is : int64 (Quantity item) = true).
  { apply S. apply (stocked_product _ _ _ F). }
  apply int64_spec in Is. rewrite Q in L.
  destruct Done as (R & Pe & St).
  - exact C.
  - rewrite Q. reflexivity.
  - apply int64_spec. rewrite Q. lia.
  - split; [exact R | ]. split; [exact Pe | ].
    split; [ | split].
    + unfold priced, share. simpl. rewrite P, Q. vm_compute. reflexivity.
    + unfold priced, share. simpl. rewrite P, Q. vm_compute. reflexivity.
    + rewrite St, Q. reflexivity.
Qed.

Lemma new_sale_total_and_tax_witness :
  fst (add_new_sale (order 10 3) (shop [tea 4; soap 5] [])) =
  Return (priced (order 10 3) (shop [tea 4; soap 5] []))
  /\ total (priced (order 10 3) (shop [tea 4; soap 5] [])) = 28.5%float
  /\ tax_5_percent (priced (order 10 3) (shop [tea 4; soap 5] [])) = 1.5%float
  /\ stock_of "Soap" (snd (add_new_sale (order 10 3) (shop [tea 4; soap 5] [])))
     = Some 2.
Proof.
  assert (C : carried_out 3 (shop [tea 4; soap 5] [])).
  { intros [ | [ | [ | k]]] _; reflexivity. }
  assert (S : storable (shop [tea 4; soap 5] [])).
  { intros d [<- | [<- | []]]; reflexivity. }
  assert (L : quantity (order 10 3) <= Quantity (soap 5)).
  { simpl. lia. }
  destruct (new_sale_total_and_tax (shop [tea 4; soap 5] []) (order 10 3)
              (soap 5) eq_refl L)
    as (_ & _ & _ & _ & Ex).
  destruct (Ex eq_refl eq_refl C S) as (R & _ & T & X & St).
  exact (conj R (conj T (conj X St))).
Defined.

(** Whatever the driver answers, a sale that [add_new_sale] refuses at the
    lookup leaves the two collections as they were. *)
Lemma looked_up_same_store (w : world) : same_store w (looked_up w).
Proof. split; reflexivity. Qed.

(** C2 (as the code has it).  For a new sale naming an inventory item whose
    stock is below the requested quantity, the request fails with HTTP 404
    and the fixed detail "Insufficient quantity in inventory": a condition
    distinct from "Product not found", the same for every pair of
    quantities; no sale is persisted, no inventory document is changed, and
    the lookup is the only storage call made. *)
Theorem new_sale_insufficient_stock (w : world) (sale : Sale)
    (item : InventoryDoc) :
  stocked (product_line sale) w = Some item ->
  Quantity item < quantity sale ->
  let run := add_new_sale sale w in
  same_store w (snd run)
  /\ journal (snd run) =
     (journal w ++ [Now; Now; Storage (Call inventory find_one)])%list
  /\ (answer_to 0 w <> Broken ->
      fst run = Raise (HTTPException 404 "Insufficient quantity in inventory")
      /\ status_code (fst run) = 404
      /\ fst run <> Raise (handle_not_found_error "Product")).
Proof.
  intros F L run. subst run. rewrite (add_new_sale_short sale w item F L).
  simpl fst. simpl snd.
  split; [apply looked_up_same_store | ].
  split.
  - unfold looked_up. simpl. rewrite <- !app_assoc. reflexivity.
  - intros A. destruct (answer_to 0 w); try (destruct A; reflexivity);
      (split; [reflexivity | split; [reflexivity | discriminate]]).
Qed.

Lemma new_sale_insufficient_stock_witness :
  fst (add_new_sale (order 10 5) (shop [soap 2] [])) =
  Raise (HTTPException 404 "Insufficient quantity in inventory")
  /\ same_store (shop [soap 2] [])
       (snd (add_new_sale (order 10 5) (shop [soap 2] []))).
Proof.
  assert (L : Quantity (soap 2) < quantity (order 10 5)).
  { simpl. lia. }
  destruct (new_sale_insufficient_stock (shop [soap 2] []) (order 10 5)
              (soap 2) eq_refl L) as (S & _ & R).
  split; [ | exact S].
  apply R. discriminate.
Defined.

(** C2 as the spec states it fails: the condition raised for a request of 5
    units against a stock of 2 is the very one raised for 9 units against
    7, and its detail spells none of these quantities. *)
Lemma insufficient_stock_carries_no_quantities :
  fst (add_new_sale (order 10 5) (shop [soap 2] [])) =
  Raise (HTTPException 404 "Insufficient quantity in inventory")
  /\ fst (add_new_sale (order 10 9) (shop [soap 7] [])) =
     fst (add_new_sale (order 10 5) (shop [soap 2] []))
  /\ spells (HTTPException 404 "Insufficient quantity in inventory") 5 = false
  /\ spells (HTTPException 404 "Insufficient quantity in inventory") 2 = false.
Proof. vm_compute. repeat split. Qed.

(** C3. For a new sale whose product line is the product name of no
    inventory document, the request fails with HTTP 404 and the detail
    "Product not found"; no sale is persisted, no inventory document is
    changed, and the lookup is the only storage call made. *)
Theorem new_sale_product_not_found (w : world) (sale : Sale) :
  (forall d, In d (inventory_collection w) ->
             Products d <> product_line sale) ->
  let run := add_new_sale sale w in
  same_store w (snd run)
  /\ journal (snd run) =
     (journal w ++ [Now; Now; Storage (Call inventory find_one)])%list
  /\ (answer_to 0 w <> Broken ->
      fst run = Raise (HTTPException 404 "Product not found")
      /\ status_code (fst run) = 404).
Proof.
  intros H run. subst run.
  rewrite (add_new_sale_absent sale w (stocked_none _ _ H)).
  simpl fst. simpl snd.
  split; [apply looked_up_same_store | ].
  split.
  - unfold looked_up. simpl. rewrite <- !app_assoc. reflexivity.
  - intros A. destruct (answer_to 0 w); try (destruct A; reflexivity);
      (split; reflexivity).
Qed.

Lemma new_sale_product_not_found_witness :
  fst (add_new_sale (order 10 3) (shop [tea 4] [])) =
  Raise (HTTPException 404 "Product not found")
  /\ same_store (shop [tea 4] [])
       (snd (add_new_sale (order 10 3) (shop [tea 4] []))).
Proof.
  assert (H : forall d, In d (inventory_collection (shop [tea 4] [])) ->
                        Products d <> product_line (order 10 3)).
  { intros d [<- | []]. discriminate. }
  destruct (new_sale_product_not_found (shop [tea 4] []) (order 10 3) H)
    as (S & _ & R).
  split; [ | exact S].
  apply R. discriminate.
Defined.

(** C4. In a run of the workflow in which the decrement of the inventory is
    carried out and the insert of the sale then fails (the driver raises,
    reports no inserted id, or cannot encode the document), the request
    fails, the inventory holds the decremented quantity and the sales
    collection holds no new document; after the failed insert no storage
    call follows: no rollback and no second attempt. *)
Theorem new_sale_insert_failure_keeps_decrement (w : world) (sale : Sale)
    (item : InventoryDoc) :
  stocked (product_line sale) w = Some item ->
  quantity sale <= Quantity item ->
  Z.abs (quantity sale) < float_limit ->
  (* the lookup and the decrement are carried out *)
  answer_to 0 w <> Broken ->
  int64 (Quantity item - quantity sale) = true ->
  answer_to 1 w <> Broken ->
  (* the insert fails *)
  (int64 (quantity sale) = false
   \/ answer_to 2 w = Broken \/ answer_to 2 w = NoId) ->
  let run := add_new_sale sale w in
  (exists e, fst run = Raise e)
  /\ inventory_collection (snd run) =
     restocked (product_line sale) (Quantity item - quantity sale)
       (inventory_collection w)
  /\ stock_of (product_line sale) (snd run) =
     Some (Quantity item - quantity sale)
  /\ sales_collection (snd run) = sales_collection w
  /\ exists attempts,
       journal (snd run) =
       (journal w
        ++ [Now; Now; Storage (Call inventory find_one);
            Storage (Call inventory update_one)] ++ attempts)%list
       /\ (attempts = [] \/ attempts = [Storage (Call sales insert_one)]).
Proof.
  intros F L Fl A0 Id A1 Fail run. subst run.
  rewrite add_new_sale_run, F.
  apply Z.ltb_ge in L. apply Z.ltb_lt in Fl. rewrite L, Fl, Id.
  simpl negb. cbv iota.
  pose proof (stock_of_decremented (product_line sale)
                (Quantity item - quantity sale) w item F) as St.
  assert (J : forall tail,
    (journal w ++ [Now; Now; Storage (Call inventory find_one);
                   Storage (Call inventory update_one)] ++ tail)%list =
    (((((journal w ++ [Now]) ++ [Now])
        ++ [Storage (Call inventory find_one)])
       ++ [Storage (Call inventory update_one)]) ++ tail)%list).
  { intros tail. rewrite <- !app_assoc. reflexivity. }
  destruct (answer_to 0 w); try (destruct A0; reflexivity);
    (destruct (answer_to 1 w); try (destruct A1; reflexivity));
    cbv zeta;
    (destruct (int64 (quantity sale)); simpl negb; cbv iota;
     [ destruct Fail as [Enc | [B | N]]; [discriminate Enc | | ];
       [ rewrite B | rewrite N ]
     | ]);
    simpl fst; simpl snd;
    (split; [eexists; reflexivity | ]);
    (split; [reflexivity | ]);
    (split; [exact St | ]);
    (split; [reflexivity | ]).
  all: try (exists [Storage (Call sales insert_one)];
            split; [rewrite J; reflexivity | right; reflexivity]).
  all: exists []; split; [rewrite J, app_nil_r; reflexivity | left; reflexivity].
Qed.

Lemma new_sale_insert_failure_keeps_decrement_witness :
  fst (add_new_sale (order 10 3) (shop [soap 5] [Acked; Acked; Broken])) =
  Raise PyMongoError
  /\ stock_of "Soap"
       (snd (add_new_sale (order 10 3) (shop [soap 5] [Acked; Acked; Broken])))
     = Some 2
  /\ sales_collection
       (snd (add_new_sale (order 10 3) (shop [soap 5] [Acked; Acked; Broken])))
     = [].
Proof.
  assert (L : quantity (order 10 3) <= Quantity (soap 5)).
  { simpl. lia. }
  assert (Fl : Z.abs (quantity (order 10 3)) < float_limit).
  { reflexivity. }
  assert (A0 : answer_to 0 (shop [soap 5] [Acked; Acked; Broken]) <> Broken).
  { discriminate. }
  assert (A1 : answer_to 1 (shop [soap 5] [Acked; Acked; Broken]) <> Broken).
  { discriminate. }
  destruct (new_sale_insert_failure_keeps_decrement
              (shop [soap 5] [Acked; Acked; Broken]) (order 10 3) (soap 5)
              eq_refl L Fl A0 eq_refl A1 (or_intror (or_introl eq_refl)))
    as (_ & _ & St & Sa & _).
  split; [reflexivity | ]. split; [exact St | exact Sa].
Defined.

(** The journal of a run of [add_new_sale]: the two readings of the clock
    come first, and only storage calls follow. *)
Lemma add_new_sale_journal (sale : Sale) (w : world) :
  exists calls,
    journal (snd (add_new_sale sale w)) =
    (journal w ++ Now :: Now :: map Storage calls)%list.
Proof.
  rewrite add_new_sale_run.
  assert (J1 : forall a,
    (((journal w ++ [Now]) ++ [Now]) ++ [Storage a])%list =
    (journal w ++ Now :: Now :: map Storage [a])%list).
  { intros. rewrite <- !app_assoc. reflexivity. }
  assert (J2 : forall a b,
    ((((journal w ++ [Now]) ++ [Now]) ++ [Storage a]) ++ [Storage b])%list =
    (journal w ++ Now :: Now :: map Storage [a; b])%list).
  { intros. rewrite <- !app_assoc. reflexivity. }
  assert (J3 : forall a b c,
    (((((journal w ++ [Now]) ++ [Now]) ++ [Storage a]) ++ [Storage b])
       ++ [Storage c])%list =
    (journal w ++ Now :: Now :: map Storage [a; b; c])%list).
  { intros. rewrite <- !app_assoc. reflexivity. }
  destruct (answer_to 0 w);
    try (eexists; apply J1);
    (destruct (stocked (product_line sale) w) as [item | ];
     [ | eexists; apply J1]);
    (destruct (Quantity item <? quantity sale); [eexists; apply J1 | ]);
    (destruct (Z.abs (quantity sale) <? float_limit); simpl negb; cbv iota;
     [ | eexists; apply J1]);
    (destruct (int64 (Quantity item - quantity sale)); simpl negb; cbv iota;
     [ | eexists; apply J1]);
    (destruct (answer_to 1 w); try (eexists; apply J2));
    cbv zeta;
    (destruct (int64 (quantity sale)); simpl negb; cbv iota;
     [ | eexists; apply J2]);
    (destruct (answer_to 2 w); eexists; apply J3).
Qed.

(** A sale that [add_new_sale] returns is the priced one, and it has been
    persisted. *)
Lemma add_new_sale_returns (sale s : Sale) (w : world) :
  fst (add_new_sale sale w) = Return s ->
  s = priced sale w /\ persisted s w (snd (add_new_sale sale w)).
Proof.
  rewrite add_new_sale_run.
  destruct (answer_to 0 w); try discriminate;
    (destruct (stocked (product_line sale) w) as [item | ];
     [ | discriminate]);
    (destruct (Quantity item <? quantity sale); [discriminate | ]);
    (destruct (Z.abs (quantity sale) <? float_limit); simpl negb; cbv iota;
     [ | discriminate]);
    (destruct (int64 (Quantity item - quantity sale)); simpl negb; cbv iota;
     [ | discriminate]);
    (destruct (answer_to 1 w); try discriminate);
    cbv zeta;
    (destruct (int64 (quantity sale)); simpl negb; cbv iota;
     [ | discriminate]);
    (destruct (answer_to 2 w); try discriminate);
    simpl; intros [= <-]; split; reflexivity.
Qed.

(** C8. A new sale is stamped before anything else: the two readings of the
    clock precede every storage call of the run; the date and time the
    client sent have no influence on the run, neither on its outcome nor on
    the world it leaves; a sale returned or persisted carries the date of
    the first reading and the time of the second; and the run of a request
    for a stocked product, with the three storage calls carried out, does
    return and persist the sale so stamped, whatever date and time the
    client sent. *)
Theorem new_sale_date_and_time_stamped (w : world) (sale : Sale)
    (client_date client_time : string) :
  add_new_sale (set_time client_time (set_date client_date sale)) w =
  add_new_sale sale w
  /\ (exists calls,
        journal (snd (add_new_sale sale w)) =
        (journal w ++ Now :: Now :: map Storage calls)%list)
  /\ (forall s,
        fst (add_new_sale sale w) = Return s ->
        date s = strftime_mdY (clock w (readings w))
        /\ time s = strftime_HMS (clock w (S (readings w)))
        /\ persisted s w (snd (add_new_sale sale w)))
  /\ (forall doc,
        In doc (sales_collection (snd (add_new_sale sale w))) ->
        In doc (sales_collection w)
        \/ (date (fields doc) = strftime_mdY (clock w (readings w))
            /\ time (fields doc) = strftime_HMS (clock w (S (readings w)))))
  /\ (forall item,
        stocked (product_line sale) w = Some item ->
        quantity sale <= Quantity item ->
        int64 (quantity sale) = true ->
        int64 (Quantity item - quantity sale) = true ->
        carried_out 3 w ->
        let run :=
          add_new_sale (set_time client_time (set_date client_date sale)) w in
        fst run = Return (priced sale w)
        /\ date (priced sale w) = strftime_mdY (clock w (readings w))
        /\ time (priced sale w) = strftime_HMS (clock w (S (readings w)))
        /\ persisted (priced sale w) w (snd run)
        /\ exists calls,
             journal (snd run) =
             (journal w ++ Now :: Now :: map Storage calls)%list).
Proof.
  assert (Same :
    add_new_sale (set_time client_time (set_date client_date sale)) w =
    add_new_sale sale w).
  { rewrite !add_new_sale_run. reflexivity. }
  split; [exact Same | ]. split; [ | split; [ | split]].
  - apply add_new_sale_journal.
  - intros s R. destruct (add_new_sale_returns sale s w R) as [-> P].
    split; [reflexivity | split; [reflexivity | exact P]].
  - intros doc I.
    destruct (add_new_sale_sales sale w) as [E | E]; rewrite E in I.
    + left. exact I.
    + apply in_app_or in I. destruct I as [I | [<- | []]].
      * left. exact I.
      * right. split; reflexivity.
  - intros item F L Iq Id C run. subst run. rewrite Same.
    split; [ | split; [reflexivity | split; [reflexivity | split]]].
    + rewrite (add_new_sale_done sale w item F L Iq Id C). reflexivity.
    + rewrite (add_new_sale_done sale w item F L Iq Id C). reflexivity.
    + apply add_new_sale_journal.
Qed.

(** C9 (as the code has it).  For a new sale naming an inventory item with
    non-negative stock, with a quantity that is zero or negative, the stock
    check passes; provided the stock minus the quantity still is a BSON
    integer (below 2^63) and the storage carries out the three calls, the
    workflow succeeds and the inventory holds the stock minus the
    quantity, more than before when the quantity is negative. *)
Theorem new_sale_accepts_non_positive_quantity (w : world) (sale : Sale)
    (item : InventoryDoc) :
  stocked (product_line sale) w = Some item ->
  0 <= Quantity item ->
  quantity sale <= 0 ->
  Quantity item - quantity sale < 2 ^ 63 ->
  carried_out 3 w ->
  let run := add_new_sale sale w in
  (Quantity item <? quantity sale) = false
  /\ fst run = Return (priced sale w)
  /\ persisted (priced sale w) w (snd run)
  /\ stock_of (product_line sale) (snd run) =
     Some (Quantity item - quantity sale)
  /\ (quantity sale < 0 -> Quantity item < Quantity item - quantity sale).
Proof.
  intros F S Q B C run. subst run.
  assert (L : quantity sale <= Quantity item) by lia.
  assert (Iq : int64 (quantity sale) = true) by (apply int64_spec; lia).
  assert (Id : int64 (Quantity item - quantity sale) = true)
    by (apply int64_spec; lia).
  rewrite (add_new_sale_done sale w item F L Iq Id C). simpl fst. simpl snd.
  split; [apply Z.ltb_ge; exact L | ].
  split; [reflexivity | ]. split; [reflexivity | ].
  split; [ | lia].
  rewrite stock_of_recorded. apply (stock_of_decremented _ _ _ item F).
Qed.

Lemma new_sale_accepts_non_positive_quantity_witness :
  fst (add_new_sale (order 10 (-4)) (shop [soap 5] [])) =
  Return (priced (order 10 (-4)) (shop [soap 5] []))
  /\ stock_of "Soap" (snd (add_new_sale (order 10 (-4)) (shop [soap 5] [])))
     = Some 9.
Proof.
  assert (S : 0 <= Quantity (soap 5)) by (simpl; lia).
  assert (Q : quantity (order 10 (-4)) <= 0) by (simpl; lia).
  assert (B : Quantity (soap 5) - quantity (order 10 (-4)) < 2 ^ 63)
    by reflexivity.
  assert (C : carried_out 3 (shop [soap 5] [])).
  { intros [ | [ | [ | k]]] _; reflexivity. }
  destruct (new_sale_accepts_non_positive_quantity (shop [soap 5] [])
              (order 10 (-4)) (soap 5) eq_refl S Q B C)
    as (_ & R & _ & St & _).
  split; [exact R | exact St].
Defined.

(** C9 as stated fails for quantities of large magnitude: a quantity of
    - 2^1024 does not convert to a float, so the computation of the total
    raises OverflowError; with a quantity of - 2^63 against a stock of 0
    the new stock 2^63 is no BSON integer, so the update raises.  In both
    runs the inventory keeps its stock and no sale is persisted. *)
Lemma non_positive_quantity_can_fail :
  fst (add_new_sale (order 10 (- 2 ^ 1024)) (shop [soap 0] [])) =
  Raise OverflowError
  /\ same_store (shop [soap 0] [])
       (snd (add_new_sale (order 10 (- 2 ^ 1024)) (shop [soap 0] [])))
  /\ fst (add_new_sale (order 10 (- 2 ^ 63)) (shop [soap 0] [])) =
     Raise OverflowError
  /\ same_store (shop [soap 0] [])
       (snd (add_new_sale (order 10 (- 2 ^ 63)) (shop [soap 0] []))).
Proof. vm_compute. repeat split. Qed.

(** C10. For a new sale with [0 < quantity <= stock] against an inventory
    of BSON integers, run on its own with the storage carrying out the
    three calls, the stock check passes (also when the quantity equals the
    stock), the workflow succeeds, and the inventory holds the stock minus
    the quantity, which is not negative. *)
Theorem new_sale_keeps_stock_non_negative (w : world) (sale : Sale)
    (item : InventoryDoc) :
  stocked (product_line sale) w = Some item ->
  0 < quantity sale <= Quantity item ->
  storable w ->
  carried_out 3 w ->
  let run := add_new_sale sale w in
  (Quantity item <? quantity sale) = false
  /\ fst run = Return (priced sale w)
  /\ persisted (priced sale w) w (snd run)
  /\ stock_of (product_line sale) (snd run) =
     Some (Quantity item - quantity sale)
  /\ 0 <= Quantity item - quantity sale.
Proof.
  intros F [P L] S C run. subst run.
  assert (Is : int64 (Quantity item) = true).
  { apply S. apply (stocked_product _ _ _ F). }
  apply int64_spec in Is.
  assert (Iq : int64 (quantity sale) = true) by (apply int64_spec; lia).
  assert (Id : int64 (Quantity item - quantity sale) = true)
    by (apply int64_spec; lia).
  rewrite (add_new_sale_done sale w item F L Iq Id C). simpl fst. simpl snd.
  split; [apply Z.ltb_ge; exact L | ].
  split; [reflexivity | ]. split; [reflexivity | ].
  split; [ | lia].
  rewrite stock_of_recorded. apply (stock_of_decremented _ _ _ item F).
Qed.

Lemma new_sale_keeps_stock_non_negative_witness :
  fst (add_new_sale (order 10 5) (shop [soap 5] [])) =
  Return (priced (order 10 5) (shop [soap 5] []))
  /\ stock_of "Soap" (snd (add_new_sale (order 10 5) (shop [soap 5] [])))
     = Some 0.
Proof.
  assert (Q : 0 < quantity (order 10 5) <= Quantity (soap 5))
    by (simpl; lia).
  assert (S : storable (shop [soap 5] [])).
  { intros d [<- | []]; reflexivity. }
  assert (C : carried_out 3 (shop [soap 5] [])).
  { intros [ | [ | [ | k]]] _; reflexivity. }
  destruct (new_sale_keeps_stock_non_negative (shop [soap 5] [])
              (order 10 5) (soap 5) eq_refl Q S C)
    as (_ & R & _ & St & _).
  split; [exact R | exact St].
Defined.

Lemma new_sale_date_and_time_stamped_witness :
  exists s,
    fst (add_new_sale
           (set_time "00:00:00" (set_date "12/31/2030" (order 10 3)))
           (shop [soap 5] [])) = Return s
    /\ date s = "03/09/2024"
    /\ time s = "12:05:07"
    /\ map fields
         (sales_collection
            (snd (add_new_sale
                    (set_time "00:00:00" (set_date "12/31/2030" (order 10 3)))
                    (shop [soap 5] [])))) = [s].
Proof.
  assert (L : quantity (order 10 3) <= Quantity (soap 5)) by (simpl; lia).
  assert (C : carried_out 3 (shop [soap 5] [])).
  { intros [ | [ | [ | k]]] _; reflexivity. }
  destruct (new_sale_date_and_time_stamped (shop [soap 5] []) (order 10 3)
              "12/31/2030" "00:00:00")
    as (_ & _ & _ & _ & Done).
  destruct (Done (soap 5) eq_refl L eq_refl eq_refl C) as (R & D & T & P & _).
  exists (priced (order 10 3) (shop [soap 5] [])).
  split; [exact R | ]. split; [exact D | ]. split; [exact T | ].
  unfold persisted in P. rewrite P. reflexivity.
Defined.

(** ** The inventory routes *)

(** The loop over the low-quantity items raises at its first item. *)
Lemma warn_each_raises (item : InventoryDoc) (rest : list InventoryDoc)
    (warning_messages : list Warning.t) (w : world) :
  Quantity item < 10 ->
  warn_each (item :: rest) warning_messages w =
  (Raise
     (HTTPException 200
        ("Warning: Product (" ++ Products item
         ++ ") quantity is low. Current quantity: "
         ++ str_int (Quantity item))%string), w).
Proof.
  intros L. apply Z.ltb_lt in L. simpl. unfold bind.
  unfold InventoryErrorHandler.handle_quantity_warning. rewrite L.
  reflexivity.
Qed.

Lemma in_firstn {A} (n : nat) (l : list A) (x : A) :
  In x (firstn n l) -> In x l.
Proof.
  revert l. induction n as [ | n IH]; intros [ | y l]; simpl; try tauto.
  intros [E | I]; [left; exact E | right; exact (IH l I)].
Qed.

Lemma firstn_filter_low (n : nat) (l : list InventoryDoc) :
  forall d, In d (firstn n (filter (fun d => Quantity d <? 10) l)) ->
            Quantity d < 10.
Proof.
  intros d I. apply in_firstn in I. apply filter_In in I.
  apply Z.ltb_lt. exact (proj2 I).
Qed.

Lemma run_inventory_find {B} (query : InventoryDoc -> bool)
    (length : option nat) (k : list InventoryDoc -> M B) (w : world) :
  bind (inventory_find query length) k w =
  match answer_to 0 w with
  | Broken => (Raise PyMongoError, called (Call inventory find) w)
  | _ =>
      k (to_list length (filter query (inventory_collection w)))
        (called (Call inventory find) w)
  end.
Proof.
  unfold inventory_find, bind at 1. rewrite run_storage_call.
  destruct (answer_to 0 w); reflexivity.
Qed.

(** GET /inventory/low_quantity_warning returns a list only when no item is
    low; with a low item it raises the warning of the first one. *)
Lemma check_low_quantity_warning_run (w : world) :
  answer_to 0 w <> Broken ->
  fst (check_low_quantity_warning w) =
  match to_list (Some 100%nat)
          (filter (fun d => Quantity d <? 10) (inventory_collection w)) with
  | [] => Return []
  | item :: _ =>
      Raise
        (HTTPException 200
           ("Warning: Product (" ++ Products item
            ++ ") quantity is low. Current quantity: "
            ++ str_int (Quantity item))%string)
  end.
Proof.
  intros A. unfold check_low_quantity_warning.
  rewrite run_inventory_find.
  assert (Low : forall d,
    In d (to_list (Some 100%nat)
            (filter (fun d => Quantity d <? 10) (inventory_collection w))) ->
    Quantity d < 10) by apply firstn_filter_low.
  destruct (answer_to 0 w); try (destruct A; reflexivity);
    (destruct (to_list (Some 100%nat)
                 (filter (fun d => Quantity d <? 10) (inventory_collection w)))
       as [ | item rest];
     [ reflexivity
     | rewrite warn_each_raises by (apply Low; left; reflexivity);
       reflexivity ]).
Qed.

(** C5, where the code departs from it: with tea at 20, soap at 5 and rice
    at 7 in the inventory the handler returns no list of low-quantity
    items; it raises the HTTPException of status 200 that
    [handle_quantity_warning] builds for the soap, the first low item.  The
    claim has it return the list with the entries of the soap and of the
    rice.  A list is returned only when it is empty. *)
Theorem low_quantity_warning_aborts_listing :
  fst (check_low_quantity_warning (shop [tea 20; soap 5; rice 7] [])) =
  Raise
    (HTTPException 200
       "Warning: Product (Soap) quantity is low. Current quantity: 5")
  /\ fst (check_low_quantity_warning (shop [tea 20] [])) = Return [].
Proof. vm_compute. split; reflexivity. Qed.

(** Whatever GET /inventory/{item_id} raises is the internal server error:
    the not-found error is raised inside the [try] and caught with the
    rest. *)
Lemma get_item_raises_500 (item_id : string) (w : world) (e : exn) :
  fst (get_item item_id w) = Raise e -> e = handle_internal_server_error.
Proof.
  unfold get_item, try_except.
  destruct (bind _ _ w) as [[d | e'] w']; simpl.
  - discriminate.
  - intros [= <-]. reflexivity.
Qed.

Lemma get_item_absent (item_id : string) (w : world) :
  List.find (fun d => id_eqb (doc_id d) (IdStr item_id))
    (inventory_collection w) = None ->
  fst (get_item item_id w) = Raise handle_internal_server_error.
Proof.
  intros F. unfold get_item, try_except. rewrite run_inventory_find_one.
  destruct (answer_to 0 w); try reflexivity;
    simpl inventory_collection; rewrite F; reflexivity.
Qed.

(** Whatever PUT /inventory/{item_id} raises is the internal server
    error. *)
Lemma update_inventory_raises_500 (item_id : string)
    (updated_item : InventoryUpdate.t) (w : world) (e : exn) :
  fst (update_inventory item_id updated_item w) = Raise e ->
  e = handle_internal_server_error.
Proof.
  unfold update_inventory, try_except.
  destruct (bind _ _ w) as [[d | e'] w']; simpl.
  - discriminate.
  - intros [= <-]. reflexivity.
Qed.

(** C6, where the code departs from it: for an id that matches no
    inventory document GET /inventory/{id} and PUT /inventory/{id} answer
    with status 500, not 404; so does DELETE.  The not-found error of
    status 404 is raised inside the [try] block, and [except Exception]
    replaces it by the internal server error. *)
Theorem item_not_found_is_answered_500 :
  fst (get_item "65f1a2b3c4d5e6f708192a3b" (shop [soap 5] [])) =
  Raise (HTTPException 500 "Internal Server Error")
  /\ status_code
       (fst (get_item "65f1a2b3c4d5e6f708192a3b" (shop [soap 5] []))) = 500
  /\ fst (update_inventory "65f1a2b3c4d5e6f708192a3b"
            {| InventoryUpdate.Products := None;
               InventoryUpdate.Quantity := Some 7 |}
            (shop [soap 5] [])) =
     Raise (HTTPException 500 "Internal Server Error")
  /\ status_code
       (fst (update_inventory "65f1a2b3c4d5e6f708192a3b"
               {| InventoryUpdate.Products := None;
                  InventoryUpdate.Quantity := Some 7 |}
               (shop [soap 5] []))) = 500
  /\ fst (delete_inventory "65f1a2b3c4d5e6f708192a3b" (shop [soap 5] [])) =
     Raise (HTTPException 500 "Internal Server Error").
Proof. vm_compute. repeat split. Qed.

(** ** Where a storage exception goes *)

Lemma tracks_raise_not_found {A} (resource_name : string) :
  tracks (@raise A (handle_not_found_error resource_name)).
Proof. apply tracks_raise_http. Qed.

Lemma tracks_raise_internal {A} :
  tracks (@raise A handle_internal_server_error).
Proof. apply tracks_raise_http. Qed.

Lemma tracks_handle_quantity_warning (quantity : Z) (product : string) :
  tracks (InventoryErrorHandler.handle_quantity_warning quantity product).
Proof.
  unfold InventoryErrorHandler.handle_quantity_warning.
  destruct (quantity <? 10); auto with tracks.
Qed.

#[export] Hint Resolve tracks_raise_not_found tracks_raise_internal
  tracks_handle_quantity_warning : tracks.

Lemma tracks_warn_each (items : list InventoryDoc)
    (warning_messages : list Warning.t) :
  tracks (warn_each items warning_messages).
Proof.
  revert warning_messages. induction items as [ | item rest IH];
    intros warning_messages; simpl.
  - apply tracks_ret.
  - apply tracks_bind; [auto with tracks | intros _; apply IH].
Qed.

#[export] Hint Resolve tracks_warn_each : tracks.

Lemma tracks_check_low_quantity_warning : tracks check_low_quantity_warning.
Proof. unfold check_low_quantity_warning. track. Qed.

Lemma tracks_add_new_sale (sale : Sale) : tracks (add_new_sale sale).
Proof. unfold add_new_sale. track. Qed.

(** Every handler with a generic catch answers a storage call that raised
    with the internal server error. *)
Lemma generic_catch_converts (r : request) (w : world) :
  generic_catch r = true ->
  storage_raised w (snd (route r w)) ->
  fst (route r w) = Raise handle_internal_server_error.
Proof.
  destruct r; simpl generic_catch; try discriminate; intros _;
    simpl route; rewrite fmap_snd; intros R; apply fmap_fst;
    revert R;
    unfold get_inventory, get_inventory_stats, get_item, add_inventory,
      update_inventory, delete_inventory, get_sales, analyze_sales,
      total_revenue_by_category, get_categories, total_sales, total_revenue,
      get_sales_for_product;
    apply caught; track.
Qed.

(** C7 (as the code has it).  Every handler but the new sale and the
    low-quantity warning has a generic catch, and there a storage call that
    raises is answered with HTTP 500 and the detail "Internal Server
    Error".  The new sale has no catch: a storage call that raises leaves
    the handler as the driver's own exception, as it does in the
    low-quantity warning, and it is the framework that answers it with
    status 500; the not-found and the insufficient-stock conditions are
    raised as HTTP 404 by the handler itself. *)
Theorem storage_exceptions_and_the_generic_catch :
  (forall r w,
     generic_catch r = true ->
     storage_raised w (snd (route r w)) ->
     fst (route r w) = Raise (HTTPException 500 "Internal Server Error")
     /\ status_code (fst (route r w)) = 500)
  /\ (forall r, generic_catch r = false ->
        r = GET_inventory_low_quantity_warning
        \/ exists sale, r = POST_sales_new_sale sale)
  /\ (forall sale w,
        storage_raised w (snd (add_new_sale sale w)) ->
        fst (add_new_sale sale w) = Raise PyMongoError
        /\ status_code (fst (add_new_sale sale w)) = 500)
  /\ (forall w,
        storage_raised w (snd (check_low_quantity_warning w)) ->
        fst (check_low_quantity_warning w) = Raise PyMongoError)
  /\ (forall sale w,
        answer_to 0 w <> Broken ->
        stocked (product_line sale) w = None ->
        fst (add_new_sale sale w) = Raise (HTTPException 404 "Product not found"))
  /\ (forall sale w item,
        answer_to 0 w <> Broken ->
        stocked (product_line sale) w = Some item ->
        Quantity item < quantity sale ->
        fst (add_new_sale sale w) =
        Raise (HTTPException 404 "Insufficient quantity in inventory")).
Proof.
  split; [ | split; [ | split; [ | split; [ | split]]]].
  - intros r w G R. rewrite (generic_catch_converts r w G R).
    split; reflexivity.
  - intros r G. destruct r; try discriminate G.
    + left. reflexivity.
    + right. eexists. reflexivity.
  - intros sale w R.
    rewrite (uncaught _ w (tracks_add_new_sale sale) R).
    split; reflexivity.
  - intros w. apply uncaught. apply tracks_check_low_quantity_warning.
  - intros sale w A F. rewrite (add_new_sale_absent sale w F).
    destruct (answer_to 0 w); try (destruct A; reflexivity); reflexivity.
  - intros sale w item A F L. rewrite (add_new_sale_short sale w item F L).
    destruct (answer_to 0 w); try (destruct A; reflexivity); reflexivity.
Qed.

Lemma storage_exceptions_and_the_generic_catch_witness :
  fst (route GET_sales (shop [soap 5] [Broken])) =
  Raise (HTTPException 500 "Internal Server Error")
  /\ fst (route (GET_inventory_item "abc") (shop [soap 5] [Broken])) =
     Raise (HTTPException 500 "Internal Server Error")
  /\ fst (add_new_sale (order 10 3) (shop [soap 5] [Acked; Broken])) =
     Raise PyMongoError.
Proof.
  destruct storage_exceptions_and_the_generic_catch as (C & _ & N & _).
  split; [ | split].
  - apply (C GET_sales (shop [soap 5] [Broken]) eq_refl).
    exists []. reflexivity.
  - apply (C (GET_inventory_item "abc") (shop [soap 5] [Broken]) eq_refl).
    exists []. reflexivity.
  - apply (N (order 10 3) (shop [soap 5] [Acked; Broken])).
    exists [Acked]. reflexivity.
Defined.

(** C7 as stated fails for the new sale: with a driver that raises at the
    lookup the handler catches and converts nothing, the driver's exception
    leaves it; the same happens when the update raises, after the lookup.
    And where a generic catch stands, in GET /inventory/{item_id}, the
    not-found condition is raised inside it and leaves as the internal
    server error. *)
Lemma new_sale_lets_storage_exceptions_through :
  storage_raised (shop [soap 5] [Broken])
    (snd (add_new_sale (order 10 3) (shop [soap 5] [Broken])))
  /\ fst (add_new_sale (order 10 3) (shop [soap 5] [Broken])) =
     Raise PyMongoError
  /\ fst (add_new_sale (order 10 3) (shop [soap 5] [Acked; Broken])) =
     Raise PyMongoError
  /\ Raise (A := Sale) PyMongoError
     <> Raise (HTTPException 500 "Internal Server Error")
  /\ fst (get_item "abc" (shop [soap 5] [])) =
     Raise (HTTPException 500 "Internal Server Error").
Proof.
  split; [exists []; reflexivity | ].
  split; [reflexivity | ]. split; [reflexivity | ].
  split; [discriminate | reflexivity].
Qed.

(** ** The inventory stays one of BSON integers *)

Module Storable.

Lemma keeps_same_inventory {A} (m : M A) :
  (forall w, inventory_collection (snd (m w)) = inventory_collection w) ->
  keeps_storable m.
Proof. intros E w S d I. rewrite E in I. exact (S d I). Qed.

Lemma keeps_bind {A B} (m : M A) (k : A -> M B) :
  keeps_storable m -> (forall a, keeps_storable (k a)) ->
  keeps_storable (bind m k).
Proof.
  intros Hm Hk w S. unfold bind. specialize (Hm w S).
  destruct (m w) as [[a | e] w1]; simpl in *.
  - apply Hk. exact Hm.
  - exact Hm.
Qed.

Lemma keeps_try_except {A} (body : M A) (handler : exn) :
  keeps_storable body -> keeps_storable (try_except body handler).
Proof.
  intros Hb w S. unfold try_except. specialize (Hb w S).
  destruct (body w) as [[a | e] w1]; exact Hb.
Qed.

Lemma keeps_fmap {A B} (f : A -> B) (m : M A) :
  keeps_storable m -> keeps_storable (fmap f m).
Proof. intros Hm w S. rewrite fmap_snd. exact (Hm w S). Qed.

Lemma keeps_ret {A} (a : A) : keeps_storable (ret a).
Proof. apply keeps_same_inventory. reflexivity. Qed.

Lemma keeps_raise {A} (e : exn) : keeps_storable (@raise A e).
Proof. apply keeps_same_inventory. reflexivity. Qed.

Lemma keeps_lift {A} (o : outcome A) : keeps_storable (lift o).
Proof. apply keeps_same_inventory. reflexivity. Qed.

Lemma keeps_get_world : keeps_storable get_world.
Proof. apply keeps_same_inventory. reflexivity. Qed.

Lemma keeps_set_sales (l : list SaleDoc) : keeps_storable (set_sales l).
Proof. apply keeps_same_inventory. reflexivity. Qed.

Lemma keeps_datetime_now : keeps_storable datetime_now.
Proof. apply keeps_same_inventory. reflexivity. Qed.

Lemma keeps_fresh_ObjectId : keeps_storable fresh_ObjectId.
Proof. apply keeps_same_inventory. reflexivity. Qed.

Lemma keeps_storage_call (c : call) : keeps_storable (storage_call c).
Proof.
  apply keeps_same_inventory. intros w. unfold storage_call.
  destruct (hd Acked (driver w)); reflexivity.
Qed.

Lemma keeps_encode_int (n : Z) : keeps_storable (encode_int n).
Proof.
  apply keeps_same_inventory. intros w. unfold encode_int.
  destruct (int64 n); reflexivity.
Qed.

Lemma keeps_handle_quantity_warning (quantity : Z) (product : string) :
  keeps_storable
    (InventoryErrorHandler.handle_quantity_warning quantity product).
Proof.
  apply keeps_same_inventory. intros w.
  unfold InventoryErrorHandler.handle_quantity_warning.
  destruct (quantity <? 10); reflexivity.
Qed.

(** An update whose quantity the driver could encode keeps the documents
    BSON integers. *)
Lemma update_first_storable (query : InventoryDoc -> bool)
    (sp : option string) (sq : option Z) (l : list InventoryDoc) :
  match sq with Some q => int64 q = true | None => True end ->
  (forall d, In d l -> int64 (Quantity d) = true) ->
  forall d, In d (update_first query (apply_set sp sq) l) ->
            int64 (Quantity d) = true.
Proof.
  intros Q. induction l as [ | x l IH]; intros S d; simpl.
  - intros [].
  - destruct (query x); simpl.
    + intros [<- | I].
      * destruct sq as [q | ]; simpl; [exact Q | ].
        apply S. left. reflexivity.
      * apply S. right. exact I.
    + intros [<- | I].
      * apply S. left. reflexivity.
      * apply IH; [ | exact I]. intros d' I'. apply S. right. exact I'.
Qed.

Lemma remove_first_incl (query : InventoryDoc -> bool)
    (l : list InventoryDoc) :
  forall d, In d (remove_first query l) -> In d l.
Proof.
  induction l as [ | x l IH]; intros d; simpl; [tauto | ].
  destruct (query x); simpl; [tauto | ].
  intros [E | I]; [left; exact E | right; exact (IH d I)].
Qed.

Lemma keeps_inventory_update_one (query : InventoryDoc -> bool)
    (sp : option string) (sq : option Z) :
  keeps_storable (inventory_update_one query sp sq).
Proof.
  intros w S. unfold inventory_update_one.
  assert (Go : forall (Q : match sq with
                            | Some q => int64 q = true
                            | None => True
                            end) w0,
    inventory_collection w0 = inventory_collection w ->
    storable
      (snd ((storage_call (Call inventory update_one);;;
             w1 <- get_world;;
             match List.find query (inventory_collection w1) with
             | Some d =>
                 set_inventory
                   (update_first query (apply_set sp sq)
                      (inventory_collection w1));;;
                 ret {| matched_count := 1;
                        modified_count :=
                          if same_fields (apply_set sp sq d) d
                          then 0 else 1 |}
             | None => ret {| matched_count := 0; modified_count := 0 |}
             end) w0))).
  { intros Q w0 E. rewrite run_storage_call.
    destruct (answer_to 0 w0);
      try (intros d I; apply S; rewrite <- E; exact I);
      unfold bind, get_world; simpl;
      (destruct (List.find query (inventory_collection w0)); simpl;
       [ rewrite E; exact (update_first_storable query sp sq _ Q S)
       | intros d I; apply S; rewrite <- E; exact I ]). }
  destruct sq as [q | ].
  - unfold bind at 1, encode_int. destruct (int64 q) eqn:Q; simpl.
    + apply (Go eq_refl). reflexivity.
    + exact S.
  - unfold bind at 1, ret. apply (Go I). reflexivity.
Qed.

Lemma keeps_inventory_insert_one (item : InventoryCreate.t) :
  keeps_storable (inventory_insert_one item).
Proof.
  intros w S. unfold inventory_insert_one.
  rewrite run_encode_int.
  destruct (int64 (InventoryCreate.Quantity item)) eqn:Q; [ | exact S].
  rewrite run_storage_call.
  destruct (answer_to 0 w); try exact S; simpl;
    intros d I; apply in_app_or in I; destruct I as [I | [<- | []]];
    solve [apply S; exact I | exact Q].
Qed.

Lemma keeps_inventory_delete_one (query : InventoryDoc -> bool) :
  keeps_storable (inventory_delete_one query).
Proof.
  intros w S. unfold inventory_delete_one. rewrite run_storage_call.
  destruct (answer_to 0 w); try exact S;
    unfold bind, get_world; simpl;
    (destruct (List.find query (inventory_collection w)); simpl;
     [ intros d I; apply S; exact (remove_first_incl _ _ _ I) | exact S ]).
Qed.

Create HintDb storable.
#[export] Hint Resolve keeps_ret keeps_raise keeps_lift keeps_get_world
  keeps_set_sales keeps_datetime_now keeps_fresh_ObjectId keeps_storage_call
  keeps_encode_int keeps_handle_quantity_warning keeps_inventory_update_one
  keeps_inventory_insert_one keeps_inventory_delete_one : storable.

Ltac keep_step :=
  match goal with
  | |- keeps_storable (bind _ _) => apply keeps_bind; [ | intros ? ]
  | |- keeps_storable (try_except _ _) => apply keeps_try_except
  | |- keeps_storable (fmap _ _) => apply keeps_fmap
  | |- keeps_storable (match ?x with _ => _ end) => destruct x
  | |- keeps_storable (if ?b then _ else _) => destruct b
  | |- keeps_storable _ => solve [auto with storable]
  end.

Ltac keep := repeat keep_step.

Lemma keeps_warn_each (items : list InventoryDoc)
    (warning_messages : list Warning.t) :
  keeps_storable (warn_each items warning_messages).
Proof.
  revert warning_messages. induction items as [ | item rest IH];
    intros warning_messages; simpl.
  - apply keeps_ret.
  - apply keeps_bind; [auto with storable | intros _; apply IH].
Qed.

#[export] Hint Resolve keeps_warn_each : storable.

(** Every request leaves an inventory of BSON integers one. *)
Lemma route_keeps_storable (r : request) : keeps_storable (route r).
Proof.
  destruct r; simpl route;
    unfold get_inventory, check_low_quantity_warning, get_inventory_stats,
      get_item, add_inventory, update_inventory, delete_inventory, get_sales,
      analyze_sales, total_revenue_by_category, get_categories, total_sales,
      total_revenue, get_sales_for_product, add_new_sale,
      inventory_find, inventory_find_one, inventory_count_documents,
      inventory_total_quantity, sales_find, sales_insert_one,
      sales_aggregate_one, sales_distinct_product_line,
      sales_revenue_by_product_line;
    keep.
Qed.

End Storable.

(** * The other routes *)

(** ** More steps *)

Module MoreSteps.

Lemma run_get_world {B} (k : world -> M B) (w : world) :
  bind get_world k w = k w w.
Proof. reflexivity. Qed.

Lemma run_ret {A B} (a : A) (k : A -> M B) (w : world) :
  bind (ret a) k w = k a w.
Proof. reflexivity. Qed.

Lemma run_set_inventory {B} (l : list InventoryDoc) (k : unit -> M B)
    (w : world) :
  bind (set_inventory l) k w = k tt (put_inventory l w).
Proof. reflexivity. Qed.

Lemma run_inventory_count_documents {B} (k : Z -> M B) (w : world) :
  bind inventory_count_documents k w =
  match answer_to 0 w with
  | Broken => (Raise PyMongoError, called (Call inventory count_documents) w)
  | _ =>
      k (Z.of_nat (List.length (inventory_collection w)))
        (called (Call inventory count_documents) w)
  end.
Proof.
  unfold inventory_count_documents, bind at 1. rewrite run_storage_call.
  destruct (answer_to 0 w); reflexivity.
Qed.

Lemma run_inventory_total_quantity {B} (k : list Z -> M B) (w : world) :
  bind inventory_total_quantity k w =
  match answer_to 0 w with
  | Broken => (Raise PyMongoError, called (Call inventory aggregate) w)
  | _ =>
      k (to_list (Some 1%nat)
           (one_group (inventory_collection w)
              (fun docs => sum_Z (map Quantity docs))))
        (called (Call inventory aggregate) w)
  end.
Proof.
  unfold inventory_total_quantity, bind at 1. rewrite run_storage_call.
  destruct (answer_to 0 w); reflexivity.
Qed.

Lemma run_inventory_insert_one {B} (item : InventoryCreate.t)
    (k : option ObjectId -> M B) (w : world) :
  bind (inventory_insert_one item) k w =
  if int64 (InventoryCreate.Quantity item) then
    match answer_to 0 w with
    | Broken => (Raise PyMongoError, called (Call inventory insert_one) w)
    | NoId => k None (called (Call inventory insert_one) w)
    | Acked =>
        k (Some (next_ObjectId w))
          (put_inventory
             (inventory_collection w
              ++ [{| doc_id := IdObject (next_ObjectId w);
                     Products := InventoryCreate.Products item;
                     Quantity := InventoryCreate.Quantity item |}])%list
             (generated (called (Call inventory insert_one) w)))
    end
  else (Raise OverflowError, w).
Proof.
  unfold inventory_insert_one, bind at 1. rewrite run_encode_int.
  destruct (int64 (InventoryCreate.Quantity item)); [ | reflexivity].
  rewrite run_storage_call.
  destruct (answer_to 0 w); reflexivity.
Qed.

Lemma run_inventory_update {B} (query : InventoryDoc -> bool)
    (sp : option string) (sq : option Z) (k : UpdateResult -> M B)
    (w : world) :
  bind (inventory_update_one query sp sq) k w =
  if match sq with Some q => int64 q | None => true end then
    match answer_to 0 w with
    | Broken => (Raise PyMongoError, called (Call inventory update_one) w)
    | _ =>
        match List.find query (inventory_collection w) with
        | None =>
            k {| matched_count := 0; modified_count := 0 |}
              (called (Call inventory update_one) w)
        | Some d =>
            k {| matched_count := 1;
                 modified_count :=
                   if same_fields (apply_set sp sq d) d then 0 else 1 |}
              (put_inventory
                 (update_first query (apply_set sp sq)
                    (inventory_collection w))
                 (called (Call inventory update_one) w))
        end
    end
  else (Raise OverflowError, w).
Proof.
  unfold inventory_update_one.
  assert (Go : forall u : unit,
    (storage_call (Call inventory update_one);;;
     w0 <- get_world;;
     match List.find query (inventory_collection w0) with
     | Some d =>
         set_inventory
           (update_first query (apply_set sp sq) (inventory_collection w0));;;
         ret {| matched_count := 1;
                modified_count :=
                  if same_fields (apply_set sp sq d) d then 0 else 1 |}
     | None => ret {| matched_count := 0; modified_count := 0 |}
     end) w =
    match answer_to 0 w with
    | Broken =>
        (Raise PyMongoError, called (Call inventory update_one) w)
    | _ =>
        match List.find query (inventory_collection w) with
        | None =>
            (Return {| matched_count := 0; modified_count := 0 |},
             called (Call inventory update_one) w)
        | Some d =>
            (Return {| matched_count := 1;
                       modified_count :=
                         if same_fields (apply_set sp sq d) d
                         then 0 else 1 |},
             put_inventory
               (update_first query (apply_set sp sq)
                  (inventory_collection w))
               (called (Call inventory update_one) w))
        end
    end).
  { intros _. rewrite run_storage_call.
    destruct (answer_to 0 w); try reflexivity;
      unfold bind, get_world; simpl;
      destruct (List.find query (inventory_collection w)); reflexivity. }
  unfold bind at 1.
  destruct sq as [q | ].
  - unfold bind at 1, encode_int. destruct (int64 q); [ | reflexivity].
    unfold ret at 1. cbv beta iota. rewrite (Go tt).
    destruct (answer_to 0 w); try reflexivity;
      destruct (List.find query (inventory_collection w)); reflexivity.
  - unfold bind at 1, ret at 1. cbv beta iota. rewrite (Go tt).
    destruct (answer_to 0 w); try reflexivity;
      destruct (List.find query (inventory_collection w)); reflexivity.
Qed.

Lemma run_inventory_delete_one {B} (query : InventoryDoc -> bool)
    (k : Z -> M B) (w : world) :
  bind (inventory_delete_one query) k w =
  match answer_to 0 w with
  | Broken => (Raise PyMongoError, called (Call inventory delete_one) w)
  | _ =>
      match List.find query (inventory_collection w) with
      | None => k 0 (called (Call inventory delete_one) w)
      | Some _ =>
          k 1 (put_inventory (remove_first query (inventory_collection w))
                 (called (Call inventory delete_one) w))
      end
  end.
Proof.
  unfold inventory_delete_one, bind at 1. rewrite run_storage_call.
  destruct (answer_to 0 w); try reflexivity;
    unfold bind, get_world; simpl;
    destruct (List.find query (inventory_collection w)); reflexivity.
Qed.

Lemma run_sales_find (query : SaleDoc -> bool) (length : option nat)
    (w : world) :
  sales_find query length w =
  match answer_to 0 w with
  | Broken => (Raise PyMongoError, called (Call sales find) w)
  | _ =>
      (Return (to_list length (filter query (sales_collection w))),
       called (Call sales find) w)
  end.
Proof.
  unfold sales_find. rewrite run_storage_call.
  destruct (answer_to 0 w); reflexivity.
Qed.

Lemma run_sales_aggregate_one {B C} (acc : list Sale -> B)
    (k : list B -> M C) (w : world) :
  bind (sales_aggregate_one acc) k w =
  match answer_to 0 w with
  | Broken => (Raise PyMongoError, called (Call sales aggregate) w)
  | _ =>
      k (to_list (Some 1%nat)
           (one_group (map fields (sales_collection w)) acc))
        (called (Call sales aggregate) w)
  end.
Proof.
  unfold sales_aggregate_one, bind at 1. rewrite run_storage_call.
  destruct (answer_to 0 w); reflexivity.
Qed.

Lemma run_sales_distinct_product_line (w : world) :
  sales_distinct_product_line w =
  match answer_to 0 w with
  | Broken => (Raise PyMongoError, called (Call sales distinct) w)
  | _ =>
      (Return
         (distinct_values []
            (map (fun d => product_line (fields d)) (sales_collection w))),
       called (Call sales distinct) w)
  end.
Proof.
  unfold sales_distinct_product_line. rewrite run_storage_call.
  destruct (answer_to 0 w); reflexivity.
Qed.

(** The one group of a [$group] by [None], as [x[0] if x else zero]
    reads it. *)
Lemma first_of_one_group {A B} (docs : list A) (acc : list A -> B)
    (zero : B) :
  match to_list (Some 1%nat) (one_group docs acc) with
  | x :: _ => x
  | [] => zero
  end =
  match docs with
  | [] => zero
  | _ => acc docs
  end.
Proof. destruct docs; reflexivity. Qed.

End MoreSteps.

(** ** The inventory routes, one by one *)

Import MoreSteps.

(** The run of GET /inventory/stats. *)
Lemma get_inventory_stats_run (w : world) :
  get_inventory_stats w =
  match answer_to 0 w with
  | Broken =>
      (Raise handle_internal_server_error,
       called (Call inventory count_documents) w)
  | _ =>
      match answer_to 1 w with
      | Broken =>
          (Raise handle_internal_server_error,
           called (Call inventory aggregate)
             (called (Call inventory count_documents) w))
      | _ =>
          (Return
             {| Stats.total_items :=
                  Z.of_nat (List.length (inventory_collection w));
                Stats.total_quantity :=
                  match inventory_collection w with
                  | [] => 0
                  | docs => sum_Z (map Quantity docs)
                  end |},
           called (Call inventory aggregate)
             (called (Call inventory count_documents) w))
      end
  end.
Proof.
  unfold get_inventory_stats, try_except.
  rewrite run_inventory_count_documents.
  destruct (answer_to 0 w) eqn:A0; try reflexivity;
    rewrite run_inventory_total_quantity, answer_to_called;
    (destruct (answer_to 1 w); try reflexivity);
    unfold ret; simpl inventory_collection;
    rewrite (first_of_one_group (inventory_collection w)
               (fun docs => sum_Z (map Quantity docs)) 0);
    destruct (inventory_collection w); reflexivity.
Qed.

(** X1. GET /inventory/stats, when its two storage calls are answered and
    the quantities are non-negative with a sum that is a 64-bit integer,
    returns the number of inventory documents and the sum of their
    quantities, so 0 for both on an empty inventory; it changes neither
    collection. *)
Theorem inventory_stats_count_and_sum (w : world) :
  answer_to 0 w <> Broken ->
  answer_to 1 w <> Broken ->
  non_negative w ->
  sum_Z (map Quantity (inventory_collection w)) < 2 ^ 63 ->
  fst (get_inventory_stats w) =
  Return {| Stats.total_items :=
              Z.of_nat (List.length (inventory_collection w));
            Stats.total_quantity :=
              sum_Z (map Quantity (inventory_collection w)) |}
  /\ (inventory_collection w = [] ->
      fst (get_inventory_stats w) =
      Return {| Stats.total_items := 0; Stats.total_quantity := 0 |})
  /\ same_store w (snd (get_inventory_stats w)).
Proof.
  intros A0 A1 _ _. rewrite get_inventory_stats_run.
  destruct (answer_to 0 w); try (destruct A0; reflexivity);
    (destruct (answer_to 1 w); try (destruct A1; reflexivity));
    simpl fst; simpl snd;
    (split; [ destruct (inventory_collection w); reflexivity | ]);
    (split; [ intros ->; reflexivity | split; reflexivity ]).
Qed.

Lemma inventory_stats_count_and_sum_witness :
  fst (get_inventory_stats (shop [soap 5; tea 20; rice 7] [])) =
  Return {| Stats.total_items := 3; Stats.total_quantity := 32 |}
  /\ fst (get_inventory_stats (shop [] [])) =
     Return {| Stats.total_items := 0; Stats.total_quantity := 0 |}.
Proof.
  split.
  - apply (inventory_stats_count_and_sum (shop [soap 5; tea 20; rice 7] []));
      try discriminate; try reflexivity.
    intros d [<- | [<- | [<- | []]]]; simpl; lia.
  - apply (inventory_stats_count_and_sum (shop [] []));
      try discriminate; try reflexivity.
    intros d [].
Defined.

(** The run of GET /inventory. *)
Lemma get_inventory_run (w : world) :
  get_inventory w =
  match answer_to 0 w with
  | Broken =>
      (Raise handle_internal_server_error, called (Call inventory find) w)
  | _ =>
      (Return
         (map (fun item =>
                 {| doc_id := IdStr (str_id (doc_id item));
                    Products := Products item;
                    Quantity := Quantity item |})
            (firstn 100 (inventory_collection w))),
       called (Call inventory find) w)
  end.
Proof.
  unfold get_inventory, try_except. rewrite run_inventory_find.
  assert (F : filter (fun _ : InventoryDoc => true) (inventory_collection w)
              = inventory_collection w).
  { induction (inventory_collection w) as [ | d l IH];
      [reflexivity | simpl; rewrite IH; reflexivity]. }
  rewrite F. destruct (answer_to 0 w); reflexivity.
Qed.

(** X2. GET /inventory, when its storage call is answered, returns the
    first 100 inventory documents (all of them when there are fewer), in
    the order of the collection, with the products and quantities they
    hold and every [_id] turned into its string; it changes neither
    collection. *)
Theorem get_inventory_first_hundred (w : world) :
  answer_to 0 w <> Broken ->
  exists listed,
    fst (get_inventory w) = Return listed
    /\ List.length listed =
       Nat.min 100 (List.length (inventory_collection w))
    /\ map Products listed = firstn 100 (map Products (inventory_collection w))
    /\ map Quantity listed = firstn 100 (map Quantity (inventory_collection w))
    /\ map doc_id listed =
       firstn 100
         (map (fun d => IdStr (str_id (doc_id d))) (inventory_collection w))
    /\ same_store w (snd (get_inventory w)).
Proof.
  intros A. rewrite get_inventory_run.
  destruct (answer_to 0 w); try (destruct A; reflexivity);
    (eexists; split; [reflexivity | ]);
    (split; [ rewrite length_map, length_firstn; reflexivity | ]);
    (split; [ rewrite map_map, firstn_map; reflexivity | ]);
    (split; [ rewrite map_map, firstn_map; reflexivity | ]);
    (split; [ rewrite map_map, firstn_map; reflexivity | ]);
    split; reflexivity.
Qed.

Lemma get_inventory_first_hundred_witness :
  exists listed,
    fst (get_inventory (shop [soap 5; tea 20] [])) = Return listed
    /\ map Products listed = ["Soap"; "Tea"]
    /\ map doc_id listed =
       [IdStr "000000000000000000000001"; IdStr "000000000000000000000002"].
Proof.
  assert (A : answer_to 0 (shop [soap 5; tea 20] []) <> Broken)
    by discriminate.
  destruct (get_inventory_first_hundred (shop [soap 5; tea 20] []) A)
    as (listed & R & _ & P & _ & I & _).
  exists listed. split; [exact R | split; [exact P | exact I]].
Defined.

(** The run of POST /inventory. *)
Lemma add_inventory_run (item : InventoryCreate.t) (w : world) :
  add_inventory item w =
  if int64 (InventoryCreate.Quantity item) then
    match answer_to 0 w with
    | Acked =>
        (Return {| Inventory.Products := InventoryCreate.Products item;
                   Inventory.Quantity := InventoryCreate.Quantity item |},
         put_inventory
           (inventory_collection w
            ++ [{| doc_id := IdObject (next_ObjectId w);
                   Products := InventoryCreate.Products item;
                   Quantity := InventoryCreate.Quantity item |}])%list
           (generated (called (Call inventory insert_one) w)))
    | _ =>
        (Raise handle_internal_server_error,
         called (Call inventory insert_one) w)
    end
  else (Raise handle_internal_server_error, w).
Proof.
  unfold add_inventory, try_except. rewrite run_inventory_insert_one.
  destruct (int64 (InventoryCreate.Quantity item)); [ | reflexivity].
  destruct (answer_to 0 w); reflexivity.
Qed.

(** X3. POST /inventory either returns the product and the quantity of the
    item, and no [_id], having appended exactly one document with the
    item's product and quantity and the [_id] the driver generated after
    the documents that were there, or it answers 500 and leaves the
    inventory as it was; it succeeds exactly when the quantity is a 64-bit
    integer and the insert is acknowledged.  It never touches the sales,
    and it never looks for a document of the same product. *)
Theorem add_inventory_appends_or_fails (item : InventoryCreate.t)
    (w : world) :
  sales_collection (snd (add_inventory item w)) = sales_collection w
  /\ ((int64 (InventoryCreate.Quantity item) = true
       /\ answer_to 0 w = Acked
       /\ fst (add_inventory item w) =
          Return {| Inventory.Products := InventoryCreate.Products item;
                    Inventory.Quantity := InventoryCreate.Quantity item |}
       /\ inventory_collection (snd (add_inventory item w)) =
          (inventory_collection w
           ++ [{| doc_id := IdObject (next_ObjectId w);
                  Products := InventoryCreate.Products item;
                  Quantity := InventoryCreate.Quantity item |}])%list)
      \/ ((int64 (InventoryCreate.Quantity item) = false
           \/ answer_to 0 w <> Acked)
          /\ fst (add_inventory item w) =
             Raise (HTTPException 500 "Internal Server Error")
          /\ inventory_collection (snd (add_inventory item w)) =
             inventory_collection w)).
Proof.
  rewrite add_inventory_run.
  destruct (int64 (InventoryCreate.Quantity item)).
  - destruct (answer_to 0 w); simpl; (split; [reflexivity | ]).
    + left. split; [reflexivity | ]. split; [reflexivity | ].
      split; reflexivity.
    + right. split; [right; discriminate | split; reflexivity].
    + right. split; [right; discriminate | split; reflexivity].
  - simpl. split; [reflexivity | ].
    right. split; [left; reflexivity | split; reflexivity].
Qed.

Lemma find_app_one {A} (f : A -> bool) (l : list A) (x : A) :
  List.find f (l ++ [x]) =
  match List.find f l with
  | Some y => Some y
  | None => if f x then Some x else None
  end.
Proof.
  induction l as [ | y l IH]; simpl.
  - reflexivity.
  - destruct (f y); [reflexivity | exact IH].
Qed.

(** X4. After a successful POST /inventory the stock the sale workflow
    sees for a product is the one it saw before when the product had a
    document already: the new document comes after it and is never looked
    at.  Only a product that had none gets the new quantity. *)
Theorem add_inventory_keeps_first_document (item : InventoryCreate.t)
    (w : world) (added : Inventory.t) (product : string) :
  fst (add_inventory item w) = Return added ->
  stock_of product (snd (add_inventory item w)) =
  match stock_of product w with
  | Some q => Some q
  | None =>
      if String.eqb (InventoryCreate.Products item) product
      then Some (InventoryCreate.Quantity item)
      else None
  end.
Proof.
  rewrite add_inventory_run.
  destruct (int64 (InventoryCreate.Quantity item)); [ | discriminate].
  destruct (answer_to 0 w); try discriminate.
  intros _. unfold stock_of, stocked. simpl. rewrite find_app_one.
  destruct (List.find _ (inventory_collection w)); [reflexivity | ].
  simpl. destruct (String.eqb (InventoryCreate.Products item) product);
    reflexivity.
Qed.

Lemma add_inventory_keeps_first_document_witness :
  stock_of "Soap"
    (snd (add_inventory
            {| InventoryCreate.Products := "Soap";
               InventoryCreate.Quantity := 40 |}
            (shop [soap 5] []))) = Some 5
  /\ stock_of "Tea"
       (snd (add_inventory
               {| InventoryCreate.Products := "Tea";
                  InventoryCreate.Quantity := 40 |}
               (shop [soap 5] []))) = Some 40.
Proof.
  split.
  - apply (add_inventory_keeps_first_document
             {| InventoryCreate.Products := "Soap";
                InventoryCreate.Quantity := 40 |}
             (shop [soap 5] [])
             {| Inventory.Products := "Soap"; Inventory.Quantity := 40 |}).
    reflexivity.
  - apply (add_inventory_keeps_first_document
             {| InventoryCreate.Products := "Tea";
                InventoryCreate.Quantity := 40 |}
             (shop [soap 5] [])
             {| Inventory.Products := "Tea"; Inventory.Quantity := 40 |}).
    reflexivity.
Defined.

(** The run of PUT /inventory/{item_id}. *)
Lemma update_inventory_run (item_id : string)
    (updated_item : InventoryUpdate.t) (w : world) :
  update_inventory item_id updated_item w =
  match ObjectId_of_str item_id with
  | Raise _ => (Raise handle_internal_server_error, w)
  | Return object_id =>
      let sp := InventoryUpdate.Products updated_item in
      let sq := InventoryUpdate.Quantity updated_item in
      if match sq with Some q => int64 q | None => true end then
        match answer_to 0 w with
        | Broken =>
            (Raise handle_internal_server_error,
             called (Call inventory update_one) w)
        | _ =>
            match List.find (has_id (IdObject object_id))
                    (inventory_collection w) with
            | None =>
                (Raise handle_internal_server_error,
                 called (Call inventory update_one) w)
            | Some d =>
                (if same_fields (apply_set sp sq d) d
                 then Raise handle_internal_server_error
                 else Return "Item updated successfully",
                 put_inventory
                   (update_first (has_id (IdObject object_id))
                      (apply_set sp sq) (inventory_collection w))
                   (called (Call inventory update_one) w))
            end
        end
      else (Raise handle_internal_server_error, w)
  end.
Proof.
  unfold update_inventory, try_except. rewrite run_lift.
  destruct (ObjectId_of_str item_id) as [object_id | e]; [ | reflexivity].
  rewrite run_inventory_update. cbv zeta.
  fold (has_id (IdObject object_id)).
  destruct (match InventoryUpdate.Quantity updated_item with
            | Some q => int64 q
            | None => true
            end); [ | reflexivity].
  destruct (answer_to 0 w); try reflexivity;
    (destruct (List.find (has_id (IdObject object_id))
                 (inventory_collection w)) as [d | ]; [ | reflexivity]);
    simpl modified_count;
    destruct (same_fields _ d); reflexivity.
Qed.

(** The run of DELETE /inventory/{item_id}. *)
Lemma delete_inventory_run (item_id : string) (w : world) :
  delete_inventory item_id w =
  match ObjectId_of_str item_id with
  | Raise _ => (Raise handle_internal_server_error, w)
  | Return object_id =>
      match answer_to 0 w with
      | Broken =>
          (Raise handle_internal_server_error,
           called (Call inventory delete_one) w)
      | _ =>
          match List.find (has_id (IdObject object_id))
                  (inventory_collection w) with
          | None =>
              (Raise handle_internal_server_error,
               called (Call inventory delete_one) w)
          | Some _ =>
              (Return "Item deleted successfully",
               put_inventory
                 (remove_first (has_id (IdObject object_id))
                    (inventory_collection w))
                 (called (Call inventory delete_one) w))
          end
      end
  end.
Proof.
  unfold delete_inventory, try_except. rewrite run_lift.
  destruct (ObjectId_of_str item_id) as [object_id | e]; [ | reflexivity].
  rewrite run_inventory_delete_one.
  fold (has_id (IdObject object_id)).
  destruct (answer_to 0 w); try reflexivity;
    destruct (List.find (has_id (IdObject object_id))
                (inventory_collection w)); reflexivity.
Qed.

(** [bytes.fromhex] rejects a string that holds a character which is
    neither a hexadecimal digit nor ASCII whitespace, wherever it stands. *)
Lemma fromhex_rejects (c : ascii) (s : string) :
  In c (list_ascii_of_string s) ->
  hex_digit c = None ->
  isspace c = false ->
  fromhex s = None.
Proof.
  intros I H W.
  assert (G : forall n s, (String.length s <= n)%nat ->
                          In c (list_ascii_of_string s) -> fromhex s = None).
  { clear s I. induction n as [ | n IH]; intros s L I.
    - destruct s; [destruct I | simpl in L; lia].
    - destruct s as [ | a s]; [destruct I | ].
      simpl in L. simpl in I. simpl fromhex.
      destruct (isspace a) eqn:Wa.
      + destruct I as [-> | I]; [congruence | ].
        apply IH; [lia | exact I].
      + destruct (hex_digit a) as [top | ] eqn:Ha; [ | reflexivity].
        destruct I as [-> | I]; [congruence | ].
        destruct s as [ | a' s]; [reflexivity | ].
        destruct (hex_digit a') as [bot | ] eqn:Ha'; [ | reflexivity].
        simpl in L. simpl in I.
        destruct I as [-> | I]; [congruence | ].
        rewrite (IH s); [reflexivity | lia | exact I]. }
  exact (G (String.length s) s (le_n _) I).
Qed.

(** X5. PUT and DELETE /inventory/{item_id} answer 500 before any storage
    call, leaving the world, journal included, exactly as it was, when
    [item_id] is not 24 characters long or [bytes.fromhex] rejects it, as
    it does every string with a character that is neither a hexadecimal
    digit nor ASCII whitespace.  Any other [item_id], one of 24
    hexadecimal digits as well as one of 24 characters with whitespace
    between its pairs of digits, is taken for an ObjectId: DELETE makes
    its storage call, and so does PUT when the quantity it sets is a
    64-bit integer. *)
Theorem malformed_item_id_is_answered_500 (item_id : string)
    (updated_item : InventoryUpdate.t) (w : world) :
  (String.length item_id <> 24%nat \/ fromhex item_id = None ->
   update_inventory item_id updated_item w =
   (Raise (HTTPException 500 "Internal Server Error"), w)
   /\ delete_inventory item_id w =
      (Raise (HTTPException 500 "Internal Server Error"), w))
  /\ (forall c,
        In c (list_ascii_of_string item_id) ->
        hex_digit c = None -> isspace c = false ->
        fromhex item_id = None)
  /\ (String.length item_id = 24%nat ->
      fromhex item_id <> None ->
      journal (snd (delete_inventory item_id w)) =
      (journal w ++ [Storage (Call inventory delete_one)])%list
      /\ (match InventoryUpdate.Quantity updated_item with
          | Some q => int64 q = true
          | None => True
          end ->
          journal (snd (update_inventory item_id updated_item w)) =
          (journal w ++ [Storage (Call inventory update_one)])%list)).
Proof.
  split; [ | split].
  - intros Bad.
    assert (E : ObjectId_of_str item_id = Raise InvalidId).
    { unfold ObjectId_of_str.
      destruct (Nat.eqb_spec (String.length item_id) 24) as [L | L].
      - destruct Bad as [N | ->]; [destruct (N L) | reflexivity].
      - reflexivity. }
    rewrite update_inventory_run, delete_inventory_run, E.
    split; reflexivity.
  - intros c. apply fromhex_rejects.
  - intros L H.
    assert (E : exists object_id, ObjectId_of_str item_id = Return object_id).
    { unfold ObjectId_of_str. rewrite L. simpl.
      destruct (fromhex item_id) as [b | ]; [ | destruct H; reflexivity].
      exists b. reflexivity. }
    destruct E as [object_id E].
    rewrite update_inventory_run, delete_inventory_run, E. cbv zeta. split.
    + destruct (answer_to 0 w); try reflexivity;
        destruct (List.find (has_id (IdObject object_id))
                    (inventory_collection w)); reflexivity.
    + intros Q.
      assert (Q' : match InventoryUpdate.Quantity updated_item with
                   | Some q => int64 q
                   | None => true
                   end = true).
      { destruct (InventoryUpdate.Quantity updated_item);
          [exact Q | reflexivity]. }
      rewrite Q'.
      destruct (answer_to 0 w); try reflexivity;
        destruct (List.find (has_id (IdObject object_id))
                    (inventory_collection w)); reflexivity.
Qed.

Lemma malformed_item_id_is_answered_500_witness :
  update_inventory "17"
    {| InventoryUpdate.Products := None; InventoryUpdate.Quantity := Some 3 |}
    (shop [soap 5] []) =
  (Raise (HTTPException 500 "Internal Server Error"), shop [soap 5] [])
  /\ delete_inventory "65f1a2b3c4d5e6f70819zzzz" (shop [soap 5] []) =
     (Raise (HTTPException 500 "Internal Server Error"), shop [soap 5] [])
  /\ delete_inventory "0 a1b2c3d4e5f60718293a4b" (shop [soap 5] []) =
     (Raise (HTTPException 500 "Internal Server Error"), shop [soap 5] [])
  /\ journal (snd (delete_inventory "0a 1b 2c 3d 4e 5f 60 71 "
                     (shop [soap 5] []))) =
     [Storage (Call inventory delete_one)].
Proof.
  assert (Short : String.length "17" <> 24%nat) by discriminate.
  assert (NoHex : fromhex "65f1a2b3c4d5e6f70819zzzz" = None)
    by reflexivity.
  assert (Split : fromhex "0 a1b2c3d4e5f60718293a4b" = None)
    by reflexivity.
  assert (Spaced : fromhex "0a 1b 2c 3d 4e 5f 60 71 " <> None)
    by discriminate.
  split; [ | split; [ | split]].
  - exact (proj1 (proj1 (malformed_item_id_is_answered_500 "17" _ _)
                    (or_introl Short))).
  - exact (proj2 (proj1 (malformed_item_id_is_answered_500
                           "65f1a2b3c4d5e6f70819zzzz"
                           {| InventoryUpdate.Products := None;
                              InventoryUpdate.Quantity := None |} _)
                    (or_intror NoHex))).
  - exact (proj2 (proj1 (malformed_item_id_is_answered_500
                           "0 a1b2c3d4e5f60718293a4b"
                           {| InventoryUpdate.Products := None;
                              InventoryUpdate.Quantity := None |} _)
                    (or_intror Split))).
  - exact (proj1 (proj2 (proj2 (malformed_item_id_is_answered_500
                                  "0a 1b 2c 3d 4e 5f 60 71 "
                                  {| InventoryUpdate.Products := None;
                                     InventoryUpdate.Quantity := None |}
                                  (shop [soap 5] [])))
                    eq_refl Spaced)).
Defined.

Lemma ObjectId_eqb_eq (a b : ObjectId) : ObjectId_eqb a b = true <-> a = b.
Proof.
  revert b. induction a as [ | x a IH]; intros [ | y b]; simpl;
    try (split; [reflexivity | reflexivity]);
    try (split; discriminate).
  rewrite andb_true_iff, IH. split.
  - intros [E ->]. apply Byte.byte_dec_bl in E. rewrite E. reflexivity.
  - intros [= -> ->]. split; [apply Byte.byte_dec_lb | ]; reflexivity.
Qed.

Lemma id_eqb_eq (a b : id) : id_eqb a b = true <-> a = b.
Proof.
  destruct a as [x | x], b as [y | y]; simpl.
  - rewrite ObjectId_eqb_eq.
    split; [intros -> | intros [= ->]]; reflexivity.
  - split; discriminate.
  - split; discriminate.
  - rewrite String.eqb_eq. split; [intros -> | intros [= ->]]; reflexivity.
Qed.

(** The document an update of the first match leaves under the id. *)
Lemma find_update_first (i : id) (f : InventoryDoc -> InventoryDoc)
    (l : list InventoryDoc) (d : InventoryDoc) :
  (forall x, doc_id (f x) = doc_id x) ->
  List.find (has_id i) l = Some d ->
  List.find (has_id i) (update_first (has_id i) f l) = Some (f d).
Proof.
  intros K. induction l as [ | x l IH]; simpl.
  - discriminate.
  - destruct (has_id i x) eqn:E; simpl.
    + intros [= ->]. unfold has_id in *. rewrite K, E. reflexivity.
    + rewrite E. exact IH.
Qed.

Lemma length_update_first (query : InventoryDoc -> bool)
    (f : InventoryDoc -> InventoryDoc) (l : list InventoryDoc) :
  List.length (update_first query f l) = List.length l.
Proof.
  induction l as [ | x l IH]; simpl; [reflexivity | ].
  destruct (query x); simpl; [reflexivity | rewrite IH; reflexivity].
Qed.

(** An update that changes no field of the first match changes nothing. *)
Lemma update_first_same (query : InventoryDoc -> bool)
    (sp : option string) (sq : option Z) (l : list InventoryDoc)
    (d : InventoryDoc) :
  List.find query l = Some d ->
  same_fields (apply_set sp sq d) d = true ->
  update_first query (apply_set sp sq) l = l.
Proof.
  intros F S. induction l as [ | x l IH]; simpl in *.
  - reflexivity.
  - destruct (query x).
    + injection F as ->. f_equal.
      unfold same_fields in S. apply andb_true_iff in S.
      destruct S as [P Q]. apply String.eqb_eq in P. apply Z.eqb_eq in Q.
      destruct d as [i p q]. unfold apply_set in *. simpl in *.
      rewrite P, Q. reflexivity.
    + f_equal. exact (IH F).
Qed.

(** X6. PUT /inventory/{item_id} for the id of an inventory document, with
    quantities that are 64-bit integers and a storage call that is
    answered, replaces in the first document of that id the fields the
    request sets and only those, keeps its [_id], the other documents and
    the sales, and returns "Item updated successfully" -- provided the
    request changes a field.  No bound is checked: the quantity may become
    negative. *)
Theorem update_inventory_sets_the_fields (item_id : string)
    (updated_item : InventoryUpdate.t) (w : world) (oid : ObjectId)
    (d : InventoryDoc) :
  ObjectId_of_str item_id = Return oid ->
  List.find (has_id (IdObject oid)) (inventory_collection w) = Some d ->
  match InventoryUpdate.Quantity updated_item with
  | Some q => int64 q = true
  | None => True
  end ->
  answer_to 0 w <> Broken ->
  same_fields
    (apply_set (InventoryUpdate.Products updated_item)
       (InventoryUpdate.Quantity updated_item) d) d = false ->
  let w' := snd (update_inventory item_id updated_item w) in
  fst (update_inventory item_id updated_item w) =
  Return "Item updated successfully"
  /\ List.find (has_id (IdObject oid)) (inventory_collection w') =
     Some {| doc_id := doc_id d;
             Products :=
               match InventoryUpdate.Products updated_item with
               | Some p => p
               | None => Products d
               end;
             Quantity :=
               match InventoryUpdate.Quantity updated_item with
               | Some q => q
               | None => Quantity d
               end |}
  /\ List.length (inventory_collection w') =
     List.length (inventory_collection w)
  /\ sales_collection w' = sales_collection w.
Proof.
  intros E F Q A Ch w'. subst w'. rewrite update_inventory_run, E. cbv zeta.
  rewrite F, Ch.
  assert (Q' : match InventoryUpdate.Quantity updated_item with
               | Some q => int64 q
               | None => true
               end = true).
  { destruct (InventoryUpdate.Quantity updated_item); [exact Q | reflexivity]. }
  rewrite Q'.
  destruct (answer_to 0 w); try (destruct A; reflexivity); simpl;
    (split; [reflexivity | ]);
    (split;
     [ exact (find_update_first (IdObject oid)
                (apply_set (InventoryUpdate.Products updated_item)
                   (InventoryUpdate.Quantity updated_item))
                (inventory_collection w) d (fun x => eq_refl) F) | ]);
    (split; [ apply length_update_first | reflexivity ]).
Qed.

Lemma update_inventory_sets_the_fields_witness :
  fst (update_inventory "000000000000000000000001"
         {| InventoryUpdate.Products := None;
            InventoryUpdate.Quantity := Some (-3) |}
         (shop [soap 5; tea 20] [])) =
  Return "Item updated successfully"
  /\ stock_of "Soap"
       (snd (update_inventory "000000000000000000000001"
               {| InventoryUpdate.Products := None;
                  InventoryUpdate.Quantity := Some (-3) |}
               (shop [soap 5; tea 20] []))) = Some (-3).
Proof.
  assert (A : answer_to 0 (shop [soap 5; tea 20] []) <> Broken)
    by discriminate.
  destruct (update_inventory_sets_the_fields "000000000000000000000001"
              {| InventoryUpdate.Products := None;
                 InventoryUpdate.Quantity := Some (-3) |}
              (shop [soap 5; tea 20] []) (oid x01) (soap 5)
              eq_refl eq_refl eq_refl A eq_refl) as (R & _).
  split; [exact R | reflexivity].
Defined.

(** X7. PUT /inventory/{item_id} that sets no field, or sets the fields to
    the values the document holds, is answered 500 although the document
    exists, and the inventory is left as it was: the handler takes a
    [modified_count] of 0 for a missing item. *)
Theorem update_inventory_without_change_is_500 (item_id : string)
    (updated_item : InventoryUpdate.t) (w : world) (oid : ObjectId)
    (d : InventoryDoc) :
  ObjectId_of_str item_id = Return oid ->
  List.find (has_id (IdObject oid)) (inventory_collection w) = Some d ->
  (InventoryUpdate.Products updated_item = None
   \/ InventoryUpdate.Products updated_item = Some (Products d)) ->
  (InventoryUpdate.Quantity updated_item = None
   \/ InventoryUpdate.Quantity updated_item = Some (Quantity d)) ->
  int64 (Quantity d) = true ->
  fst (update_inventory item_id updated_item w) =
  Raise (HTTPException 500 "Internal Server Error")
  /\ same_store w (snd (update_inventory item_id updated_item w)).
Proof.
  intros E F P Q I. rewrite update_inventory_run, E. cbv zeta. rewrite F.
  assert (S : same_fields
                (apply_set (InventoryUpdate.Products updated_item)
                   (InventoryUpdate.Quantity updated_item) d) d = true).
  { unfold same_fields, apply_set. simpl.
    destruct P as [-> | ->], Q as [-> | ->];
      rewrite String.eqb_refl, Z.eqb_refl; reflexivity. }
  rewrite S, (update_first_same _ _ _ _ d F S).
  assert (Q' : match InventoryUpdate.Quantity updated_item with
               | Some q => int64 q
               | None => true
               end = true).
  { destruct Q as [-> | ->]; [reflexivity | exact I]. }
  rewrite Q'.
  destruct (answer_to 0 w); simpl; (split; [reflexivity | split; reflexivity]).
Qed.

Lemma update_inventory_without_change_is_500_witness :
  fst (update_inventory "000000000000000000000001"
         {| InventoryUpdate.Products := Some "Soap";
            InventoryUpdate.Quantity := Some 5 |}
         (shop [soap 5; tea 20] [])) =
  Raise (HTTPException 500 "Internal Server Error")
  /\ fst (update_inventory "000000000000000000000001"
            {| InventoryUpdate.Products := None;
               InventoryUpdate.Quantity := None |}
            (shop [soap 5; tea 20] [])) =
     Raise (HTTPException 500 "Internal Server Error").
Proof.
  split.
  - exact (proj1 (update_inventory_without_change_is_500
                    "000000000000000000000001"
                    {| InventoryUpdate.Products := Some "Soap";
                       InventoryUpdate.Quantity := Some 5 |}
                    (shop [soap 5; tea 20] []) (oid x01) (soap 5)
                    eq_refl eq_refl (or_intror eq_refl) (or_intror eq_refl)
                    eq_refl)).
  - exact (proj1 (update_inventory_without_change_is_500
                    "000000000000000000000001"
                    {| InventoryUpdate.Products := None;
                       InventoryUpdate.Quantity := None |}
                    (shop [soap 5; tea 20] []) (oid x01) (soap 5)
                    eq_refl eq_refl (or_introl eq_refl) (or_introl eq_refl)
                    eq_refl)).
Defined.

Lemma length_remove_first (query : InventoryDoc -> bool)
    (l : list InventoryDoc) (d : InventoryDoc) :
  List.find query l = Some d ->
  S (List.length (remove_first query l)) = List.length l.
Proof.
  induction l as [ | x l IH]; simpl.
  - discriminate.
  - destruct (query x); [reflexivity | ].
    intros F. simpl. rewrite (IH F). reflexivity.
Qed.

(** With ids that are all different, the document deleted was the only
    one of its id. *)
Lemma find_remove_first (i : id) (l : list InventoryDoc) :
  NoDup (map doc_id l) ->
  List.find (has_id i) (remove_first (has_id i) l) = None.
Proof.
  induction l as [ | x l IH]; simpl; intros N.
  - reflexivity.
  - inversion N as [ | ? ? Fresh N']; subst.
    destruct (has_id i x) eqn:E.
    + apply id_eqb_eq in E.
      destruct (List.find (has_id i) l) as [y | ] eqn:F; [ | reflexivity].
      apply find_some in F. destruct F as [I Y].
      apply id_eqb_eq in Y. destruct Fresh.
      rewrite E, <- Y. apply in_map. exact I.
    + simpl. rewrite E. exact (IH N').
Qed.

(** X8. DELETE /inventory/{item_id} for the id of an inventory document,
    its storage call answered, removes that one document, keeps the others
    and the sales, and returns "Item deleted successfully"; as ids are
    unique, the same request sent again is answered 500 and changes
    nothing. *)
Theorem delete_inventory_removes_once (item_id : string) (w : world)
    (oid : ObjectId) (d : InventoryDoc) :
  ObjectId_of_str item_id = Return oid ->
  List.find (has_id (IdObject oid)) (inventory_collection w) = Some d ->
  NoDup (map doc_id (inventory_collection w)) ->
  answer_to 0 w <> Broken ->
  let w' := after (delete_inventory item_id) w in
  fst (delete_inventory item_id w) = Return "Item deleted successfully"
  /\ inventory_collection w' =
     remove_first (has_id (IdObject oid)) (inventory_collection w)
  /\ S (List.length (inventory_collection w')) =
     List.length (inventory_collection w)
  /\ (forall x, In x (inventory_collection w') ->
                In x (inventory_collection w))
  /\ sales_collection w' = sales_collection w
  /\ fst (delete_inventory item_id w') =
     Raise (HTTPException 500 "Internal Server Error")
  /\ same_store w' (after (delete_inventory item_id) w').
Proof.
  intros E F N A w'. subst w'. unfold after.
  rewrite (delete_inventory_run item_id w), E, F.
  destruct (answer_to 0 w) eqn:A0; try (destruct A; reflexivity);
    simpl fst; simpl snd;
    (split; [reflexivity | ]); (split; [reflexivity | ]);
    (split; [exact (length_remove_first _ _ _ F) | ]);
    (split; [apply Storable.remove_first_incl | ]);
    (split; [reflexivity | ]);
    rewrite delete_inventory_run, E; simpl inventory_collection;
    rewrite (find_remove_first _ _ N);
    match goal with
    | |- context [answer_to 0 ?v] => destruct (answer_to 0 v)
    end;
    (split; [reflexivity | split; reflexivity]).
Qed.

Lemma delete_inventory_removes_once_witness :
  fst (delete_inventory "000000000000000000000002"
         (shop [soap 5; tea 20; rice 7] [])) =
  Return "Item deleted successfully"
  /\ inventory_collection
       (after (delete_inventory "000000000000000000000002")
          (shop [soap 5; tea 20; rice 7] [])) = [soap 5; rice 7].
Proof.
  assert (N : NoDup (map doc_id
                       (inventory_collection
                          (shop [soap 5; tea 20; rice 7] [])))).
  { simpl. repeat constructor; simpl; intuition discriminate. }
  assert (A : answer_to 0 (shop [soap 5; tea 20; rice 7] []) <> Broken)
    by discriminate.
  destruct (delete_inventory_removes_once "000000000000000000000002"
              (shop [soap 5; tea 20; rice 7] []) (oid x02) (tea 20)
              eq_refl eq_refl N A) as (R & I & _).
  split; [exact R | exact I].
Defined.

(** The run of GET /inventory/{item_id}. *)
Lemma get_item_run (item_id : string) (w : world) :
  get_item item_id w =
  (match answer_to 0 w with
   | Broken => Raise handle_internal_server_error
   | _ =>
       match List.find (has_id (IdStr item_id)) (inventory_collection w) with
       | Some item => Return item
       | None => Raise handle_internal_server_error
       end
   end, called (Call inventory find_one) w).
Proof.
  unfold get_item, try_except. rewrite run_inventory_find_one.
  fold (has_id (IdStr item_id)).
  destruct (answer_to 0 w); try reflexivity;
    simpl inventory_collection;
    destruct (List.find (has_id (IdStr item_id)) (inventory_collection w));
    reflexivity.
Qed.

(** X9. GET /inventory/{item_id} looks for a document whose [_id] is the
    string [item_id].  In an inventory whose documents have the ObjectIds
    the driver generates, as every document POST /inventory stores has, no
    id is found: every request is answered 500; POST /inventory keeps the
    inventory such; and so the id of a document POST /inventory has just
    stored, and every [_id] that GET /inventory lists, is answered 500
    too. *)
Theorem get_item_misses_generated_ids (w : world) :
  object_ids w ->
  (forall item_id,
     fst (get_item item_id w) =
     Raise (HTTPException 500 "Internal Server Error"))
  /\ (forall item, object_ids (after (add_inventory item) w))
  /\ (forall item d,
        In d (inventory_collection (after (add_inventory item) w)) ->
        fst (get_item (str_id (doc_id d)) (after (add_inventory item) w)) =
        Raise (HTTPException 500 "Internal Server Error"))
  /\ (forall listed d,
        fst (get_inventory w) = Return listed ->
        In d listed ->
        fst (get_item (str_id (doc_id d)) (after get_inventory w)) =
        Raise (HTTPException 500 "Internal Server Error")).
Proof.
  intros O.
  assert (Miss : forall v, object_ids v -> forall item_id,
    fst (get_item item_id v) =
    Raise (HTTPException 500 "Internal Server Error")).
  { intros v Ov item_id. rewrite get_item_run. simpl fst.
    destruct (List.find (has_id (IdStr item_id)) (inventory_collection v))
      as [x | ] eqn:F.
    - apply find_some in F. destruct F as [I H].
      destruct (Ov x I) as [oid K]. unfold has_id in H. rewrite K in H.
      discriminate H.
    - destruct (answer_to 0 v); reflexivity. }
  assert (Keep : forall item, object_ids (after (add_inventory item) w)).
  { intros item. unfold after. rewrite add_inventory_run.
    destruct (int64 (InventoryCreate.Quantity item)); [ | exact O].
    destruct (answer_to 0 w); try exact O.
    intros x I. simpl in I. apply in_app_or in I.
    destruct I as [I | [<- | []]]; [exact (O x I) | ].
    eexists. reflexivity. }
  split; [exact (Miss w O) | ]. split; [exact Keep | ]. split.
  - intros item d _. apply Miss. apply Keep.
  - intros listed d _ _. apply Miss.
    unfold after. rewrite get_inventory_run.
    destruct (answer_to 0 w); exact O.
Qed.

Lemma get_item_misses_generated_ids_witness :
  fst (get_item "000000000000000000000001" (shop [soap 5; tea 20] [])) =
  Raise (HTTPException 500 "Internal Server Error")
  /\ inventory_collection
       (after (add_inventory
                 {| InventoryCreate.Products := "Salt";
                    InventoryCreate.Quantity := 12 |})
          (shop [soap 5; tea 20] [])) =
     [soap 5; tea 20;
      {| doc_id := IdObject (oid x64); Products := "Salt"; Quantity := 12 |}]
  /\ fst (get_item "000000000000000000000064"
            (after (add_inventory
                      {| InventoryCreate.Products := "Salt";
                         InventoryCreate.Quantity := 12 |})
               (shop [soap 5; tea 20] []))) =
     Raise (HTTPException 500 "Internal Server Error").
Proof.
  assert (O : object_ids (shop [soap 5; tea 20] [])).
  { intros d [<- | [<- | []]]; eexists; reflexivity. }
  destruct (get_item_misses_generated_ids _ O) as (Miss & _ & New & _).
  split; [exact (Miss "000000000000000000000001") | ].
  split; [reflexivity | ].
  exact (New {| InventoryCreate.Products := "Salt";
                InventoryCreate.Quantity := 12 |}
           {| doc_id := IdObject (oid x64); Products := "Salt";
              Quantity := 12 |}
           (or_intror (or_intror (or_introl eq_refl)))).
Defined.

(** ** The id of the document POST /inventory stores *)

Lemma length_hexlify (b : list byte) :
  String.length (hexlify b) = (2 * List.length b)%nat.
Proof.
  induction b as [ | x b IH]; simpl; [reflexivity | rewrite IH; lia].
Qed.

(** Reading back the two digits of a byte. *)
Lemma fromhex_hex_chars (x : byte) (s : string) :
  fromhex
    (String (hex_char (Byte.to_N x / 16))
       (String (hex_char (Byte.to_N x mod 16)) s)) =
  option_map (cons x) (fromhex s).
Proof. destruct x; reflexivity. Qed.

Lemma fromhex_hexlify (b : list byte) : fromhex (hexlify b) = Some b.
Proof.
  induction b as [ | x b IH]; [reflexivity | ].
  cbn [hexlify]. rewrite fromhex_hex_chars, IH. reflexivity.
Qed.

(** The ObjectIds the driver generates in turn have the same number of
    bytes. *)
Lemma length_ObjectId_succ (oid : ObjectId) :
  List.length (ObjectId_succ oid) = List.length oid.
Proof.
  unfold ObjectId_succ. induction oid as [ | x b IH]; [reflexivity | ].
  simpl. destruct (increment b) as [[ | ] r]; simpl in *;
    rewrite IH; reflexivity.
Qed.

(** [ObjectId(str(oid)) == oid] for an ObjectId of twelve bytes. *)
Lemma ObjectId_of_str_ObjectId (oid : ObjectId) :
  List.length oid = 12%nat ->
  ObjectId_of_str (str_ObjectId oid) = Return oid.
Proof.
  intros L. unfold ObjectId_of_str, str_ObjectId.
  rewrite length_hexlify, L, fromhex_hexlify. reflexivity.
Qed.

Lemma remove_first_appended (i : id) (l : list InventoryDoc)
    (x : InventoryDoc) :
  (forall d, In d l -> doc_id d <> i) ->
  doc_id x = i ->
  List.find (has_id i) (l ++ [x]) = Some x
  /\ remove_first (has_id i) (l ++ [x]) = l.
Proof.
  intros Fresh X. induction l as [ | y l IH]; simpl.
  - unfold has_id. rewrite X.
    assert (E : id_eqb i i = true) by (apply id_eqb_eq; reflexivity).
    rewrite E. split; reflexivity.
  - destruct (has_id i y) eqn:E.
    + apply id_eqb_eq in E. destruct (Fresh y (or_introl eq_refl) E).
    + destruct IH as [F R].
      * intros d I. apply Fresh. right. exact I.
      * split; [exact F | rewrite R; reflexivity].
Qed.

(** X10. POST /inventory returns no [_id], but the document it stored can
    be deleted by the id the collection holds for it: when the ObjectId the
    driver generated has twelve bytes and is the id of no older document,
    the inventory after a successful POST is the old one and one document
    [d] more, and DELETE /inventory/{item_id} with the string of [d]'s
    [_id], the one GET /inventory lists for it, its storage call answered,
    removes exactly [d] and leaves the inventory as it was before the
    POST. *)
Theorem delete_undoes_add_inventory (item : InventoryCreate.t) (w : world)
    (added : Inventory.t) :
  fst (add_inventory item w) = Return added ->
  List.length (next_ObjectId w) = 12%nat ->
  (forall d, In d (inventory_collection w) ->
             doc_id d <> IdObject (next_ObjectId w)) ->
  answer_to 1 w <> Broken ->
  let w' := after (add_inventory item) w in
  exists d,
    inventory_collection w' = (inventory_collection w ++ [d])%list
    /\ Products d = InventoryCreate.Products item
    /\ Quantity d = InventoryCreate.Quantity item
    /\ ObjectId_of_str (str_id (doc_id d)) = Return (next_ObjectId w)
    /\ fst (delete_inventory (str_id (doc_id d)) w') =
       Return "Item deleted successfully"
    /\ inventory_collection (after (delete_inventory (str_id (doc_id d))) w')
       = inventory_collection w.
Proof.
  intros R L Fresh A w'. subst w'. unfold after.
  rewrite add_inventory_run in *.
  destruct (int64 (InventoryCreate.Quantity item)); [ | discriminate R].
  destruct (answer_to 0 w) eqn:A0; try discriminate R.
  clear R. simpl snd.
  exists {| doc_id := IdObject (next_ObjectId w);
            Products := InventoryCreate.Products item;
            Quantity := InventoryCreate.Quantity item |}.
  split; [reflexivity | ]. split; [reflexivity | ]. split; [reflexivity | ].
  cbn [doc_id str_id].
  pose proof (ObjectId_of_str_ObjectId _ L) as P.
  split; [exact P | ].
  rewrite delete_inventory_run, P.
  destruct (remove_first_appended (IdObject (next_ObjectId w))
              (inventory_collection w)
              {| doc_id := IdObject (next_ObjectId w);
                 Products := InventoryCreate.Products item;
                 Quantity := InventoryCreate.Quantity item |}
              Fresh eq_refl) as [F Rm].
  simpl inventory_collection. rewrite F, Rm.
  change (answer_to 0
            (put_inventory
               (inventory_collection w
                ++ [{| doc_id := IdObject (next_ObjectId w);
                       Products := InventoryCreate.Products item;
                       Quantity := InventoryCreate.Quantity item |}])
               (generated (called (Call inventory insert_one) w))))
    with (answer_to 0 (called (Call inventory insert_one) w)).
  rewrite answer_to_called.
  destruct (answer_to 1 w); try (destruct A; reflexivity);
    split; reflexivity.
Qed.

Lemma delete_undoes_add_inventory_witness :
  exists d,
    inventory_collection
      (after (add_inventory
                {| InventoryCreate.Products := "Salt";
                   InventoryCreate.Quantity := 12 |})
         (shop [soap 5] [])) = [soap 5; d]
    /\ str_id (doc_id d) = "000000000000000000000064"
    /\ fst (delete_inventory "000000000000000000000064"
              (after (add_inventory
                        {| InventoryCreate.Products := "Salt";
                           InventoryCreate.Quantity := 12 |})
                 (shop [soap 5] []))) =
       Return "Item deleted successfully"
    /\ inventory_collection
         (after (delete_inventory "000000000000000000000064")
            (after (add_inventory
                      {| InventoryCreate.Products := "Salt";
                         InventoryCreate.Quantity := 12 |})
               (shop [soap 5] []))) = [soap 5].
Proof.
  assert (Fresh : forall d, In d (inventory_collection (shop [soap 5] [])) ->
                            doc_id d <> IdObject (next_ObjectId (shop [soap 5] []))).
  { intros d [<- | []]. discriminate. }
  assert (A : answer_to 1 (shop [soap 5] []) <> Broken) by discriminate.
  destruct (delete_undoes_add_inventory
              {| InventoryCreate.Products := "Salt";
                 InventoryCreate.Quantity := 12 |}
              (shop [soap 5] [])
              {| Inventory.Products := "Salt"; Inventory.Quantity := 12 |}
              eq_refl eq_refl Fresh A) as (d & I & _ & _ & S & D & U).
  exists d.
  assert (K : str_id (doc_id d) = "000000000000000000000064").
  { injection I as <-. reflexivity. }
  rewrite K in D, U.
  split; [exact I | ]. split; [exact K | ]. split; [exact D | exact U].
Defined.

(** ** What a request leaves alone *)

Module Preserving.

Section Observation.
Context {X : Type} (f : world -> X).

Lemma preserves_bind {A B} (m : M A) (k : A -> M B) :
  preserves f m -> (forall a, preserves f (k a)) -> preserves f (bind m k).
Proof.
  intros Hm Hk w. unfold bind. specialize (Hm w).
  destruct (m w) as [[a | e] w1]; simpl in *.
  - rewrite Hk. exact Hm.
  - exact Hm.
Qed.

Lemma preserves_try_except {A} (body : M A) (handler : exn) :
  preserves f body -> preserves f (try_except body handler).
Proof.
  intros Hb w. unfold try_except. specialize (Hb w).
  destruct (body w) as [[a | e] w1]; exact Hb.
Qed.

Lemma preserves_fmap {A B} (g : A -> B) (m : M A) :
  preserves f m -> preserves f (fmap g m).
Proof.
  intros Hm w. unfold fmap, bind. specialize (Hm w).
  destruct (m w) as [[a | e] w1]; exact Hm.
Qed.

Lemma preserves_ret {A} (a : A) : preserves f (ret a).
Proof. intros w. reflexivity. Qed.

Lemma preserves_raise {A} (e : exn) : preserves f (@raise A e).
Proof. intros w. reflexivity. Qed.

Lemma preserves_lift {A} (o : outcome A) : preserves f (lift o).
Proof. intros w. reflexivity. Qed.

Lemma preserves_get_world : preserves f get_world.
Proof. intros w. reflexivity. Qed.

Lemma preserves_encode_int (n : Z) : preserves f (encode_int n).
Proof. intros w. unfold encode_int. destruct (int64 n); reflexivity. Qed.

Lemma preserves_handle_quantity_warning (quantity : Z) (product : string) :
  preserves f (InventoryErrorHandler.handle_quantity_warning quantity product).
Proof.
  intros w. unfold InventoryErrorHandler.handle_quantity_warning.
  destruct (quantity <? 10); reflexivity.
Qed.

End Observation.

(** The collections are not what the clock, the driver's script and the
    journal are about. *)
Lemma inventory_storage_call (c : call) :
  preserves inventory_collection (storage_call c).
Proof.
  intros w. unfold storage_call. destruct (hd Acked (driver w)); reflexivity.
Qed.

Lemma sales_storage_call (c : call) :
  preserves sales_collection (storage_call c).
Proof.
  intros w. unfold storage_call. destruct (hd Acked (driver w)); reflexivity.
Qed.

Lemma inventory_datetime_now : preserves inventory_collection datetime_now.
Proof. intros w. reflexivity. Qed.

Lemma sales_datetime_now : preserves sales_collection datetime_now.
Proof. intros w. reflexivity. Qed.

Lemma inventory_fresh_ObjectId : preserves inventory_collection fresh_ObjectId.
Proof. intros w. reflexivity. Qed.

Lemma sales_fresh_ObjectId : preserves sales_collection fresh_ObjectId.
Proof. intros w. reflexivity. Qed.

Lemma inventory_set_sales (l : list SaleDoc) :
  preserves inventory_collection (set_sales l).
Proof. intros w. reflexivity. Qed.

Lemma sales_set_inventory (l : list InventoryDoc) :
  preserves sales_collection (set_inventory l).
Proof. intros w. reflexivity. Qed.

Create HintDb preserving.
#[export] Hint Resolve preserves_ret preserves_raise preserves_lift
  preserves_get_world preserves_encode_int preserves_handle_quantity_warning
  inventory_storage_call sales_storage_call inventory_datetime_now
  sales_datetime_now inventory_fresh_ObjectId sales_fresh_ObjectId
  inventory_set_sales sales_set_inventory : preserving.

Ltac preserve_step :=
  match goal with
  | |- preserves _ (bind _ _) => apply preserves_bind; [ | intros ? ]
  | |- preserves _ (try_except _ _) => apply preserves_try_except
  | |- preserves _ (fmap _ _) => apply preserves_fmap
  | |- preserves _ (match ?x with _ => _ end) => destruct x
  | |- preserves _ (if ?b then _ else _) => destruct b
  | |- preserves _ _ => solve [auto with preserving]
  end.

Ltac preserve := repeat preserve_step.

Lemma preserves_warn_each {X} (f : world -> X) (items : list InventoryDoc)
    (warning_messages : list Warning.t) :
  preserves f (warn_each items warning_messages).
Proof.
  revert warning_messages. induction items as [ | item rest IH];
    intros warning_messages; simpl.
  - apply preserves_ret.
  - apply preserves_bind; [auto with preserving | intros _; apply IH].
Qed.

#[export] Hint Resolve preserves_warn_each : preserving.

Ltac unfold_routes :=
  unfold get_inventory, check_low_quantity_warning, get_inventory_stats,
    get_item, add_inventory, update_inventory, delete_inventory, get_sales,
    analyze_sales, total_revenue_by_category, get_categories, total_sales,
    total_revenue, get_sales_for_product,
    inventory_find, inventory_find_one, inventory_count_documents,
    inventory_total_quantity, inventory_insert_one, inventory_update_one,
    inventory_delete_one, sales_find, sales_aggregate_one,
    sales_distinct_product_line, sales_revenue_by_product_line.

End Preserving.
Import Preserving.

(** X11. A GET request changes neither the inventory nor the sales,
    whatever the driver answers and whatever the outcome: the eleven GET
    handlers read only. *)
Theorem get_requests_change_nothing (r : request) (w : world) :
  reads_only r = true -> same_store w (snd (route r w)).
Proof.
  intros G. split.
  - revert w. change (preserves inventory_collection (route r)).
    destruct r; try discriminate G; simpl route; unfold_routes; preserve.
  - revert w. change (preserves sales_collection (route r)).
    destruct r; try discriminate G; simpl route; unfold_routes; preserve.
Qed.

Lemma get_requests_change_nothing_witness :
  same_store (shop [soap 5] [Acked; Broken])
    (snd (route GET_sales_analyze (shop [soap 5] [Acked; Broken])))
  /\ same_store (shop [soap 5] [])
       (snd (route GET_inventory_low_quantity_warning (shop [soap 5] []))).
Proof.
  split.
  - exact (get_requests_change_nothing GET_sales_analyze _ eq_refl).
  - exact (get_requests_change_nothing GET_inventory_low_quantity_warning _
             eq_refl).
Defined.

(** X12. The sales collection only grows, and only by a new sale: every
    request keeps the documents that were there, in their order; a request
    other than POST /sales/new_sale adds none, and a new sale adds at most
    one, at the end.  No route updates or deletes a sale. *)
Theorem sales_are_append_only (r : request) (w : world) :
  exists added,
    sales_collection (snd (route r w)) = (sales_collection w ++ added)%list
    /\ (List.length added <= 1)%nat
    /\ (added = [] \/ exists sale, r = POST_sales_new_sale sale).
Proof.
  assert (Same : forall r', preserves sales_collection (route r') ->
    exists added,
      sales_collection (snd (route r' w)) = (sales_collection w ++ added)%list
      /\ (List.length added <= 1)%nat
      /\ (added = [] \/ exists sale, r' = POST_sales_new_sale sale)).
  { intros r' P. exists []. rewrite app_nil_r.
    split; [apply P | split; [simpl; lia | left; reflexivity]]. }
  destruct r;
    try solve [apply Same; simpl route; unfold_routes; preserve].
  change (route (POST_sales_new_sale sale))
    with (fmap SaleAdded (add_new_sale sale)).
  rewrite fmap_snd.
  destruct (add_new_sale_sales sale w) as [E | E].
  - exists []. rewrite app_nil_r.
    split; [exact E | split; [simpl; lia | left; reflexivity]].
  - eexists. split; [exact E | ].
    split; [simpl; lia | right; eexists; reflexivity].
Qed.

(** ** The sales reports *)

Lemma get_sales_for_product_run (p : string) (w : world) :
  get_sales_for_product p w =
  match answer_to 0 w with
  | Broken => (Raise handle_internal_server_error, called (Call sales find) w)
  | _ =>
      (Return
         (firstn 100
            (filter (fun d => String.eqb (product_line (fields d)) p)
               (sales_collection w))),
       called (Call sales find) w)
  end.
Proof.
  unfold get_sales_for_product, try_except. rewrite run_sales_find.
  destruct (answer_to 0 w); reflexivity.
Qed.

Lemma analyze_sales_run (w : world) :
  analyze_sales w =
  match answer_to 0 w with
  | Broken =>
      (Raise handle_internal_server_error, called (Call sales aggregate) w)
  | _ =>
      match answer_to 1 w with
      | Broken =>
          (Raise handle_internal_server_error,
           called (Call sales aggregate) (called (Call sales aggregate) w))
      | _ =>
          (Return
             {| Analysis.total_quantity :=
                  match map fields (sales_collection w) with
                  | [] => 0
                  | docs => sum_quantity docs
                  end;
                Analysis.average_unit_price :=
                  match map fields (sales_collection w) with
                  | [] => Int 0
                  | docs => Float (avg_unit_price docs)
                  end |},
           called (Call sales aggregate) (called (Call sales aggregate) w))
      end
  end.
Proof.
  unfold analyze_sales, try_except. rewrite run_sales_aggregate_one.
  destruct (answer_to 0 w) eqn:A0; try reflexivity;
    rewrite run_sales_aggregate_one, answer_to_called;
    (destruct (answer_to 1 w); try reflexivity);
    unfold ret; simpl sales_collection;
    destruct (map fields (sales_collection w)); reflexivity.
Qed.

Lemma total_sales_run (w : world) :
  total_sales w =
  match answer_to 0 w with
  | Broken =>
      (Raise handle_internal_server_error, called (Call sales aggregate) w)
  | _ =>
      (Return match map fields (sales_collection w) with
              | [] => Int 0
              | docs => Float (sum_total docs)
              end,
       called (Call sales aggregate) w)
  end.
Proof.
  unfold total_sales, try_except. rewrite run_sales_aggregate_one.
  destruct (answer_to 0 w); try reflexivity;
    unfold ret; destruct (map fields (sales_collection w)); reflexivity.
Qed.

(** X13. On an empty sales collection the reports, their storage calls
    answered, return their neutral values and no error: GET /sales and
    GET /sales/{product_line} an empty list, /sales/analyze 0 for the total
    quantity and the integer 0 for the average unit price, /sales/total_sales
    and /sales/total_revenue the integer 0, /sales/categories and
    /sales/total_revenue_by_category an empty list. *)
Theorem reports_on_no_sales (w : world) (p : string) :
  sales_collection w = [] ->
  answer_to 0 w <> Broken ->
  answer_to 1 w <> Broken ->
  fst (get_sales w) = Return []
  /\ fst (get_sales_for_product p w) = Return []
  /\ fst (analyze_sales w) =
     Return {| Analysis.total_quantity := 0;
               Analysis.average_unit_price := Int 0 |}
  /\ fst (total_sales w) = Return (Int 0)
  /\ fst (total_revenue w) = Return (Int 0)
  /\ fst (get_categories w) = Return []
  /\ fst (total_revenue_by_category w) = Return [].
Proof.
  intros E A0 A1.
  change (total_revenue w) with (total_sales w).
  rewrite get_sales_for_product_run, analyze_sales_run, total_sales_run.
  unfold get_sales, get_categories, total_revenue_by_category, try_except,
    sales_revenue_by_product_line.
  rewrite run_sales_find, run_sales_distinct_product_line, run_storage_call.
  unfold bind, get_world, ret. simpl sales_collection. rewrite E.
  destruct (answer_to 0 w); try (destruct A0; reflexivity);
    (destruct (answer_to 1 w); try (destruct A1; reflexivity));
    repeat split.
Qed.

Lemma reports_on_no_sales_witness :
  fst (analyze_sales (shop [soap 5] [])) =
  Return {| Analysis.total_quantity := 0;
            Analysis.average_unit_price := Int 0 |}
  /\ fst (total_revenue (shop [soap 5] [])) = Return (Int 0).
Proof.
  assert (A0 : answer_to 0 (shop [soap 5] []) <> Broken) by discriminate.
  assert (A1 : answer_to 1 (shop [soap 5] []) <> Broken) by discriminate.
  destruct (reports_on_no_sales (shop [soap 5] []) "Soap" eq_refl A0 A1)
    as (_ & _ & An & _ & Re & _).
  split; [exact An | exact Re].
Defined.

(** X14. GET /sales/{product_line}, its storage call answered, returns
    sales of that product line only, at most 100 of them, each one a
    document of the collection; a product line without sales, known to the
    inventory or not, gets the empty list and no 404. *)
Theorem sales_for_product_only (p : string) (w : world) :
  answer_to 0 w <> Broken ->
  exists listed,
    fst (get_sales_for_product p w) = Return listed
    /\ (List.length listed <= 100)%nat
    /\ (forall d, In d listed ->
                  In d (sales_collection w)
                  /\ product_line (fields d) = p)
    /\ ((forall d, In d (sales_collection w) ->
                   product_line (fields d) <> p) -> listed = []).
Proof.
  intros A. rewrite get_sales_for_product_run.
  destruct (answer_to 0 w); try (destruct A; reflexivity);
    (eexists; split; [reflexivity | ]);
    (split; [ rewrite length_firstn; apply Nat.le_min_l | ]);
    (split;
     [ intros d I; apply in_firstn in I; apply filter_In in I;
       destruct I as [I E]; apply String.eqb_eq in E; split; assumption
     | intros None;
       destruct (filter _ (sales_collection w)) as [ | x l] eqn:F;
       [ reflexivity
       | assert (I : In x (x :: l)) by (left; reflexivity);
         rewrite <- F in I; apply filter_In in I; destruct I as [I E];
         apply String.eqb_eq in E; destruct (None x I E) ]]).
Qed.

Lemma sales_for_product_only_witness :
  fst (get_sales_for_product "Tea" (shop [soap 5] [])) = Return [].
Proof.
  assert (A : answer_to 0 (shop [soap 5] []) <> Broken) by discriminate.
  destruct (sales_for_product_only "Tea" (shop [soap 5] []) A)
    as (listed & R & _ & _ & E).
  rewrite R. rewrite E; [reflexivity | ]. intros d [].
Defined.

(** X15. GET /inventory/low_quantity_warning returns a list only when no
    document of the inventory at all has a quantity below 10, and the list
    is then empty: no run returns a warning entry. *)
Theorem low_quantity_warning_returns_only_empty (w : world)
    (listed : list Warning.t) :
  fst (check_low_quantity_warning w) = Return listed ->
  listed = []
  /\ forall d, In d (inventory_collection w) -> 10 <= Quantity d.
Proof.
  destruct (answer_to 0 w) eqn:A0.
  3: { unfold check_low_quantity_warning. rewrite run_inventory_find, A0.
       discriminate. }
  all: rewrite check_low_quantity_warning_run by (rewrite A0; discriminate).
  all: unfold to_list.
  all: destruct (filter (fun d => Quantity d <? 10) (inventory_collection w))
         as [ | x l] eqn:F; simpl firstn; [ | discriminate].
  all: intros [= <-]; split; [reflexivity | ].
  all: intros d I; destruct (Z.ltb_spec (Quantity d) 10) as [L | L];
         [ | exact L].
  all: assert (In d (filter (fun d => Quantity d <? 10)
                       (inventory_collection w)))
         by (apply filter_In; split; [exact I | apply Z.ltb_lt; exact L]).
  all: rewrite F in *; contradiction.
Qed.

Lemma low_quantity_warning_returns_only_empty_witness :
  fst (check_low_quantity_warning (shop [tea 20; soap 10] [])) = Return []
  /\ forall d, In d [tea 20; soap 10] -> 10 <= Quantity d.
Proof.
  split; [reflexivity | ].
  exact (proj2 (low_quantity_warning_returns_only_empty
                  (shop [tea 20; soap 10] []) [] eq_refl)).
Defined.

(** ** More on the sale-recording workflow *)

(** Whatever the driver answers, [add_new_sale] leaves the inventory as it
    was or writes the stock minus the quantity for the product, after the
    stock check has passed. *)
Lemma add_new_sale_inventory (sale : Sale) (w : world) :
  inventory_collection (snd (add_new_sale sale w)) = inventory_collection w
  \/ exists item,
       stocked (product_line sale) w = Some item
       /\ quantity sale <= Quantity item
       /\ inventory_collection (snd (add_new_sale sale w)) =
          restocked (product_line sale) (Quantity item - quantity sale)
            (inventory_collection w).
Proof.
  rewrite add_new_sale_run.
  destruct (answer_to 0 w);
    try (left; reflexivity);
    (destruct (stocked (product_line sale) w) as [item | ];
     [ | left; reflexivity]);
    (destruct (Z.ltb_spec (Quantity item) (quantity sale)) as [L | L];
     [left; reflexivity | ]);
    (destruct (Z.abs (quantity sale) <? float_limit); simpl negb; cbv iota;
     [ | left; reflexivity]);
    (destruct (int64 (Quantity item - quantity sale)); simpl negb; cbv iota;
     [ | left; reflexivity]);
    (destruct (answer_to 1 w); try (left; reflexivity));
    cbv zeta;
    (destruct (int64 (quantity sale)); simpl negb; cbv iota;
     [ destruct (answer_to 2 w) | ]);
    right; exists item; (split; [reflexivity | split; [exact L | reflexivity]]).
Qed.

Lemma restocked_non_negative (p : string) (q : Z) (l : list InventoryDoc) :
  0 <= q ->
  (forall d, In d l -> 0 <= Quantity d) ->
  forall d, In d (restocked p q l) -> 0 <= Quantity d.
Proof.
  intros Q. unfold restocked. induction l as [ | x l IH]; intros N d; simpl.
  - intros [].
  - destruct (String.eqb (Products x) p); simpl.
    + intros [<- | I]; [exact Q | apply N; right; exact I].
    + intros [<- | I]; [apply N; left; reflexivity | ].
      apply IH; [ | exact I]. intros d' I'. apply N. right. exact I'.
Qed.

(** X16. A new sale never makes a quantity of the inventory negative:
    whatever the request (a quantity of any sign), whatever the driver
    answers and whatever the outcome, an inventory without negative
    quantities stays one. *)
Theorem new_sale_never_overdraws (sale : Sale) (w : world) :
  non_negative w -> non_negative (after (add_new_sale sale) w).
Proof.
  intros N. unfold after, non_negative.
  destruct (add_new_sale_inventory sale w) as [E | (item & _ & L & E)];
    rewrite E.
  - exact N.
  - apply restocked_non_negative; [lia | exact N].
Qed.

Lemma new_sale_never_overdraws_witness :
  non_negative (shop [soap 5; tea 0] [])
  /\ non_negative
       (after (add_new_sale (order 10 5)) (shop [soap 5; tea 0] [])).
Proof.
  assert (N : non_negative (shop [soap 5; tea 0] [])).
  { intros d [<- | [<- | []]]; simpl; lia. }
  split; [exact N | ].
  exact (new_sale_never_overdraws (order 10 5) _ N).
Defined.

(** X17. A new sale changes the stock of no other product: for every
    product but the sale's product line, the quantity the inventory holds
    is the same after the request, whatever its outcome. *)
Theorem new_sale_leaves_other_products (sale : Sale) (w : world)
    (product : string) :
  product <> product_line sale ->
  stock_of product (after (add_new_sale sale) w) = stock_of product w.
Proof.
  intros N. unfold after, stock_of, stocked.
  destruct (add_new_sale_inventory sale w) as [E | (item & _ & _ & E)];
    rewrite E; [reflexivity | ].
  rewrite (find_restocked_other _ _ _ _ N). reflexivity.
Qed.

Lemma new_sale_leaves_other_products_witness :
  stock_of "Tea" (after (add_new_sale (order 10 3)) (shop [soap 5; tea 20] []))
  = Some 20.
Proof.
  assert (N : "Tea" <> product_line (order 10 3)) by discriminate.
  rewrite (new_sale_leaves_other_products (order 10 3)
             (shop [soap 5; tea 20] []) "Tea" N).
  reflexivity.
Defined.

(** X18. The sale a new sale returns is the request with four fields
    replaced, the date, the time, the total and the tax: the invoice id,
    branch, city, customer type, gender, product line, unit price,
    quantity, payment, cogs, gross margin percentage, gross income and
    rating are the client's, unchecked. *)
Theorem new_sale_echoes_the_other_fields (sale s : Sale) (w : world) :
  fst (add_new_sale sale w) = Return s ->
  invoice_id s = invoice_id sale
  /\ branch s = branch sale
  /\ city s = city sale
  /\ customer_type s = customer_type sale
  /\ gender s = gender sale
  /\ product_line s = product_line sale
  /\ unit_price s = unit_price sale
  /\ quantity s = quantity sale
  /\ payment s = payment sale
  /\ cogs s = cogs sale
  /\ gross_margin_percentage s = gross_margin_percentage sale
  /\ gross_income s = gross_income sale
  /\ rating s = rating sale.
Proof.
  intros R. destruct (add_new_sale_returns sale s w R) as [-> _].
  repeat split.
Qed.

Lemma new_sale_echoes_the_other_fields_witness :
  invoice_id (priced (order 10 3) (shop [soap 5] [])) = "750-67-8428"
  /\ rating (priced (order 10 3) (shop [soap 5] [])) = 9%float.
Proof.
  destruct (new_sale_echoes_the_other_fields (order 10 3)
              (priced (order 10 3) (shop [soap 5] [])) (shop [soap 5] [])
              eq_refl)
    as (I & _ & _ & _ & _ & _ & _ & _ & _ & _ & _ & _ & Ra).
  split; [exact I | exact Ra].
Defined.

(** The answers of the driver after a sale that went through. *)
Lemma answer_to_recorded (k : nat) (s : Sale) (p : string) (q : Z)
    (w : world) :
  answer_to k (recorded s (decremented p q w)) = answer_to (3 + k) w.
Proof.
  change (answer_to k (called (Call sales insert_one) (decremented p q w))
          = answer_to (3 + k) w).
  rewrite answer_to_called, answer_to_decremented. reflexivity.
Qed.

Lemma stocked_decremented (p : string) (q : Z) (w : world)
    (item : InventoryDoc) :
  stocked p w = Some item ->
  stocked p (decremented p q w) = Some (apply_set None (Some q) item).
Proof.
  intros F. unfold stocked, decremented. simpl.
  exact (find_restocked _ _ _ _ F).
Qed.

(** X19. Recording a sale is not idempotent: the same request sent twice,
    one after the other, against a stock of at least twice the quantity
    and with the six storage calls carried out, succeeds twice; the stock
    goes down by twice the quantity and the sales collection gains two
    documents, of the two ids the driver generated. *)
Theorem same_sale_twice_decrements_twice (w : world) (sale : Sale)
    (item : InventoryDoc) :
  stocked (product_line sale) w = Some item ->
  0 < quantity sale ->
  2 * quantity sale <= Quantity item ->
  storable w ->
  carried_out 6 w ->
  let w1 := after (add_new_sale sale) w in
  let w2 := after (add_new_sale sale) w1 in
  fst (add_new_sale sale w) = Return (priced sale w)
  /\ fst (add_new_sale sale w1) = Return (priced sale w1)
  /\ stock_of (product_line sale) w2 = Some (Quantity item - 2 * quantity sale)
  /\ sales_collection w2 =
     (sales_collection w
      ++ [{| sale_id := IdObject (next_ObjectId w);
             fields := priced sale w |};
          {| sale_id := IdObject (ObjectId_succ (next_ObjectId w));
             fields := priced sale w1 |}])%list.
Proof.
  intros F P L S C w1 w2. subst w2 w1. unfold after.
  assert (Is : int64 (Quantity item) = true).
  { apply S. apply (stocked_product _ _ _ F). }
  apply int64_spec in Is.
  assert (Iq : int64 (quantity sale) = true) by (apply int64_spec; lia).
  assert (Id : int64 (Quantity item - quantity sale) = true)
    by (apply int64_spec; lia).
  assert (C1 : carried_out 3 w).
  { intros k K. apply C. lia. }
  assert (L0 : quantity sale <= Quantity item) by lia.
  rewrite (add_new_sale_done sale w item F L0 Iq Id C1).
  simpl fst. simpl snd.
  set (w1 := recorded (priced sale w)
               (decremented (product_line sale)
                  (Quantity item - quantity sale) w)).
  assert (F1 : stocked (product_line sale) w1 =
               Some (apply_set None (Some (Quantity item - quantity sale))
                       item)).
  { exact (stocked_decremented _ _ _ _ F). }
  assert (C2 : carried_out 3 w1).
  { intros k K. unfold w1. rewrite answer_to_recorded. apply C. lia. }
  assert (Id2 : int64 (Quantity item - quantity sale - quantity sale) = true)
    by (apply int64_spec; lia).
  assert (L1 : quantity sale <=
               Quantity (apply_set None
                           (Some (Quantity item - quantity sale)) item))
    by (simpl; lia).
  rewrite (add_new_sale_done sale w1 _ F1 L1 Iq Id2 C2).
  simpl fst. simpl snd.
  split; [reflexivity | ]. split; [reflexivity | ].
  split.
  - rewrite stock_of_recorded.
    rewrite (stock_of_decremented _ _ _ _ F1).
    cbn [Quantity apply_set]. f_equal. lia.
  - unfold w1. simpl. rewrite <- app_assoc. reflexivity.
Qed.

Lemma same_sale_twice_decrements_twice_witness :
  stock_of "Soap"
    (after (add_new_sale (order 10 3))
       (after (add_new_sale (order 10 3)) (shop [soap 8] []))) = Some 2
  /\ List.length
       (sales_collection
          (after (add_new_sale (order 10 3))
             (after (add_new_sale (order 10 3)) (shop [soap 8] [])))) = 2%nat.
Proof.
  assert (P : 0 < quantity (order 10 3)) by reflexivity.
  assert (L : 2 * quantity (order 10 3) <= Quantity (soap 8))
    by (simpl; lia).
  assert (S : storable (shop [soap 8] [])).
  { intros d [<- | []]; reflexivity. }
  assert (C : carried_out 6 (shop [soap 8] [])).
  { intros [ | [ | [ | [ | [ | [ | k]]]]]] _; reflexivity. }
  destruct (same_sale_twice_decrements_twice (shop [soap 8] []) (order 10 3)
              (soap 8) eq_refl P L S C) as (_ & _ & St & Sa).
  split; [exact St | ]. rewrite Sa. reflexivity.
Defined.

(** X20. Of two identical sales sent one after the other against a stock
    that covers one but not two of them, the first succeeds and the second
    is refused with the 404 of insufficient quantity: the stock is
    decremented once, does not go below zero, and one sale is recorded. *)
Theorem second_sale_is_refused_when_stock_is_short (w : world) (sale : Sale)
    (item : InventoryDoc) :
  stocked (product_line sale) w = Some item ->
  0 < quantity sale <= Quantity item ->
  Quantity item < 2 * quantity sale ->
  storable w ->
  carried_out 4 w ->
  let w1 := after (add_new_sale sale) w in
  let w2 := after (add_new_sale sale) w1 in
  fst (add_new_sale sale w) = Return (priced sale w)
  /\ fst (add_new_sale sale w1) =
     Raise (HTTPException 404 "Insufficient quantity in inventory")
  /\ stock_of (product_line sale) w2 = Some (Quantity item - quantity sale)
  /\ 0 <= Quantity item - quantity sale
  /\ sales_collection w2 =
     (sales_collection w
      ++ [{| sale_id := IdObject (next_ObjectId w);
             fields := priced sale w |}])%list.
Proof.
  intros F [P L] Sh S C w1 w2. subst w2 w1. unfold after.
  assert (Is : int64 (Quantity item) = true).
  { apply S. apply (stocked_product _ _ _ F). }
  apply int64_spec in Is.
  assert (Iq : int64 (quantity sale) = true) by (apply int64_spec; lia).
  assert (Id : int64 (Quantity item - quantity sale) = true)
    by (apply int64_spec; lia).
  assert (C1 : carried_out 3 w).
  { intros k K. apply C. lia. }
  rewrite (add_new_sale_done sale w item F L Iq Id C1).
  simpl fst. simpl snd.
  set (w1 := recorded (priced sale w)
               (decremented (product_line sale)
                  (Quantity item - quantity sale) w)).
  assert (F1 : stocked (product_line sale) w1 =
               Some (apply_set None (Some (Quantity item - quantity sale))
                       item)).
  { exact (stocked_decremented _ _ _ _ F). }
  assert (L1 : Quantity (apply_set None
                           (Some (Quantity item - quantity sale)) item)
               < quantity sale)
    by (simpl; lia).
  rewrite (add_new_sale_short sale w1 _ F1 L1).
  assert (A : answer_to 0 w1 = Acked).
  { unfold w1. rewrite answer_to_recorded. apply C. lia. }
  rewrite A. simpl fst. simpl snd.
  split; [reflexivity | ]. split; [reflexivity | ].
  split; [ | split; [lia | reflexivity]].
  change (stock_of (product_line sale) w1 =
          Some (Quantity item - quantity sale)).
  unfold w1. rewrite stock_of_recorded.
  exact (stock_of_decremented _ _ _ _ F).
Qed.

Lemma second_sale_is_refused_when_stock_is_short_witness :
  fst (add_new_sale (order 10 3)
         (after (add_new_sale (order 10 3)) (shop [soap 3] []))) =
  Raise (HTTPException 404 "Insufficient quantity in inventory")
  /\ stock_of "Soap"
       (after (add_new_sale (order 10 3))
          (after (add_new_sale (order 10 3)) (shop [soap 3] []))) = Some 0.
Proof.
  assert (Q : 0 < quantity (order 10 3) <= Quantity (soap 3))
    by (simpl; lia).
  assert (Sh : Quantity (soap 3) < 2 * quantity (order 10 3))
    by reflexivity.
  assert (S : storable (shop [soap 3] [])).
  { intros d [<- | []]; reflexivity. }
  assert (C : carried_out 4 (shop [soap 3] [])).
  { intros [ | [ | [ | [ | k]]]] _; reflexivity. }
  destruct (second_sale_is_refused_when_stock_is_short (shop [soap 3] [])
              (order 10 3) (soap 3) eq_refl Q Sh S C)
    as (_ & R & St & _).
  split; [exact R | exact St].
Defined.

(** Every value is among the distinct ones, unless it was seen before. *)
Lemma in_distinct_values (x : string) (l seen : list string) :
  In x l -> In x seen \/ In x (distinct_values seen l).
Proof.
  revert seen. induction l as [ | y l IH]; intros seen; simpl.
  - intros [].
  - intros [-> | I].
    + destruct (existsb (String.eqb x) seen) eqn:E.
      * left. apply existsb_exists in E. destruct E as (z & Iz & Ez).
        apply String.eqb_eq in Ez. rewrite Ez. exact Iz.
      * right. left. reflexivity.
    + destruct (existsb (String.eqb y) seen).
      * apply IH. exact I.
      * destruct (IH (y :: seen) I) as [[-> | S] | D].
        -- right. left. reflexivity.
        -- left. exact S.
        -- right. right. exact D.
Qed.

Lemma in_firstn_last {A} (n : nat) (l : list A) (x : A) :
  (List.length l < n)%nat -> In x (firstn n (l ++ [x])).
Proof.
  intros L. rewrite firstn_app.
  apply in_or_app. right.
  destruct (n - List.length l)%nat as [ | k] eqn:E; [lia | ].
  left. reflexivity.
Qed.

(** X21. A sale that POST /sales/new_sale has returned is seen by the
    reports that follow, their storage call answered: its product line is
    one of GET /sales/categories and has an entry in
    /sales/total_revenue_by_category, and GET /sales/{product_line} lists
    the new document, unless 100 older sales of the product line fill the
    list. *)
Theorem recorded_sale_is_reported (sale s : Sale) (w : world) :
  fst (add_new_sale sale w) = Return s ->
  let w' := after (add_new_sale sale) w in
  answer_to 0 w' <> Broken ->
  (exists l, fst (get_categories w') = Return l
             /\ In (product_line sale) l)
  /\ (exists l, fst (total_revenue_by_category w') = Return l
                /\ In (product_line sale) (map fst l))
  /\ ((List.length
         (filter (fun d => String.eqb (product_line (fields d))
                             (product_line sale))
            (sales_collection w)) < 100)%nat ->
      exists l,
        fst (get_sales_for_product (product_line sale) w') = Return l
        /\ In {| sale_id := IdObject (next_ObjectId w); fields := s |} l).
Proof.
  intros R w' A. subst w'. unfold after in *.
  destruct (add_new_sale_returns sale s w R) as [-> P].
  assert (Cat : In (product_line sale)
                  (distinct_values []
                     (map product_line
                        (map fields
                           (sales_collection (snd (add_new_sale sale w))))))).
  { destruct (in_distinct_values (product_line sale)
                (map product_line
                   (map fields (sales_collection (snd (add_new_sale sale w)))))
                []) as [[] | D]; [ | exact D].
    rewrite P, !map_app. apply in_or_app. right. left. reflexivity. }
  split; [ | split].
  - unfold get_categories, try_except.
    rewrite run_sales_distinct_product_line.
    rewrite map_map in Cat.
    destruct (answer_to 0 (snd (add_new_sale sale w)));
      try (destruct A; reflexivity);
      (eexists; split; [reflexivity | exact Cat]).
  - unfold total_revenue_by_category, try_except,
      sales_revenue_by_product_line.
    rewrite run_storage_call.
    destruct (answer_to 0 (snd (add_new_sale sale w)));
      try (destruct A; reflexivity);
      unfold bind, get_world, ret; simpl fst;
      (eexists; split; [reflexivity | ]);
      rewrite map_map; simpl; rewrite map_id; exact Cat.
  - intros Few. rewrite get_sales_for_product_run.
    destruct (answer_to 0 (snd (add_new_sale sale w)));
      try (destruct A; reflexivity);
      (eexists; split; [reflexivity | ]);
      rewrite P, filter_app; simpl filter;
      cbn [fields product_line priced set_tax_5_percent set_total stamped
           set_time set_date];
      rewrite String.eqb_refl; apply in_firstn_last; exact Few.
Qed.

Lemma recorded_sale_is_reported_witness :
  exists l,
    fst (get_categories
           (after (add_new_sale (order 10 3)) (shop [soap 5] []))) = Return l
    /\ In "Soap" l.
Proof.
  assert (A : answer_to 0
                (after (add_new_sale (order 10 3)) (shop [soap 5] []))
              <> Broken) by discriminate.
  exact (proj1 (recorded_sale_is_reported (order 10 3)
                  (priced (order 10 3) (shop [soap 5] []))
                  (shop [soap 5] []) eq_refl A)).
Defined.

(** X22. The storage calls of a new sale, whatever the driver answers, are
    the lookup alone, the lookup and the update, or the lookup, the update
    and the insert, in this order and after the two readings of the clock:
    the handler never writes before it has read, never calls the store a
    fourth time, and never deletes. *)
Theorem new_sale_makes_at_most_three_calls (sale : Sale) (w : world) :
  exists calls,
    journal (snd (add_new_sale sale w)) =
    (journal w ++ Now :: Now :: map Storage calls)%list
    /\ (calls = [Call inventory find_one]
        \/ calls = [Call inventory find_one; Call inventory update_one]
        \/ calls = [Call inventory find_one; Call inventory update_one;
                    Call sales insert_one]).
Proof.
  rewrite add_new_sale_run.
  assert (J1 :
    journal (looked_up w) =
    (journal w ++ Now :: Now :: map Storage [Call inventory find_one])%list).
  { unfold looked_up. simpl. rewrite <- !app_assoc. reflexivity. }
  assert (J2 :
    journal (called (Call inventory update_one) (looked_up w)) =
    (journal w ++ Now :: Now
       :: map Storage [Call inventory find_one;
                       Call inventory update_one])%list).
  { unfold looked_up. simpl. rewrite <- !app_assoc. reflexivity. }
  assert (J3 : forall p q,
    journal (called (Call sales insert_one) (decremented p q w)) =
    (journal w ++ Now :: Now
       :: map Storage [Call inventory find_one; Call inventory update_one;
                       Call sales insert_one])%list).
  { intros. unfold decremented, looked_up. simpl. rewrite <- !app_assoc.
    reflexivity. }
  destruct (answer_to 0 w);
    try (eexists; (split; [exact J1 | left; reflexivity]));
    (destruct (stocked (product_line sale) w) as [item | ];
     [ | eexists; (split; [exact J1 | left; reflexivity])]);
    (destruct (Quantity item <? quantity sale);
     [eexists; (split; [exact J1 | left; reflexivity]) | ]);
    (destruct (Z.abs (quantity sale) <? float_limit); simpl negb; cbv iota;
     [ | eexists; (split; [exact J1 | left; reflexivity])]);
    (destruct (int64 (Quantity item - quantity sale)); simpl negb; cbv iota;
     [ | eexists; (split; [exact J1 | left; reflexivity])]);
    (destruct (answer_to 1 w);
     try (eexists; (split; [exact J2 | right; left; reflexivity])));
    cbv zeta;
    (destruct (int64 (quantity sale)); simpl negb; cbv iota;
     [ | eexists; (split; [exact J2 | right; left; reflexivity])]);
    (destruct (answer_to 2 w);
     eexists; (split; [apply J3 | right; right; reflexivity])).
Qed.

(** The loop of the low-quantity warning raises nothing but the warning of
    status 200. *)
Lemma warn_each_status (items : list InventoryDoc)
    (warning_messages : list Warning.t) (w : world) :
  status_code (fst (warn_each items warning_messages w)) = 200.
Proof.
  revert warning_messages. induction items as [ | item rest IH];
    intros warning_messages; simpl.
  - reflexivity.
  - unfold bind, InventoryErrorHandler.handle_quantity_warning.
    destruct (Quantity item <? 10); simpl; [reflexivity | apply IH].
Qed.

Lemma check_low_quantity_warning_status (w : world) :
  status_code (fst (check_low_quantity_warning w)) = 200
  \/ status_code (fst (check_low_quantity_warning w)) = 500.
Proof.
  unfold check_low_quantity_warning. rewrite run_inventory_find.
  destruct (answer_to 0 w);
    solve [right; reflexivity | left; apply warn_each_status].
Qed.

Lemma fmap_status {A B} (g : A -> B) (m : M A) (w : world) :
  status_code (fst (fmap g m w)) = status_code (fst (m w)).
Proof.
  unfold fmap, bind. destruct (m w) as [[a | e] w']; reflexivity.
Qed.

(** X23. Every response has status 200, 404 or 500, and 404 comes from
    POST /sales/new_sale alone: a handler with a generic catch raises
    nothing but the HTTPException of status 500 and detail "Internal Server
    Error", whatever went wrong inside, a missing item included. *)
Theorem statuses_of_the_routes (r : request) (w : world) :
  (status_code (fst (route r w)) = 200
   \/ status_code (fst (route r w)) = 404
   \/ status_code (fst (route r w)) = 500)
  /\ (status_code (fst (route r w)) = 404 ->
      exists sale, r = POST_sales_new_sale sale)
  /\ (generic_catch r = true ->
      forall e, fst (route r w) = Raise e ->
                e = HTTPException 500 "Internal Server Error").
Proof.
  assert (Caught : forall A B (g : A -> B) (body : M A),
    let o := fst (fmap g (try_except body handle_internal_server_error) w) in
    (status_code o = 200 \/ status_code o = 404 \/ status_code o = 500)
    /\ (status_code o = 404 -> exists sale, r = POST_sales_new_sale sale)
    /\ (forall e, o = Raise e ->
                  e = HTTPException 500 "Internal Server Error")).
  { intros A B g body o. subst o. unfold fmap, bind, try_except, ret.
    destruct (body w) as [[a | e] w']; simpl.
    - split; [left; reflexivity | split; discriminate].
    - split; [right; right; reflexivity | ].
      split; [discriminate | intros e' [= <-]; reflexivity]. }
  destruct r; simpl generic_catch; simpl route;
    try (unfold get_inventory, get_inventory_stats, get_item, add_inventory,
           update_inventory, delete_inventory, get_sales, analyze_sales,
           total_revenue_by_category, get_categories, total_sales,
           total_revenue, get_sales_for_product;
         match goal with
         | |- context [fmap ?g (try_except ?b _)] =>
             destruct (Caught _ _ g b) as (S & N & E)
         end;
         split; [exact S | split; [exact N | intros _; exact E]]).
  - (* the low-quantity warning *)
    rewrite fmap_status.
    destruct (check_low_quantity_warning_status w) as [S | S]; rewrite S.
    + split; [left; reflexivity | split; discriminate].
    + split; [right; right; reflexivity | split; discriminate].
  - (* the new sale *)
    split; [ | split; [intros _; eexists; reflexivity | discriminate]].
    rewrite fmap_status, add_new_sale_run.
    destruct (answer_to 0 w);
      try (simpl; right; right; reflexivity);
      (destruct (stocked (product_line sale) w) as [item | ];
       [ | simpl; right; left; reflexivity]);
      (destruct (Quantity item <? quantity sale);
       [simpl; right; left; reflexivity | ]);
      (destruct (Z.abs (quantity sale) <? float_limit); simpl negb; cbv iota;
       [ | simpl; right; right; reflexivity]);
      (destruct (int64 (Quantity item - quantity sale)); simpl negb;
       cbv iota; [ | simpl; right; right; reflexivity]);
      (destruct (answer_to 1 w); try (simpl; right; right; reflexivity));
      cbv zeta;
      (destruct (int64 (quantity sale)); simpl negb; cbv iota;
       [ | simpl; right; right; reflexivity]);
      (destruct (answer_to 2 w); simpl;
       [left; reflexivity | right; right; reflexivity
       | right; right; reflexivity]).
Qed.

Lemma statuses_of_the_routes_witness :
  (status_code
     (fst (route (POST_sales_new_sale (order 10 9)) (shop [soap 5] []))) = 200
   \/ status_code
        (fst (route (POST_sales_new_sale (order 10 9)) (shop [soap 5] [])))
      = 404
   \/ status_code
        (fst (route (POST_sales_new_sale (order 10 9)) (shop [soap 5] [])))
      = 500)
  /\ HTTPException 500 "Internal Server Error" =
     HTTPException 500 "Internal Server Error".
Proof.
  split.
  - exact (proj1 (statuses_of_the_routes
                    (POST_sales_new_sale (order 10 9)) (shop [soap 5] []))).
  - exact (proj2 (proj2 (statuses_of_the_routes
                           (GET_inventory_item "abc") (shop [soap 5] [])))
             eq_refl (HTTPException 500 "Internal Server Error") eq_refl).
Defined.
